(** * Darknet-to-Keras converter (bin/convert_yad2k.py): embedding and properties

    The development follows the script top to bottom:
    - [Py]: the Python string primitives the script calls
      ([str.startswith], [str.strip], [str.replace], [str], [int]);
    - [Uniq]: [unique_config_sections], the section renaming pass;
    - [Np]: the little of NumPy that the weight decoding uses
      ([np.ndarray] over a byte buffer, [np.transpose], [np.product]);
    - [Conv]: the body of [_main] from the header read to the final report,
      as a state-and-exception monad over the converter state.

    The downloads, the progress lines printed per section and the summary
    file are left out; Keras is present as the graph of nodes its layer calls
    create. *)

From Stdlib Require Import ZArith Ascii String List Lia QArith.
From Stdlib.Strings Require Import Byte.
From stdpp Require Import base numbers list gmap strings pretty.

Local Open Scope stdpp_scope.

(** ** Python string primitives *)

Module Py.

(** [str.isspace] on one character, for code points below 256 (text is
    modelled as a sequence of such code points). *)
Definition isspace (c : ascii) : bool :=
  let n := N_of_ascii c in
  ((9 <=? n) && (n <=? 13) || (28 <=? n) && (n <=? 32) || (n =? 133) || (n =? 160))%N.

(** [c in chars] for a character and a string. *)
Fixpoint mem (c : ascii) (chars : string) : bool :=
  match chars with
  | "" => false
  | String d chars' => if decide (c = d) then true else mem c chars'
  end.

Fixpoint lstrip_by (p : ascii -> bool) (s : string) : string :=
  match s with
  | "" => ""
  | String c s' => if p c then lstrip_by p s' else s
  end.

Fixpoint rstrip_by (p : ascii -> bool) (s : string) : string :=
  match s with
  | "" => ""
  | String c s' =>
      match rstrip_by p s' with
      | "" => if p c then "" else String c ""
      | r => String c r
      end
  end.

(** [s.strip()] *)
Definition strip (s : string) : string := rstrip_by isspace (lstrip_by isspace s).

(** [s.strip(chars)] *)
Definition strip_chars (chars s : string) : string :=
  rstrip_by (fun c => mem c chars) (lstrip_by (fun c => mem c chars) s).

(** [s.startswith(prefix)] *)
Definition startswith (s pre : string) : bool := String.prefix pre s.

(** [s.replace(old, new)]: every non-overlapping occurrence of [old], found
    left to right, becomes [new]; an empty [old] matches before every
    character and at the end. [skip] counts the characters of a match that
    are still to be dropped. *)
Fixpoint replace_go (old new s : string) (skip : nat) : string :=
  match s with
  | "" => ""
  | String c s' =>
      match skip with
      | S k => replace_go old new s' k
      | O =>
          if String.prefix old s
          then new +:+ replace_go old new s' (String.length old - 1)
          else String c (replace_go old new s' 0)
      end
  end.

Fixpoint intersperse_before (new s : string) : string :=
  match s with
  | "" => new
  | String c s' => new +:+ String c (intersperse_before new s')
  end.

Definition replace (old new s : string) : string :=
  match old with
  | "" => intersperse_before new s
  | _ => replace_go old new s 0
  end.

(** [str(n)] for a non-negative integer. *)
Definition str (n : nat) : string := pretty n.

(** The digits of an integer literal: decimal digits, single underscores
    allowed between two digits. [prev] tells whether the previous character
    was a digit. *)
Fixpoint int_digits (s : string) (acc : Z) (prev : bool) : option Z :=
  match s with
  | "" => if prev then Some acc else None
  | String c s' =>
      match Ascii.is_nat c with
      | Some d => int_digits s' (10 * acc + Z.of_nat d)%Z true
      | None =>
          if decide (c = "_"%char)
          then (if prev then int_digits s' acc false else None)
          else None
      end
  end.

(** The white space that [int()] and [float()] drop around a literal. The
    separators U+001C to U+001F are white space for [str.isspace] but not
    here: a literal next to one of them is refused. *)
Definition literal_space (c : ascii) : bool :=
  let n := N_of_ascii c in
  ((9 <=? n) && (n <=? 13) || (n =? 32) || (n =? 133) || (n =? 160))%N.

Definition strip_literal (s : string) : string :=
  rstrip_by literal_space (lstrip_by literal_space s).

(** [int(s)]: surrounding white space is dropped, one sign is accepted;
    [None] is the [ValueError]. *)
Definition int (s : string) : option Z :=
  match strip_literal s with
  | String "-" ds => Z.opp <$> int_digits ds 0%Z false
  | String "+" ds => int_digits ds 0%Z false
  | ds => int_digits ds 0%Z false
  end.

(** [float(s)] accepts, between white space and after one optional sign, a
    decimal number (digits with single underscores between two digits, a
    point with digits on at least one side, an optional exponent) or one of
    the words inf, infinity and nan in any case. The states of the
    recogniser name what has been read last. *)
Inductive float_state :=
| F_start | F_int | F_int_underscore | F_dot | F_point | F_frac | F_frac_underscore
| F_e | F_e_sign | F_exp | F_exp_underscore.

Definition float_step (q : float_state) (c : ascii) : option float_state :=
  let digit := bool_decide (is_Some (Ascii.is_nat c)) in
  let underscore := bool_decide (c = "_"%char) in
  let point := bool_decide (c = "."%char) in
  let e := bool_decide (c = "e"%char \/ c = "E"%char) in
  let sign := bool_decide (c = "+"%char \/ c = "-"%char) in
  match q with
  | F_start => if digit then Some F_int else if point then Some F_dot else None
  | F_int =>
      if digit then Some F_int else if underscore then Some F_int_underscore
      else if point then Some F_point else if e then Some F_e else None
  | F_int_underscore => if digit then Some F_int else None
  | F_dot => if digit then Some F_frac else None
  | F_point => if digit then Some F_frac else if e then Some F_e else None
  | F_frac =>
      if digit then Some F_frac else if underscore then Some F_frac_underscore
      else if e then Some F_e else None
  | F_frac_underscore => if digit then Some F_frac else None
  | F_e => if digit then Some F_exp else if sign then Some F_e_sign else None
  | F_e_sign => if digit then Some F_exp else None
  | F_exp => if digit then Some F_exp else if underscore then Some F_exp_underscore else None
  | F_exp_underscore => if digit then Some F_exp else None
  end.

Definition float_final (q : float_state) : bool :=
  match q with
  | F_int | F_point | F_frac | F_exp => true
  | _ => false
  end.

Fixpoint float_run (q : float_state) (s : string) : bool :=
  match s with
  | "" => float_final q
  | String c s' =>
      match float_step q c with
      | Some q' => float_run q' s'
      | None => false
      end
  end.

Fixpoint lower (s : string) : string :=
  match s with
  | "" => ""
  | String c s' =>
      let n := N_of_ascii c in
      String (if (65 <=? n) && (n <=? 90) then ascii_of_N (n + 32) else c)%N (lower s')
  end.

(** Whether [float(s)] returns; otherwise it raises [ValueError]. *)
Definition is_float (s : string) : bool :=
  let body :=
    match strip_literal s with
    | String "-" r => r
    | String "+" r => r
    | r => r
    end in
  float_run F_start body || bool_decide (lower body ∈ ["inf"; "infinity"; "nan"]).

(** [s.split(sep)] for a one-character separator. *)
Fixpoint split_go (sep : ascii) (cur : string) (s : string) : list string :=
  match s with
  | "" => [String.rev cur]
  | String c s' =>
      if decide (c = sep)
      then String.rev cur :: split_go sep "" s'
      else split_go sep (String c cur) s'
  end.

Definition split (sep : ascii) (s : string) : list string := split_go sep "" s.

(** [l[i]] for a list and a Python integer: negative indices count from the
    end; [None] is the [IndexError]. *)
Definition index {A} (l : list A) (i : Z) : option A :=
  let n := Z.of_nat (length l) in
  if (0 <=? i)%Z then l !! Z.to_nat i
  else if (- n <=? i)%Z then l !! Z.to_nat (n + i)
  else None.

End Py.

(** ** [unique_config_sections] *)

Module Uniq.

(** One iteration of [for line in fin]: [section_counters] is the
    [defaultdict(int)], the result is the dictionary after the iteration and
    the line written to [output_stream]. *)
Definition rename_line (section_counters : gmap string nat) (line : string)
  : gmap string nat * string :=
  if Py.startswith line "[" then
    let section := Py.strip_chars "[]" (Py.strip line) in
    let n := default 0 (section_counters !! section) in
    let _section := section +:+ "_" +:+ Py.str n in
    (<[section := S n]> section_counters, Py.replace section _section line)
  else (section_counters, line).

Fixpoint uniquify_lines (section_counters : gmap string nat) (lines : list string)
  : list string :=
  match lines with
  | [] => []
  | line :: rest =>
      let '(counters', line') := rename_line section_counters line in
      line' :: uniquify_lines counters' rest
  end.

(** Iterating over a text file yields its lines, each with its newline. *)
Fixpoint readlines_go (cur : string) (s : string) : list string :=
  match s with
  | "" => match cur with "" => [] | _ => [String.rev cur] end
  | String c s' =>
      if decide (c = "010"%char)
      then String.rev (String c cur) :: readlines_go "" s'
      else readlines_go (String c cur) s'
  end.

Definition readlines (content : string) : list string := readlines_go "" content.

Fixpoint concat_lines (lines : list string) : string :=
  match lines with
  | [] => ""
  | l :: rest => l +:+ concat_lines rest
  end.

(** The function, from the content of [config_file] to the content of the
    returned [StringIO]. *)
Definition unique_config_sections (content : string) : string :=
  concat_lines (uniquify_lines ∅ (readlines content)).

(** *** The renaming as the specification words it

    A config is a sequence of lines; a line is a section header, [[name]]
    followed by trailing white space, or any other line. The specification
    asks that the [N] headers that share a name [X] become [X_0] ...
    [X_{N-1}] in file order and that nothing else changes. *)

Inductive cfg_line :=
| Header (name trail : string)
| Body (text : string).

Definition render (l : cfg_line) : string :=
  match l with
  | Header name trail => "[" +:+ name +:+ "]" +:+ trail
  | Body text => text
  end.

(** [seen] lists the names of the headers met so far. *)
Fixpoint spec_number (seen : list string) (ls : list cfg_line) : list cfg_line :=
  match ls with
  | [] => []
  | Header name trail :: rest =>
      Header (name +:+ "_" +:+ Py.str (count_occ string_dec seen name)) trail
        :: spec_number (name :: seen) rest
  | Body text :: rest => Body text :: spec_number seen rest
  end.

Fixpoint header_names (ls : list cfg_line) : list string :=
  match ls with
  | [] => []
  | Header name _ :: rest => name :: header_names rest
  | Body _ :: rest => header_names rest
  end.

(** The lines that follow a header, up to the next header. *)
Fixpoint content (ls : list cfg_line) : list string :=
  match ls with
  | Body text :: rest => text :: content rest
  | _ => []
  end.

(** The sections of a config in file order, each with its content. *)
Fixpoint sections (ls : list cfg_line) : list (string * list string) :=
  match ls with
  | [] => []
  | Header name _ :: rest => (name, content rest) :: sections rest
  | Body _ :: rest => sections rest
  end.

Fixpoint all_chars (p : ascii -> bool) (s : string) : bool :=
  match s with
  | "" => true
  | String c s' => p c && all_chars p s'
  end.

Fixpoint last_char (s : string) : option ascii :=
  match s with
  | "" => None
  | String c "" => Some c
  | String _ s' => last_char s'
  end.

Definition bracket (c : ascii) : bool := Py.mem c "[]".

(** A section name as config files have them: not empty, no bracket at
    either end, no white space in front. *)
Definition name_ok (name : string) : bool :=
  match name with
  | "" => false
  | String c _ => negb (bracket c) && negb (Py.isspace c)
  end &&
  match last_char name with
  | Some c => negb (bracket c)
  | None => false
  end.

Definition line_ok (l : cfg_line) : bool :=
  match l with
  | Header name trail => name_ok name && all_chars Py.isspace trail
  | Body text => negb (Py.startswith text "[")
  end.

(** A line of a text file: it ends with its only newline. *)
Fixpoint newline_terminated (s : string) : bool :=
  match s with
  | "" => false
  | String c "" => bool_decide (c = "010"%char)
  | String c s' => negb (bool_decide (c = "010"%char)) && newline_terminated s'
  end.

(** The section names of a list of lines, read the way lines 55 and 56 read
    them: the lines that start with a bracket, stripped. *)
Definition section_names (lines : list string) : list string :=
  (fun line => Py.strip_chars "[]" (Py.strip line))
    <$> filter (fun line => Py.startswith line "[" = true) lines.

End Uniq.

(** ** NumPy: arrays over a byte buffer *)

Module Np.

Local Open Scope Z_scope.

(** A [float32] is kept as the four bytes it has in the file: the converter
    moves these values and never computes with them. *)
Definition float32 : Type := byte * byte * byte * byte.

Definition wrap64 (z : Z) : Z := (z + 2 ^ 63) mod 2 ^ 64 - 2 ^ 63.

(** [np.product] of a tuple of Python integers: the tuple becomes an [int64]
    array, the product is taken in 64 bits. Each factor is reduced first, as
    the conversion does for values that fit (larger ones are not integers of
    the array type). *)
Definition product (shape : list Z) : Z :=
  fold_right (fun d acc => wrap64 (d * acc)) 1 shape.

(** An [int64] scalar times a Python integer. *)
Definition mul64 (a b : Z) : Z := wrap64 (a * b).

(** Little-endian [int32]. *)
Definition int32_of_bytes (b : list byte) : Z :=
  let u := fold_right (fun x acc => Z.of_N (Byte.to_N x) + 256 * acc) 0 (take 4 b) in
  if u <? 2 ^ 31 then u else u - 2 ^ 32.

Fixpoint chunk4 (n : nat) (buf : list byte) : list float32 :=
  match n, buf with
  | S n', b0 :: b1 :: b2 :: b3 :: rest => (b0, b1, b2, b3) :: chunk4 n' rest
  | _, _ => []
  end.

(** An array is a view on a buffer: a shape, and per axis the step (in
    elements) taken in the buffer when that index grows by one. *)
Record ndarray := mk_ndarray {
  shape : list nat;
  strides : list nat;
  data : list float32
}.

Fixpoint c_strides (shape : list nat) : list nat :=
  match shape with
  | [] => []
  | _ :: rest => fold_right Nat.mul 1%nat rest :: c_strides rest
  end.

Inductive ndarray_error := NegativeDimensions | ArrayTooBig | BufferTooSmall.

(** [np.ndarray(shape=..., dtype='float32', buffer=buf)]: a C-ordered view
    of the first [4 * prod shape] bytes. *)
Definition of_buffer (shp : list Z) (buf : list byte) : ndarray_error + ndarray :=
  if existsb (fun d => d <? 0) shp then inl NegativeDimensions
  else
    let n := fold_right Z.mul 1 shp in
    if 2 ^ 63 <=? 4 * n then inl ArrayTooBig
    else if Z.of_nat (length buf) <? 4 * n then inl BufferTooSmall
    else inr {| shape := Z.to_nat <$> shp;
                strides := c_strides (Z.to_nat <$> shp);
                data := chunk4 (Z.to_nat n) buf |}.

Fixpoint offset (strides idx : list nat) : nat :=
  match strides, idx with
  | s :: strides', i :: idx' => (i * s + offset strides' idx')%nat
  | _, _ => 0%nat
  end.

Fixpoint in_bounds (shape idx : list nat) : bool :=
  match shape, idx with
  | [], [] => true
  | d :: shape', i :: idx' => (i <? d)%nat && in_bounds shape' idx'
  | _, _ => false
  end.

(** [a[i0, i1, ...]] with non-negative indices. *)
Definition item (a : ndarray) (idx : list nat) : option float32 :=
  if in_bounds (shape a) idx then data a !! offset (strides a) idx else None.

Definition is_permutation (axes : list nat) (n : nat) : bool :=
  bool_decide (length axes = n) &&
  forallb (fun k => bool_decide (k ∈ axes)) (seq 0 n).

(** [np.transpose(a, axes)]: axis [k] of the result is axis [axes[k]] of
    [a]; the buffer is shared. [None] is the [ValueError] for axes that do
    not match the array. *)
Definition transpose (a : ndarray) (axes : list nat) : option ndarray :=
  if is_permutation axes (length (shape a)) && bool_decide (length (strides a) = length (shape a))
  then Some {| shape := (fun k => nth k (shape a) 0%nat) <$> axes;
               strides := (fun k => nth k (strides a) 0%nat) <$> axes;
               data := data a |}
  else None.

(** Row [k] of a two-dimensional C-ordered array, [a[k]]. *)
Definition row (a : ndarray) (k : nat) : list float32 :=
  match shape a with
  | [_; w] => take w (drop (k * w)%nat (data a))
  | _ => []
  end.

End Np.

(** ** The converter, [_main] *)

Module Conv.

Local Open Scope Z_scope.

Inductive exn :=
| KeyError (key : string)
| ValueError (msg : string)
| TypeError (msg : string)
| AttributeError (msg : string)
| IndexError (msg : string)
| NameError (name : string)
| AssertionError (msg : string).

(** A Keras tensor: the node that produces it and the last entry of its
    shape, which is all that [K.int_shape(...)[-1]] asks of it. *)
Record tensor := mk_tensor { t_node : nat; t_last_dim : Z }.

Inductive padding := same | valid.

Inductive layer :=
| Input (height width : option Z)
| ZeroPadding2D
| Conv2D (filters size stride : Z) (weight_decay : string) (use_bias : bool)
         (kernel : Np.ndarray) (bias : option (list Np.float32)) (pad : padding)
| BatchNormalization (gamma beta mean var : list Np.float32)
| LeakyReLU
| MaxPooling2D (size stride : Z)
| GlobalAveragePooling2D
| Concatenate
| Lambda_space_to_depth_x2
| Add
| UpSampling2D (stride : Z).

Record node := mk_node { n_layer : layer; n_inputs : list tensor }.

Record model := mk_model {
  m_inputs : list tensor;
  m_outputs : list tensor;
  m_graph : list node
}.

(** [count] starts as a Python integer and becomes an [int64] scalar at the
    first [count += weights_size]. *)
Inductive number := PyInt (z : Z) | Int64 (z : Z).

Definition value (c : number) : Z := match c with PyInt z | Int64 z => z end.

(** The two lines printed after the model is saved; [remaining_weights] is
    the byte count over four, kept exact. *)
Inductive message :=
| Read_of (count : Z) (total : Q)
| Warning_unused_weights (remaining_weights : Q).

Record state := mk_state {
  weights_file : list byte;          (* what [weights_file.read] has not returned yet *)
  count : number;
  graph : list node;                 (* the Keras nodes created so far *)
  input_layer : option tensor;
  prev_layer : option tensor;        (* [None] is Python's [None] *)
  all_layers : list (option tensor);
  out_index : option (list Z);       (* [None]: the name is not bound *)
  anchors_txt : option string;       (* the file [{output_root}_anchors.txt] *)
  model_h5 : option model;           (* the file [output_path] *)
  stdout : list message
}.

Definition set_weights_file v st :=
  mk_state v (count st) (graph st) (input_layer st) (prev_layer st) (all_layers st)
           (out_index st) (anchors_txt st) (model_h5 st) (stdout st).
Definition set_count v st :=
  mk_state (weights_file st) v (graph st) (input_layer st) (prev_layer st) (all_layers st)
           (out_index st) (anchors_txt st) (model_h5 st) (stdout st).
Definition set_graph v st :=
  mk_state (weights_file st) (count st) v (input_layer st) (prev_layer st) (all_layers st)
           (out_index st) (anchors_txt st) (model_h5 st) (stdout st).
Definition set_input_layer v st :=
  mk_state (weights_file st) (count st) (graph st) v (prev_layer st) (all_layers st)
           (out_index st) (anchors_txt st) (model_h5 st) (stdout st).
Definition set_prev_layer v st :=
  mk_state (weights_file st) (count st) (graph st) (input_layer st) v (all_layers st)
           (out_index st) (anchors_txt st) (model_h5 st) (stdout st).
Definition set_all_layers v st :=
  mk_state (weights_file st) (count st) (graph st) (input_layer st) (prev_layer st) v
           (out_index st) (anchors_txt st) (model_h5 st) (stdout st).
Definition set_out_index v st :=
  mk_state (weights_file st) (count st) (graph st) (input_layer st) (prev_layer st)
           (all_layers st) v (anchors_txt st) (model_h5 st) (stdout st).
Definition set_anchors_txt v st :=
  mk_state (weights_file st) (count st) (graph st) (input_layer st) (prev_layer st)
           (all_layers st) (out_index st) v (model_h5 st) (stdout st).
Definition set_model_h5 v st :=
  mk_state (weights_file st) (count st) (graph st) (input_layer st) (prev_layer st)
           (all_layers st) (out_index st) (anchors_txt st) v (stdout st).
Definition set_stdout v st :=
  mk_state (weights_file st) (count st) (graph st) (input_layer st) (prev_layer st)
           (all_layers st) (out_index st) (anchors_txt st) (model_h5 st) v.

(** *** The monad: state that survives an exception *)

Definition M (A : Type) : Type := state -> state * (exn + A).

#[global] Instance M_ret : MRet M := fun A a st => (st, inr a).
#[global] Instance M_bind : MBind M := fun A B k m st =>
  match m st with
  | (st', inr a) => k a st'
  | (st', inl e) => (st', inl e)
  end.

Definition raise {A} (e : exn) : M A := fun st => (st, inl e).
Definition gets {A} (f : state -> A) : M A := fun st => (st, inr (f st)).
Definition modify (f : state -> state) : M unit := fun st => (f st, inr tt).
Definition of_option {A} (o : option A) (e : exn) : M A :=
  match o with Some a => mret a | None => raise e end.

(** *** Small steps of the script *)

(** [weights_file.read(n)]: at most [n] bytes, all of them for a negative [n]. *)
Definition read (n : Z) : M (list byte) := fun st =>
  let k := if n <? 0 then length (weights_file st) else Z.to_nat n in
  (set_weights_file (drop k (weights_file st)) st, inr (take k (weights_file st))).

(** [np.ndarray(shape=(n,), dtype='int32', buffer=buf)] *)
Definition int32_array (n : nat) (buf : list byte) : M (list Z) :=
  if (length buf <? 4 * n)%nat
  then raise (TypeError "buffer is too small for requested array")
  else mret ((fun k => Np.int32_of_bytes (drop (4 * k)%nat buf)) <$> seq 0 n).

(** [np.ndarray(shape=(1,), dtype='int64', buffer=buf)]; the value is only
    printed. *)
Definition int64_array1 (buf : list byte) : M unit :=
  if (length buf <? 8)%nat
  then raise (TypeError "buffer is too small for requested array")
  else mret tt.

(** [np.ndarray(shape=shp, dtype='float32', buffer=buf)] *)
Definition float32_array (shp : list Z) (buf : list byte) : M Np.ndarray :=
  match Np.of_buffer shp buf with
  | inr a => mret a
  | inl Np.NegativeDimensions => raise (ValueError "negative dimensions are not allowed")
  | inl Np.ArrayTooBig => raise (ValueError "array is too big")
  | inl Np.BufferTooSmall => raise (TypeError "buffer is too small for requested array")
  end.

(** [cfg_parser[section][key]] *)
Definition getitem (items : gmap string string) (key : string) : M string :=
  of_option (items !! key) (KeyError key).

(** [int(cfg_parser[section][key])] *)
Definition get_int (items : gmap string string) (key : string) : M Z :=
  v ← getitem items key;
  of_option (Py.int v) (ValueError ("invalid literal for int() with base 10: " +:+ v)).

Definition py_assert (b : bool) (msg : string) : M unit :=
  if b then mret tt else raise (AssertionError msg).

(** [all_layers[i]] *)
Definition layer_at (i : Z) : M (option tensor) :=
  ls ← gets all_layers;
  of_option (Py.index ls i) (IndexError "list index out of range").

(** [K.int_shape(x)[-1]] *)
Definition int_shape_last (x : option tensor) : M Z :=
  match x with
  | Some t => mret (t_last_dim t)
  | None => raise (AttributeError "'NoneType' object has no attribute 'get_shape'")
  end.

(** Calling a Keras layer on its inputs creates one node and returns its
    output tensor. A [None] among the inputs is refused. Only the last
    dimension of the output is kept; the checks Keras makes on the other
    dimensions are not part of this embedding. *)
Definition call (l : layer) (inputs : list (option tensor)) (last_dim : Z) : M tensor :=
  match mapM id inputs with
  | None => raise (ValueError "Layer was called with an input that isn't a symbolic tensor")
  | Some ts =>
      g ← gets graph;
      modify (set_graph (g ++ [mk_node l ts]));;
      mret (mk_tensor (length g) last_dim)
  end.

(** [count += k] for a Python integer [k]. *)
Definition add_count (k : Z) : M unit :=
  modify (fun st =>
    set_count (match count st with
               | PyInt z => PyInt (z + k)
               | Int64 z => Int64 (Np.wrap64 (z + k))
               end) st).

(** [count += w] for an [int64] scalar [w]. *)
Definition add_count64 (w : Z) : M unit :=
  modify (fun st => set_count (Int64 (Np.wrap64 (value (count st) + w))) st).

(** [all_layers.append(x)] *)
Definition append_layer (x : option tensor) : M unit :=
  modify (fun st => set_all_layers (all_layers st ++ [x]) st).

(** [prev_layer = all_layers[-1]] *)
Definition prev_from_last : M unit :=
  x ← layer_at (-1);
  modify (set_prev_layer x).

(** *** The weight-file header *)

(** The test of line 120: [major] and [minor] are [int32] scalars, the
    literal [10] makes the arithmetic 64 bits wide. *)
Definition seen_is_int64 (major minor : Z) : bool :=
  (2 <=? Np.wrap64 (Np.wrap64 (major * 10) + minor)) && (major <? 1000) && (minor <? 1000).

Definition seen_width (major minor : Z) : Z :=
  if seen_is_int64 major minor then 8 else 4.

Definition read_header (v2 : bool) : M unit :=
  if v2 then
    b ← read 16;
    _ ← int32_array 4 b;
    mret tt
  else
    b ← read 12;
    h ← int32_array 3 b;
    let major := default 0 (h !! 0%nat) in
    let minor := default 0 (h !! 1%nat) in
    if seen_is_int64 major minor then
      b ← read 8;
      int64_array1 b
    else
      b ← read 4;
      _ ← int32_array 1 b;
      mret tt.

(** *** One config section *)

Definition unknown_activation (activation section : string) : exn :=
  ValueError ("Unknown activation function `" +:+ activation +:+ "` in section " +:+ section).

(** Lines 173-219: the weights of a convolutional section, read from the
    stream as bias, then scale/mean/variance, then kernel. Returns the bias,
    the batch-normalisation array if there is one, and the transposed kernel. *)
Definition convolutional_weights (filters size : Z) (batch_normalize : bool)
  : M (Np.ndarray * option Np.ndarray * Np.ndarray) :=
  prev ← gets prev_layer;
  in_dim ← int_shape_last prev;
  let weights_shape := [size; size; in_dim; filters] in
  let darknet_w_shape := [filters; in_dim; size; size] in
  let weights_size := Np.product weights_shape in
  b ← read (filters * 4);
  conv_bias ← float32_array [filters] b;
  add_count filters;;
  bn_weights ←
    (if batch_normalize then
       b ← read (filters * 12);
       a ← float32_array [3; filters] b;
       add_count (3 * filters);;
       mret (Some a)
     else mret None);
  b ← read (Np.mul64 weights_size 4);
  conv_weights ← float32_array darknet_w_shape b;
  add_count64 weights_size;;
  conv_weights ← of_option (Np.transpose conv_weights [2; 3; 1; 0]%nat)
                           (ValueError "axes don't match array");
  mret (conv_bias, bn_weights, conv_weights).

(** Lines 221-253: the activation test and the Keras layers. *)
Definition convolutional_layers (section activation : string) (weight_decay : string)
    (filters size stride : Z) (pad : padding)
    (conv_bias : Np.ndarray) (bn_weights : option Np.ndarray) (conv_weights : Np.ndarray)
  : M unit :=
  (if decide (activation = "leaky") then mret tt
   else if decide (activation ≠ "linear") then raise (unknown_activation activation section)
   else mret tt);;
  (if 1 <? stride then
     prev ← gets prev_layer;
     t ← call ZeroPadding2D [prev] (from_option t_last_dim 0 prev);
     modify (set_prev_layer (Some t))
   else mret tt);;
  prev ← gets prev_layer;
  conv_layer ← call (Conv2D filters size stride weight_decay
                            (negb (bool_decide (is_Some bn_weights))) conv_weights
                            (match bn_weights with
                             | Some _ => None
                             | None => Some (Np.data conv_bias)
                             end) pad)
                    [prev] filters;
  conv_layer ←
    match bn_weights with
    | Some w =>
        call (BatchNormalization (Np.row w 0) (Np.data conv_bias) (Np.row w 1) (Np.row w 2))
             [Some conv_layer] filters
    | None => mret conv_layer
    end;
  modify (set_prev_layer (Some conv_layer));;
  if decide (activation = "linear") then append_layer (Some conv_layer)
  else if decide (activation = "leaky") then
    act_layer ← call LeakyReLU [Some conv_layer] filters;
    modify (set_prev_layer (Some act_layer));;
    append_layer (Some act_layer)
  else mret tt.

Definition convolutional (v2 : bool) (weight_decay section : string)
    (items : gmap string string) : M unit :=
  filters ← get_int items "filters";
  size ← get_int items "size";
  stride ← get_int items "stride";
  pad ← get_int items "pad";
  activation ← getitem items "activation";
  let batch_normalize := bool_decide (is_Some (items !! "batch_normalize")) in
  let padding :=
    if v2 then (if pad =? 1 then same else valid)
    else (if (pad =? 1) && (stride =? 1) then same else valid) in
  '(conv_bias, bn_weights, conv_weights) ← convolutional_weights filters size batch_normalize;
  convolutional_layers section activation weight_decay filters size stride padding
                       conv_bias bn_weights conv_weights.

Definition maxpool (items : gmap string string) : M unit :=
  size ← get_int items "size";
  stride ← get_int items "stride";
  prev ← gets prev_layer;
  t ← call (MaxPooling2D size stride) [prev] (from_option t_last_dim 0 prev);
  append_layer (Some t);;
  prev_from_last.

Definition avgpool (section : string) (items : gmap string string) : M unit :=
  (if decide (items = ∅) then mret tt
   else raise (ValueError (section +:+ " with params unsupported.")));;
  prev ← gets prev_layer;
  t ← call GlobalAveragePooling2D [prev] (from_option t_last_dim 0 prev);
  append_layer (Some t);;
  prev_from_last.

(** [[f(x) for x in l]] with the exceptions of [f] *)
Fixpoint for_each {A B} (f : A -> M B) (l : list A) : M (list B) :=
  match l with
  | [] => mret []
  | x :: l' => y ← f x; ys ← for_each f l'; mret (y :: ys)
  end.

Definition sum_last_dims (ts : list (option tensor)) : Z :=
  fold_right (fun t acc => from_option t_last_dim 0 t + acc) 0 ts.

Definition route (items : gmap string string) : M unit :=
  v ← getitem items "layers";
  ids ← for_each (fun i => of_option (Py.int i)
                     (ValueError ("invalid literal for int() with base 10: " +:+ i)))
                 (Py.split "," v);
  layers ← for_each layer_at ids;
  if (1 <? length layers)%nat then
    concatenate_layer ← call Concatenate layers (sum_last_dims layers);
    append_layer (Some concatenate_layer);;
    modify (set_prev_layer (Some concatenate_layer))
  else
    skip_layer ← of_option (Py.index layers 0) (IndexError "list index out of range");
    append_layer skip_layer;;
    modify (set_prev_layer skip_layer).

Definition reorg (items : gmap string string) : M unit :=
  block_size ← get_int items "stride";
  py_assert (block_size =? 2) "Only reorg with stride 2 supported.";;
  prev ← gets prev_layer;
  t ← call Lambda_space_to_depth_x2 [prev] (4 * from_option t_last_dim 0 prev);
  append_layer (Some t);;
  prev_from_last.

Definition shortcut (items : gmap string string) : M unit :=
  index ← get_int items "from";
  activation ← getitem items "activation";
  py_assert (bool_decide (activation = "linear")) "Only linear activation supported.";;
  x ← layer_at index;
  prev ← gets prev_layer;
  t ← call Add [x; prev] (from_option t_last_dim 0 x);
  append_layer (Some t);;
  prev_from_last.

Definition upsample (items : gmap string string) : M unit :=
  stride ← get_int items "stride";
  py_assert (stride =? 2) "Only stride=2 supported.";;
  prev ← gets prev_layer;
  t ← call (UpSampling2D stride) [prev] (from_option t_last_dim 0 prev);
  append_layer (Some t);;
  prev_from_last.

(** [with open(..._anchors.txt, 'w') as f: print(cfg_parser[section]['anchors'], file=f)]:
    opening truncates the file, [print] writes the value and a newline. *)
Definition write_anchors (items : gmap string string) : M unit :=
  modify (set_anchors_txt (Some ""));;
  anchors ← getitem items "anchors";
  modify (set_anchors_txt (Some (anchors +:+ "
"))).

Definition yolo (items : gmap string string) : M unit :=
  write_anchors items;;
  oi ← gets out_index;
  oi ← of_option oi (NameError "out_index");
  ls ← gets all_layers;
  modify (set_out_index (Some (oi ++ [Z.of_nat (length ls) - 1])));;
  append_layer None;;
  prev_from_last.

Definition region (items : gmap string string) : M unit :=
  write_anchors items.

(** The body of [for section in cfg_parser.sections()]. *)
Definition process_section (v2 : bool) (weight_decay : string)
    (sec : string * gmap string string) : M unit :=
  let '(section, items) := sec in
  if Py.startswith section "convolutional" then convolutional v2 weight_decay section items
  else if Py.startswith section "maxpool" then maxpool items
  else if Py.startswith section "avgpool" then avgpool section items
  else if Py.startswith section "route" then route items
  else if Py.startswith section "reorg" then reorg items
  else if Py.startswith section "shortcut" then shortcut items
  else if Py.startswith section "upsample" then upsample items
  else if Py.startswith section "yolo" then yolo items
  else if Py.startswith section "region" then region items
  else if Py.startswith section "net" || Py.startswith section "cost"
          || Py.startswith section "softmax" then mret tt
  else raise (ValueError ("Unsupported section header type: " +:+ section)).

Fixpoint process_sections (v2 : bool) (weight_decay : string)
    (secs : list (string * gmap string string)) : M unit :=
  match secs with
  | [] => mret tt
  | sec :: rest => process_section v2 weight_decay sec;; process_sections v2 weight_decay rest
  end.

(** *** Before and after the loop *)

(** [cfg_parser[name]] *)
Definition section_items (cfg : list (string * gmap string string)) (name : string)
  : M (gmap string string) :=
  of_option ((fun p => snd (snd p)) <$> list_find (fun sec => fst sec = name) cfg)
            (KeyError name).

(** [float(text)]: the float is kept as the text it is read from; a text
    that is not a float literal raises. *)
Definition py_assert_float (text : string) : M string :=
  if Py.is_float text then mret text
  else raise (ValueError ("could not convert string to float: " +:+ text)).

(** Lines 135-153; returns the text that [weight_decay] is read from. *)
Definition setup (v2 fully_convolutional : bool) (cfg : list (string * gmap string string))
  : M string :=
  hw ← (if fully_convolutional then mret (None, None)
        else
          net ← section_items cfg "net_0";
          h ← get_int net "height";
          net ← section_items cfg "net_0";
          w ← get_int net "width";
          mret (Some h, Some w));
  (if v2 then
     t ← call (Input (fst hw) (snd hw)) [] 3;
     modify (set_prev_layer (Some t));;
     modify (set_all_layers [Some t])
   else
     t ← call (Input None None) [] 3;
     modify (set_input_layer (Some t));;
     modify (set_prev_layer (Some t));;
     modify (set_all_layers []);;
     modify (set_out_index (Some [])));;
  if bool_decide ("net_0" ∈ fst <$> cfg) then
    net ← section_items cfg "net_0";
    decay ← getitem net "decay";
    py_assert_float decay
  else mret "5e-4".

(** [Model(inputs=..., outputs=...)]: every output has to be a tensor. *)
Definition keras_Model (inputs outputs : list (option tensor)) : M model :=
  match mapM id inputs, mapM id outputs with
  | Some ins, Some outs => g ← gets graph; mret (mk_model ins outs g)
  | _, _ => raise (ValueError "Output tensors to a Model must be Keras tensors")
  end.

(** Lines 324-329. *)
Definition build_model (v2 : bool) : M model :=
  if v2 then
    i ← layer_at 0;
    o ← layer_at (-1);
    keras_Model [i] [o]
  else
    oi ← gets out_index;
    oi ← of_option oi (NameError "out_index");
    ls ← gets all_layers;
    let oi := if (length oi =? 0)%nat then oi ++ [Z.of_nat (length ls) - 1] else oi in
    modify (set_out_index (Some oi));;
    outs ← for_each layer_at oi;
    i ← gets input_layer;
    keras_Model [i] outs.

(** Lines 336-344: the model is saved, then what is left of the stream is
    read and counted. *)
Definition save_and_report (m : model) : M unit :=
  modify (set_model_h5 (Some m));;
  rest ← read (-1);
  let remaining_weights := (Z.of_nat (length rest) # 4)%Q in
  c ← gets count;
  modify (fun st => set_stdout
    (stdout st ++ [Read_of (value c) (inject_Z (value c) + remaining_weights)%Q]) st);;
  if bool_decide (0 < Z.of_nat (length rest)) then
    modify (fun st => set_stdout (stdout st ++ [Warning_unused_weights remaining_weights]) st)
  else mret tt.

Definition finish (v2 : bool) : M unit :=
  m ← build_model v2;
  save_and_report m.

(** [_main] from line 112 on, for the two downloaded files. *)
Definition main (v2 fully_convolutional : bool) (cfg : list (string * gmap string string))
  : M unit :=
  read_header v2;;
  weight_decay ← setup v2 fully_convolutional cfg;
  process_sections v2 weight_decay cfg;;
  finish v2.

Definition initial (weights : list byte) (anchors : option string) (h5 : option model) : state :=
  mk_state weights (PyInt 0) [] None None [] None anchors h5 [].

(** *** Two predicates on computations *)

(** [frame proj m]: running [m] leaves the part [proj] of the state as it
    was, whether [m] returns or raises. *)
Definition frame {A B} (proj : state -> B) (m : M A) : Prop :=
  forall st, proj (fst (m st)) = proj st.

(** [stream_blind m]: [m] neither reads nor depends on the weight stream. *)
Definition stream_blind {A} (m : M A) : Prop :=
  forall st ws, m (set_weights_file ws st)
                = (set_weights_file ws (fst (m st)), snd (m st)).

(** [raises m st]: run from [st], [m] ends in an exception. *)
Definition raises {A} (m : M A) (st : state) : Prop :=
  exists e, snd (m st) = inl e.

(** *** Invariants of the loop *)

(** The current tail is the last materialised layer (when there is one). *)
Definition tail_is_last (st : state) : Prop :=
  all_layers st = [] \/ last (all_layers st) = Some (prev_layer st).

(** The tensors the converter holds are outputs of nodes of the graph, and
    every node is fed by earlier nodes. *)
Definition known (g : list node) (x : option tensor) : Prop :=
  forall t, x = Some t -> (t_node t < length g)%nat.

Definition graph_ok (st : state) : Prop :=
  (forall i nd, graph st !! i = Some nd ->
                Forall (fun t => (t_node t < i)%nat) (n_inputs nd)) /\
  known (graph st) (prev_layer st) /\
  known (graph st) (input_layer st) /\
  Forall (known (graph st)) (all_layers st).

(** A tensor the converter can reach from [st]: the tail or a layer. *)
Definition held (st : state) (t : tensor) : Prop :=
  prev_layer st = Some t \/ Some t ∈ all_layers st.

(** What a section that returns can have done to the graph, the layers and
    the tail: nothing; appended an existing layer and made it the tail;
    appended the placeholder and made it the tail; or added a chain of nodes,
    each fed by tensors that were held or by outputs of its predecessors in
    the chain, appended the output of the last one and made it the tail. *)
Inductive effect (st st' : state) : Prop :=
| effect_none :
    graph st' = graph st -> all_layers st' = all_layers st ->
    prev_layer st' = prev_layer st -> effect st st'
| effect_alias (x : option tensor) :
    x ∈ all_layers st -> graph st' = graph st ->
    all_layers st' = all_layers st ++ [x] -> prev_layer st' = x -> effect st st'
| effect_placeholder :
    graph st' = graph st -> all_layers st' = all_layers st ++ [None] ->
    prev_layer st' = None -> effect st st'
| effect_nodes (nodes : list node) (out : tensor) :
    nodes <> [] -> graph st' = graph st ++ nodes ->
    (forall j nd, nodes !! j = Some nd ->
       Forall (fun t => held st t \/
                        (length (graph st) <= t_node t < length (graph st) + j)%nat)
              (n_inputs nd)) ->
    t_node out = (length (graph st) + length nodes - 1)%nat ->
    all_layers st' = all_layers st ++ [Some out] -> prev_layer st' = Some out ->
    effect st st'.

End Conv.

(** ** Sample inputs *)

Module Sample.
Import Conv.
Local Open Scope Z_scope.

(** The input tensor of the multi-output variant, and a second tensor. *)
Definition t0 : tensor := mk_tensor 0 3.
Definition t1 : tensor := mk_tensor 1 16.

Definition g0 : list node := [mk_node (Input None None) []].
Definition g1 : list node := g0 ++ [mk_node (MaxPooling2D 2 2) [t0]].

(** A state of the multi-output variant with tail [t], layers [ls] and
    stream [ws]. *)
Definition at_tail (ws : list byte) (g : list node) (t : option tensor)
    (ls : list (option tensor)) (oi : list Z) : state :=
  mk_state ws (PyInt 0) g (Some t0) t ls (Some oi) None None [].

Definition conv_items (activation : string) : gmap string string :=
  {[ "filters" := "2"; "size" := "3"; "stride" := "1"; "pad" := "1";
     "activation" := activation ]}.

Definition conv_bn_items : gmap string string :=
  <["batch_normalize" := "1"]> (conv_items "leaky").

Definition anchors_items (a : string) : gmap string string :=
  {[ "anchors" := a; "classes" := "80" ]}.

(** The header of a version 0.2 file: major 0, minor 2, revision 0 and an
    8-byte "seen" counter; one more byte follows. *)
Definition header_0_2 : list byte :=
  [x00; x00; x00; x00; x02; x00; x00; x00; x00; x00; x00; x00;
   x20; x00; x00; x00; x00; x00; x00; x00; x2a].

(** Sixteen bytes: four floats. *)
Definition four_floats : list byte :=
  [x00; x00; x80; x3f; x00; x00; x00; x40; x00; x00; x40; x40; x00; x00; x80; x40].

Definition kernel_2112 : Np.ndarray :=
  Np.mk_ndarray [2; 1; 1; 2]%nat [2; 2; 2; 1]%nat
    [(x00, x00, x80, x3f); (x00, x00, x00, x40); (x00, x00, x40, x40); (x00, x00, x80, x40)].

Definition cfg_lines : list Uniq.cfg_line :=
  [Uniq.Header "net" "
"; Uniq.Body "height=416
"; Uniq.Header "convolutional" "
"; Uniq.Body "filters=2
";
   Uniq.Header "convolutional" "
"; Uniq.Body "filters=4
"].

(** After a first layer and a yolo section. *)
Definition before_yolo : state := at_tail [x07] g1 (Some t1) [Some t1] [].

Definition after_yolo : state :=
  Eval vm_compute in
    fst (process_section false "5e-4" ("yolo_0", anchors_items "10,13,  16,30") before_yolo).

Definition after_two_yolo : state :=
  Eval vm_compute in
    fst (process_sections false "5e-4"
           [("yolo_0", anchors_items "10,13,  16,30");
            ("yolo_1", anchors_items "30,61,  62,45"); ("net_1", ∅)] before_yolo).

(** A finished graph, the stream read to its end. *)
Definition finished : state := at_tail [] g1 (Some t1) [Some t1] [].

Definition finished_built : state := Eval vm_compute in fst (build_model false finished).

Definition finished_model : model := mk_model [t0] [t1] g1.

(** A header with major 2 and minor 0, eight more bytes and one byte after
    them. *)
Definition header_2_0 : list byte :=
  [x02; x00; x00; x00; x00; x00; x00; x00; x00; x00; x00; x00;
   x20; x00; x00; x00; x00; x00; x00; x00; x2a].

(** A convolutional section that has the key [batch_normalize] with the
    value 0. *)
Definition conv_unset_items : gmap string string :=
  <["batch_normalize" := "0"]> (conv_items "linear").

(** A state of the single-output variant: [out_index] does not exist. *)
Definition single_output : state :=
  mk_state [x07] (PyInt 0) g1 None (Some t1) [Some t0; Some t1] None None None [].

(** A convolutional layer and a pooling layer, and the stream that holds
    the weights of the first and one more byte. *)
Definition layers : list (string * gmap string string) :=
  [("convolutional_0", conv_items "leaky"); ("maxpool_0", {[ "size" := "2"; "stride" := "2" ]})].

Definition before_layers : state := at_tail (repeat x01 224 ++ [x07]) g0 (Some t0) [] [].

Definition after_layers : state :=
  Eval vm_compute in fst (process_sections false "5e-4" layers before_layers).

(** A whole config of the multi-output variant with the file of its
    weights: a version 0.2 header, then the weights of the one layer. *)
Definition net_items : gmap string string :=
  {[ "height" := "416"; "width" := "416"; "decay" := "0.0005" ]}.

Definition cfg : list (string * gmap string string) :=
  ("net_0", net_items) :: layers ++ [("yolo_0", anchors_items "10,13,  16,30")].

Definition weights : list byte := take 20 header_0_2 ++ repeat x01 224.

Definition after_sections : state :=
  Eval vm_compute in
    fst ((setup false false cfg ≫= fun weight_decay => process_sections false weight_decay cfg)
           (initial (repeat x01 224) None None)).

Definition converted : state :=
  Eval vm_compute in fst (main false false cfg (initial weights None None)).

End Sample.

(** * Properties *)

(** ** The embedding at work *)

Example uniq_demo :
  Uniq.unique_config_sections
    "[net]
height=416
[convolutional]
filters=2
[convolutional]
filters=4
" = "[net_0]
height=416
[convolutional_0]
filters=2
[convolutional_1]
filters=4
".
Proof. vm_compute. reflexivity. Qed.

(** A header without a name: [str.replace] with an empty pattern inserts the
    suffix around every character of the line. *)
Example uniq_empty_name :
  snd (Uniq.rename_line ∅ "[]") = "_0[_0]_0".
Proof. vm_compute. reflexivity. Qed.

(** The three-section scenario: [net], one convolution (2 filters of size 3
    on 3 channels, no batch normalisation), [avgpool]; a 16-byte header of
    version 0.1, 8 bias bytes and 216 kernel bytes. *)
Example end_to_end :
  let cfg := [("net_0", {[ "height" := "416"; "width" := "416"; "decay" := "0.0005" ]});
              ("convolutional_0", Sample.conv_items "linear");
              ("avgpool_0", ∅)] in
  let ws := [x00; x00; x00; x00; x01; x00; x00; x00; x00; x00; x00; x00; x00; x00; x00; x00]
            ++ repeat x01 224 in
  let r := Conv.main false false cfg (Conv.initial ws None None) in
  snd r = inr tt /\
  Conv.value (Conv.count (fst r)) = 56%Z /\
  Conv.weights_file (fst r) = [] /\
  Conv.n_layer <$> Conv.graph (fst r)
  = [Conv.Input None None;
     Conv.Conv2D 2 3 1 "0.0005" true
       (Np.mk_ndarray [3; 3; 3; 2] [3; 1; 9; 27] (repeat (x01, x01, x01, x01) 54))
       (Some (repeat (x01, x01, x01, x01) 2)) Conv.same;
     Conv.GlobalAveragePooling2D] /\
  Conv.stdout (fst r) = [Conv.Read_of 56 (224 # 4)].
Proof. vm_compute. repeat split; reflexivity. Qed.

(** A batch-normalised section reads 8 + 24 + 216 bytes and counts 62
    scalars; the key alone decides, whatever its value. *)
Example conv_bn_demo :
  let st := Sample.at_tail (repeat x01 248 ++ [x07]) Sample.g0 (Some Sample.t0) [] [] in
  let r := Conv.process_section false "5e-4" ("convolutional_0", Sample.conv_bn_items) st in
  snd r = inr tt /\
  Conv.weights_file (fst r) = [x07] /\
  Conv.value (Conv.count (fst r)) = 62%Z /\
  length (Conv.graph (fst r)) = 4%nat.
Proof. vm_compute. repeat split; reflexivity. Qed.

(** ** The weight-file header *)

Section Header.
Import Conv.
Local Open Scope Z_scope.

Lemma wrap64_small z : - 2 ^ 63 <= z < 2 ^ 63 -> Np.wrap64 z = z.
Proof.
  intros H. unfold Np.wrap64.
  rewrite Z.mod_small by lia. lia.
Qed.

Lemma le_bytes_bound (b : list byte) :
  0 <= fold_right (fun x acc => Z.of_N (Byte.to_N x) + 256 * acc) 0 b
    < 256 ^ Z.of_nat (length b).
Proof.
  induction b as [|x b IH]; simpl length; [simpl; lia|].
  rewrite Nat2Z.inj_succ, Z.pow_succ_r by lia. simpl fold_right.
  pose proof (Byte.to_N_bounded x). lia.
Qed.

Lemma int32_of_bytes_range (b : list byte) :
  - 2 ^ 31 <= Np.int32_of_bytes b < 2 ^ 31.
Proof.
  unfold Np.int32_of_bytes.
  pose proof (le_bytes_bound (take 4 b)) as H.
  assert (Z.of_nat (length (take 4 b)) <= 4) as Hl by (rewrite length_take; lia).
  assert (256 ^ Z.of_nat (length (take 4 b)) <= 256 ^ 4) as Hp
    by (apply Z.pow_le_mono_r; lia).
  change (256 ^ 4) with (2 ^ 32) in Hp.
  destruct (Z.ltb_spec (fold_right (fun x acc => Z.of_N (Byte.to_N x) + 256 * acc) 0 (take 4 b))
                       (2 ^ 31)); lia.
Qed.

Lemma seen_is_int64_spec major minor :
  - 2 ^ 31 <= major < 2 ^ 31 -> - 2 ^ 31 <= minor < 2 ^ 31 ->
  seen_is_int64 major minor = true <-> 2 <= major * 10 + minor /\ major < 1000 /\ minor < 1000.
Proof.
  intros Hmaj Hmin. unfold seen_is_int64.
  rewrite (wrap64_small (major * 10)) by lia.
  rewrite wrap64_small by lia.
  rewrite !andb_true_iff, Z.leb_le, !Z.ltb_lt. tauto.
Qed.

Lemma int32_of_bytes_take (n : nat) (b : list byte) :
  (4 <= n)%nat -> Np.int32_of_bytes (take n b) = Np.int32_of_bytes b.
Proof.
  intros Hn. unfold Np.int32_of_bytes.
  rewrite take_take. replace (4 `min` n)%nat with 4%nat by lia. reflexivity.
Qed.

Lemma int32_of_bytes_drop_take (i n : nat) (b : list byte) :
  (i + 4 <= n)%nat -> Np.int32_of_bytes (drop i (take n b)) = Np.int32_of_bytes (drop i b).
Proof.
  intros Hn. unfold Np.int32_of_bytes.
  rewrite !take_drop_commute, take_take.
  replace ((i + 4) `min` n)%nat with (i + 4)%nat by lia. reflexivity.
Qed.

(** C2, as the code has it. In the multi-output (non-v2) variant, with
    [major], [minor] the first two little-endian 32-bit integers of the
    stream, the header read takes the three integers (12 bytes) and then a
    "seen" field of 8 bytes when [major*10+minor >= 2], [major < 1000] and
    [minor < 1000], of 4 bytes otherwise; (0,1) gives the 4-byte field and
    (2,0) the 8-byte one. The single-output variant does not branch. *)
Theorem header_seen_width :
  seen_width 0 1 = 4 /\ seen_width 2 0 = 8 /\
  forall st : state,
    let ws := weights_file st in
    let major := Np.int32_of_bytes ws in
    let minor := Np.int32_of_bytes (drop 4 ws) in
    let w := if decide (2 <= major * 10 + minor /\ major < 1000 /\ minor < 1000)
             then 8%nat else 4%nat in
    seen_width major minor = Z.of_nat w /\
    ((12 + w <= length ws)%nat ->
     read_header false st = (set_weights_file (drop (12 + w) ws) st, inr tt)).
Proof.
  split; [reflexivity|]. split; [reflexivity|].
  intros st ws major minor w.
  pose proof (int32_of_bytes_range ws) as Hmaj.
  pose proof (int32_of_bytes_range (drop 4 ws)) as Hmin.
  pose proof (seen_is_int64_spec major minor Hmaj Hmin) as Hspec.
  assert (seen_is_int64 major minor = bool_decide (w = 8%nat)) as Hw.
  { subst w. destruct (seen_is_int64 major minor) eqn:E.
    - rewrite decide_True by (apply Hspec; reflexivity). reflexivity.
    - rewrite decide_False; [reflexivity|].
      intros H. apply Hspec in H. congruence. }
  split.
  { unfold seen_width. rewrite Hw. subst w. case_decide; reflexivity. }
  intros Hlen.
  assert (12 <= length ws)%nat as H12 by lia.
  set (n := (12 + w)%nat) in *.
  unfold read_header, mbind, M_bind, read, int32_array.
  change (12 <? 0) with false. change (8 <? 0) with false. change (4 <? 0) with false.
  change (Z.to_nat 12) with 12%nat. change (Z.to_nat 8) with 8%nat.
  change (Z.to_nat 4) with 4%nat.
  cbv beta iota. fold ws.
  assert (length (take 12 ws) = 12%nat) as -> by (rewrite length_take; lia).
  change (12 <? 4 * 3)%nat with false. cbv beta iota.
  unfold mret, M_ret.
  change (seq 0 3) with [0%nat; 1%nat; 2%nat].
  cbn [fmap list_fmap lookup list_lookup default from_option id Nat.mul Nat.add].
  rewrite (int32_of_bytes_drop_take 0 12 ws) by lia.
  rewrite (int32_of_bytes_drop_take 4 12 ws) by lia.
  change (drop 0 ws) with ws.
  fold major minor. rewrite Hw.
  subst n w. case_decide as Hc.
  - rewrite bool_decide_eq_true_2 by reflexivity.
    unfold int64_array1. cbn [weights_file set_weights_file].
    assert (length (take 8 (drop 12 ws)) = 8%nat) as ->
      by (rewrite length_take, length_drop; lia).
    change (8 <? 8)%nat with false. cbv beta iota.
    unfold set_weights_file; cbn [weights_file count graph input_layer prev_layer
      all_layers out_index anchors_txt model_h5 stdout].
    rewrite drop_drop. reflexivity.
  - rewrite bool_decide_eq_false_2 by lia.
    cbn [weights_file set_weights_file].
    assert (length (take 4 (drop 12 ws)) = 4%nat) as ->
      by (rewrite length_take, length_drop; lia).
    change (4 <? 4)%nat with false. cbv beta iota.
    unfold set_weights_file; cbn [weights_file count graph input_layer prev_layer
      all_layers out_index anchors_txt model_h5 stdout].
    rewrite drop_drop. reflexivity.
Qed.

End Header.

(** ** The kernel transpose *)

Section Transpose.
Local Open Scope nat_scope.

Lemma transpose_2310 (a : Np.ndarray) (d0 d1 d2 d3 s0 s1 s2 s3 : nat) :
  Np.shape a = [d0; d1; d2; d3] -> Np.strides a = [s0; s1; s2; s3] ->
  Np.transpose a [2; 3; 1; 0]
  = Some (Np.mk_ndarray [d2; d3; d1; d0] [s2; s3; s1; s0] (Np.data a)).
Proof.
  intros Hs Ht. unfold Np.transpose. rewrite Hs, Ht. reflexivity.
Qed.

Lemma transpose_3201 (a : Np.ndarray) (d0 d1 d2 d3 s0 s1 s2 s3 : nat) :
  Np.shape a = [d0; d1; d2; d3] -> Np.strides a = [s0; s1; s2; s3] ->
  Np.transpose a [3; 2; 0; 1]
  = Some (Np.mk_ndarray [d3; d2; d0; d1] [s3; s2; s0; s1] (Np.data a)).
Proof.
  intros Hs Ht. unfold Np.transpose. rewrite Hs, Ht. reflexivity.
Qed.

Lemma of_buffer_inr (shp : list Z) (buf : list byte) (a : Np.ndarray) :
  Np.of_buffer shp buf = inr a ->
  a = Np.mk_ndarray (Z.to_nat <$> shp) (Np.c_strides (Z.to_nat <$> shp))
                    (Np.chunk4 (Z.to_nat (fold_right Z.mul 1%Z shp)) buf)
  /\ (4 * fold_right Z.mul 1 shp <= Z.of_nat (length buf))%Z.
Proof.
  unfold Np.of_buffer.
  destruct (existsb _ shp); [discriminate|].
  destruct (Z.leb_spec (2 ^ 63) (4 * fold_right Z.mul 1 shp))%Z; [discriminate|].
  destruct (Z.ltb_spec (Z.of_nat (length buf)) (4 * fold_right Z.mul 1 shp))%Z;
    [discriminate|].
  intros [= <-]. split; [reflexivity | lia].
Qed.

Lemma item_4d (a : Np.ndarray) (d0 d1 d2 d3 s0 s1 s2 s3 i0 i1 i2 i3 : nat) :
  Np.shape a = [d0; d1; d2; d3] -> Np.strides a = [s0; s1; s2; s3] ->
  Np.item a [i0; i1; i2; i3]
  = if (i0 <? d0) && (i1 <? d1) && (i2 <? d2) && (i3 <? d3)
    then Np.data a !! (i0 * s0 + i1 * s1 + i2 * s2 + i3 * s3)
    else None.
Proof.
  intros Hs Ht. unfold Np.item. rewrite Hs, Ht. cbn [Np.in_bounds Np.offset].
  rewrite andb_true_r, !andb_assoc.
  replace (i0 * s0 + (i1 * s1 + (i2 * s2 + (i3 * s3 + 0))))
    with (i0 * s0 + i1 * s1 + i2 * s2 + i3 * s3) by lia.
  reflexivity.
Qed.

(** An array made from a buffer with shape (out, in, h, w) holds the floats
    of the buffer in that axis order; [np.transpose(_, [2, 3, 1, 0])] yields
    shape (h, w, in, out) with element (h,w,i,o) equal to element (o,i,h,w)
    of the source; transposing back with [3, 2, 0, 1] gives the source array
    again. *)
Lemma transpose_roundtrip (n_out n_in h w : nat) (buf : list byte) (a : Np.ndarray) :
  Np.of_buffer [Z.of_nat n_out; Z.of_nat n_in; Z.of_nat h; Z.of_nat w] buf = inr a ->
  exists t : Np.ndarray,
    Np.transpose a [2; 3; 1; 0] = Some t /\
    Np.shape a = [n_out; n_in; h; w] /\
    Np.shape t = [h; w; n_in; n_out] /\
    (forall o i y x, o < n_out -> i < n_in -> y < h -> x < w ->
       Np.item a [o; i; y; x]
       = Np.chunk4 (n_out * n_in * h * w) buf !! (((o * n_in + i) * h + y) * w + x)) /\
    (forall o i y x, Np.item t [y; x; i; o] = Np.item a [o; i; y; x]) /\
    Np.transpose t [3; 2; 0; 1] = Some a.
Proof.
  intros Ha. apply of_buffer_inr in Ha as [-> _].
  cbn [fmap list_fmap fold_right Np.c_strides]. rewrite !Nat2Z.id.
  set (d := Np.chunk4 _ buf).
  eexists. split; [apply transpose_2310; reflexivity|].
  cbn [Np.shape Np.data].
  split; [reflexivity|]. split; [reflexivity|]. split; [|split].
  - intros o i y x Ho Hi Hy Hx.
    erewrite item_4d by reflexivity.
    rewrite (proj2 (Nat.ltb_lt _ _) Ho), (proj2 (Nat.ltb_lt _ _) Hi),
            (proj2 (Nat.ltb_lt _ _) Hy), (proj2 (Nat.ltb_lt _ _) Hx).
    cbn [andb Np.data]. subst d.
    replace (Z.to_nat (Z.of_nat n_out * (Z.of_nat n_in * (Z.of_nat h * (Z.of_nat w * 1)))))
      with (n_out * n_in * h * w) by lia.
    f_equal. lia.
  - intros o i y x.
    erewrite !item_4d by reflexivity. cbn [Np.data].
    destruct (o <? n_out), (i <? n_in), (y <? h), (x <? w); cbn [andb]; try reflexivity.
    f_equal. lia.
  - erewrite transpose_3201 by reflexivity. reflexivity.
Qed.

End Transpose.

(** ** Running the monad *)

Section Monad.
Import Conv.

Lemma bind_inr {A B} (m : M A) (k : A -> M B) st st' a :
  m st = (st', inr a) -> (m ≫= k) st = k a st'.
Proof. intros H. unfold mbind, M_bind. rewrite H. reflexivity. Qed.

Lemma bind_inl {A B} (m : M A) (k : A -> M B) st st' e :
  m st = (st', inl e) -> (m ≫= k) st = (st', inl e).
Proof. intros H. unfold mbind, M_bind. rewrite H. reflexivity. Qed.

Lemma frame_ret {A B} (proj : state -> B) (a : A) : frame proj (mret a).
Proof. intros st. reflexivity. Qed.

Lemma frame_raise {A B} (proj : state -> B) (e : exn) : frame proj (@raise A e).
Proof. intros st. reflexivity. Qed.

Lemma frame_gets {A B} (proj : state -> B) (f : state -> A) : frame proj (gets f).
Proof. intros st. reflexivity. Qed.

Lemma frame_of_option {A B} (proj : state -> B) (o : option A) e :
  frame proj (of_option o e).
Proof. destruct o; intros st; reflexivity. Qed.

Lemma frame_bind {A B C} (proj : state -> C) (m : M A) (k : A -> M B) :
  frame proj m -> (forall a, frame proj (k a)) -> frame proj (m ≫= k).
Proof.
  intros Hm Hk st. unfold mbind, M_bind.
  specialize (Hm st). destruct (m st) as [st' [e|a]]; cbn [fst] in *.
  - exact Hm.
  - rewrite Hk. exact Hm.
Qed.

Lemma frame_modify {B} (proj : state -> B) (f : state -> state) :
  (forall st, proj (f st) = proj st) -> frame proj (modify f).
Proof. intros H st. apply H. Qed.

Lemma frame_if {A B} (proj : state -> B) (b : bool) (m1 m2 : M A) :
  frame proj m1 -> frame proj m2 -> frame proj (if b then m1 else m2).
Proof. destruct b; auto. Qed.

Lemma frame_sumbool {A B} {P Q : Prop} (proj : state -> B) (b : {P} + {Q}) (m1 m2 : M A) :
  frame proj m1 -> frame proj m2 -> frame proj (if b then m1 else m2).
Proof. destruct b; auto. Qed.

Lemma frame_call {B} (proj : state -> B) l inputs d :
  (forall g st, proj (set_graph g st) = proj st) -> frame proj (call l inputs d).
Proof.
  intros H. unfold call. destruct (mapM id inputs).
  - apply frame_bind; [apply frame_gets|]. intros g.
    apply frame_bind; [apply frame_modify; intros; apply H|]. intros _. apply frame_ret.
  - apply frame_raise.
Qed.

Lemma frame_for_each {A B C} (proj : state -> C) (f : A -> M B) (l : list A) :
  (forall x, frame proj (f x)) -> frame proj (for_each f l).
Proof.
  intros Hf. induction l as [|x l IH]; cbn [for_each].
  - apply frame_ret.
  - apply frame_bind; [apply Hf|]. intros y.
    apply frame_bind; [apply IH|]. intros ys. apply frame_ret.
Qed.

End Monad.

Ltac frame_step :=
  first
    [ apply frame_ret | apply frame_raise | apply frame_gets | apply frame_of_option
    | apply frame_bind; [|intros ?]
    | apply frame_if | apply frame_sumbool
    | apply frame_call; intros; reflexivity
    | apply frame_modify; intros; reflexivity
    | apply frame_for_each; intros ?
    | match goal with |- Conv.frame _ (match ?x with _ => _ end) => destruct x end
    | intros ?st; reflexivity ].

Ltac frame_solve := repeat frame_step.

(** ** Convolutional sections and the weight stream *)

Section Convolutional.
Import Conv.
Local Open Scope Z_scope.

Lemma wrap64_mul_r a b : Np.wrap64 (a * Np.wrap64 b) = Np.wrap64 (a * b).
Proof.
  unfold Np.wrap64 at 1 3. f_equal.
  unfold Np.wrap64.
  rewrite (Z.mod_eq (b + 2 ^ 63) (2 ^ 64)) by lia.
  set (q := (b + 2 ^ 63) `div` 2 ^ 64).
  assert (a * (b + 2 ^ 63 - 2 ^ 64 * q - 2 ^ 63) + 2 ^ 63
          = a * b + 2 ^ 63 + (- a * q) * 2 ^ 64) as -> by ring.
  apply Z_mod_plus_full.
Qed.

Lemma product_4 a b c d : Np.product [a; b; c; d] = Np.wrap64 (a * b * c * d).
Proof.
  unfold Np.product. cbn [fold_right].
  rewrite (wrap64_mul_r c), (wrap64_mul_r b), (wrap64_mul_r a). f_equal. ring.
Qed.

Lemma read_run n st :
  0 <= n ->
  read n st = (set_weights_file (drop (Z.to_nat n) (weights_file st)) st,
               inr (take (Z.to_nat n) (weights_file st))).
Proof.
  intros Hn. unfold read.
  destruct (Z.ltb_spec n 0); [lia | reflexivity].
Qed.

Lemma of_buffer_ok (shp : list Z) (buf : list byte) :
  Forall (fun d => 0 <= d) shp ->
  4 * fold_right Z.mul 1 shp < 2 ^ 63 ->
  4 * fold_right Z.mul 1 shp <= Z.of_nat (length buf) ->
  Np.of_buffer shp buf
  = inr (Np.mk_ndarray (Z.to_nat <$> shp) (Np.c_strides (Z.to_nat <$> shp))
                       (Np.chunk4 (Z.to_nat (fold_right Z.mul 1 shp)) buf)).
Proof.
  intros Hpos Hbig Hlen. unfold Np.of_buffer.
  assert (existsb (fun d => d <? 0) shp = false) as ->.
  { clear Hbig Hlen.
    induction Hpos as [|d l Hd _ IH]; cbn [existsb]; [reflexivity|].
    rewrite IH, orb_false_r. apply Z.ltb_ge. exact Hd. }
  destruct (Z.leb_spec (2 ^ 63) (4 * fold_right Z.mul 1 shp)); [lia|].
  destruct (Z.ltb_spec (Z.of_nat (length buf)) (4 * fold_right Z.mul 1 shp)); [lia|].
  reflexivity.
Qed.

Lemma float32_array_run shp buf a st :
  Np.of_buffer shp buf = inr a -> float32_array shp buf st = (st, inr a).
Proof. intros H. unfold float32_array. rewrite H. reflexivity. Qed.

Lemma add_count_run k st :
  - 2 ^ 63 <= value (count st) + k < 2 ^ 63 ->
  exists c, add_count k st = (set_count c st, inr tt) /\ value c = value (count st) + k.
Proof.
  intros H. unfold add_count, modify. destruct (count st) as [z|z]; cbn [value] in *.
  - eexists; split; [reflexivity|]. reflexivity.
  - eexists; split; [reflexivity|]. cbn [value]. apply wrap64_small. exact H.
Qed.

Lemma add_count64_run w st :
  - 2 ^ 63 <= value (count st) + w < 2 ^ 63 ->
  exists c, add_count64 w st = (set_count c st, inr tt) /\ value c = value (count st) + w.
Proof.
  intros H. unfold add_count64, modify.
  eexists; split; [reflexivity|]. cbn [value]. apply wrap64_small. exact H.
Qed.

Lemma convolutional_weights_rest filters size bn :
  frame (fun st => (graph st, input_layer st, prev_layer st, all_layers st,
                    out_index st, anchors_txt st, model_h5 st, stdout st))
        (convolutional_weights filters size bn).
Proof.
  unfold convolutional_weights, int_shape_last, float32_array.
  frame_solve;
    repeat match goal with
           | |- frame _ (match ?x with _ => _ end) => destruct x
           end; frame_solve.
Qed.

Lemma convolutional_weights_run filters size (bn : bool) st t :
  prev_layer st = Some t ->
  0 <= filters -> 0 <= size -> 0 <= t_last_dim t ->
  4 * filters + (if bn then 12 * filters else 0)
    + 4 * (size * size * t_last_dim t * filters) < 2 ^ 63 ->
  - 2 ^ 63 <= value (count st) ->
  value (count st) + filters + (if bn then 3 * filters else 0)
    + size * size * t_last_dim t * filters < 2 ^ 63 ->
  let ws := weights_file st in
  let nb := Z.to_nat (4 * filters) in
  let nn := if bn then Z.to_nat (12 * filters) else 0%nat in
  let nk := Z.to_nat (4 * (size * size * t_last_dim t * filters)) in
  (nb + nn + nk <= length ws)%nat ->
  exists bias bnw k0 kernel st',
    convolutional_weights filters size bn st = (st', inr (bias, bnw, kernel)) /\
    Np.of_buffer [filters] (take nb ws) = inr bias /\
    (if bn
     then exists b, bnw = Some b /\
                    Np.of_buffer [3; filters] (take nn (drop nb ws)) = inr b
     else bnw = None) /\
    Np.of_buffer [filters; t_last_dim t; size; size] (take nk (drop (nb + nn) ws)) = inr k0 /\
    Np.transpose k0 [2; 3; 1; 0]%nat = Some kernel /\
    weights_file st' = drop (nb + nn + nk) ws /\
    value (count st') = value (count st) + filters + (if bn then 3 * filters else 0)
                        + size * size * t_last_dim t * filters.
Proof.
  intros Hprev Hf Hs Hi Hbig Hc0 Hc1 ws nb nn nk Hlen.
  set (P := size * size * t_last_dim t * filters) in *.
  assert (0 <= P) as HP by (subst P; repeat apply Z.mul_nonneg_nonneg; lia).
  assert (Np.of_buffer [filters] (take nb ws)
          = inr (Np.mk_ndarray (Z.to_nat <$> [filters]) (Np.c_strides (Z.to_nat <$> [filters]))
                   (Np.chunk4 (Z.to_nat (fold_right Z.mul 1 [filters])) (take nb ws)))) as Hbias.
  { apply of_buffer_ok.
    - repeat constructor; lia.
    - cbn [fold_right]. destruct bn; lia.
    - cbn [fold_right]. rewrite length_take. lia. }
  assert (Np.of_buffer [filters; t_last_dim t; size; size] (take nk (drop (nb + nn) ws))
          = inr (Np.mk_ndarray (Z.to_nat <$> [filters; t_last_dim t; size; size])
                   (Np.c_strides (Z.to_nat <$> [filters; t_last_dim t; size; size]))
                   (Np.chunk4 (Z.to_nat (fold_right Z.mul 1 [filters; t_last_dim t; size; size]))
                              (take nk (drop (nb + nn) ws))))) as Hk.
  { assert (fold_right Z.mul 1 [filters; t_last_dim t; size; size] = P) as HPe
      by (subst P; cbn [fold_right]; ring).
    apply of_buffer_ok.
    - repeat constructor; lia.
    - rewrite HPe. destruct bn; lia.
    - rewrite HPe, length_take, length_drop. lia. }
  set (k0 := Np.mk_ndarray (Z.to_nat <$> [filters; t_last_dim t; size; size]) _ _) in Hk.
  pose proof (transpose_2310 k0 _ _ _ _ _ _ _ _ eq_refl eq_refl) as Htr.
  unfold convolutional_weights.
  rewrite (bind_inr _ _ st st (prev_layer st)) by reflexivity.
  rewrite Hprev. cbn [int_shape_last].
  erewrite bind_inr by reflexivity.
  rewrite product_4, wrap64_small by (fold P; destruct bn; lia). fold P.
  unfold Np.mul64. rewrite wrap64_small by (destruct bn; lia).
  replace (filters * 4) with (4 * filters) by ring.
  replace (filters * 12) with (12 * filters) by ring.
  replace (P * 4) with (4 * P) by ring.
  erewrite bind_inr by (apply read_run; lia).
  erewrite bind_inr by (apply float32_array_run; exact Hbias).
  fold ws nb.
  destruct (add_count_run filters (set_weights_file (drop nb ws) st)) as (c1 & Hrun & Hc1v).
  { cbn [count set_weights_file]. destruct bn; lia. }
  erewrite bind_inr by exact Hrun. clear Hrun.
  cbn [count set_weights_file] in Hc1v.
  set (st1 := set_count c1 (set_weights_file (drop nb ws) st)).
  assert (exists bnw st2,
    (if bn
     then read (12 * filters) ≫= (fun b => float32_array [3; filters] b ≫= (fun a =>
            add_count (3 * filters) ≫= (fun _ => mret (Some a))))
     else mret None) st1 = (st2, inr bnw) /\
    (if bn
     then exists b, bnw = Some b /\
                    Np.of_buffer [3; filters] (take nn (drop nb ws)) = inr b
     else bnw = None) /\
    weights_file st2 = drop (nb + nn) ws /\
    value (count st2) = value (count st) + filters + (if bn then 3 * filters else 0))
    as (bnw & st2 & Hrun & Hbnw & Hws2 & Hc2v).
  { subst st1. destruct bn.
    - assert (Np.of_buffer [3; filters] (take nn (drop nb ws))
              = inr (Np.mk_ndarray (Z.to_nat <$> [3; filters])
                       (Np.c_strides (Z.to_nat <$> [3; filters]))
                       (Np.chunk4 (Z.to_nat (fold_right Z.mul 1 [3; filters]))
                                  (take nn (drop nb ws))))) as Hbn.
      { apply of_buffer_ok.
        - repeat constructor; lia.
        - cbn [fold_right]. lia.
        - cbn [fold_right]. rewrite length_take, length_drop. lia. }
      erewrite bind_inr by (apply read_run; lia).
      cbn [weights_file set_count set_weights_file]. fold nn.
      erewrite bind_inr by (apply float32_array_run; exact Hbn).
      match goal with |- context [mbind _ (add_count _) ?s] =>
        destruct (add_count_run (3 * filters) s) as (c2 & Hrun & Hc2v) end.
      { cbn [count set_count set_weights_file]. lia. }
      erewrite bind_inr by exact Hrun. clear Hrun.
      cbn [count set_count set_weights_file] in Hc2v.
      do 2 eexists. split; [reflexivity|]. split; [eauto|].
      cbn [weights_file count set_count set_weights_file].
      rewrite drop_drop. split; [reflexivity | lia].
    - do 2 eexists. split; [reflexivity|]. split; [reflexivity|].
      subst nn. cbn [weights_file count set_count set_weights_file].
      rewrite Nat.add_0_r. split; [reflexivity | lia]. }
  erewrite bind_inr by exact Hrun. clear Hrun.
  erewrite bind_inr by (apply read_run; lia).
  rewrite Hws2. fold nk.
  erewrite bind_inr by (apply float32_array_run; exact Hk).
  match goal with |- context [mbind _ (add_count64 _) ?s] =>
    destruct (add_count64_run P s) as (c3 & Hrun & Hc3v) end.
  { cbn [count set_count set_weights_file]. rewrite Hc2v. destruct bn; lia. }
  erewrite bind_inr by exact Hrun. clear Hrun.
  erewrite bind_inr by (rewrite Htr; reflexivity).
  cbn [count set_count set_weights_file] in Hc3v.
  do 5 eexists.
  split; [reflexivity|].
  split; [exact Hbias|]. split; [exact Hbnw|]. split; [exact Hk|].
  split; [reflexivity|].
  cbn [weights_file count set_count set_weights_file].
  rewrite drop_drop. split; [reflexivity | lia].
Qed.

Lemma getitem_run (items : gmap string string) key v st :
  items !! key = Some v -> getitem items key st = (st, inr v).
Proof. intros H. unfold getitem. rewrite H. reflexivity. Qed.

Lemma get_int_run (items : gmap string string) key z st :
  items !! key ≫= Py.int = Some z -> get_int items key st = (st, inr z).
Proof.
  intros H. unfold get_int, getitem.
  destruct (items !! key) as [v|]; [|discriminate]. cbn in H.
  unfold mbind, M_bind. cbn. rewrite H. reflexivity.
Qed.

Lemma convolutional_layers_stream section activation wd filters size stride pad cb bn cw :
  frame (fun st => (weights_file st, count st))
        (convolutional_layers section activation wd filters size stride pad cb bn cw).
Proof.
  unfold convolutional_layers, append_layer. destruct bn; frame_solve.
Qed.

(** C3. The kernel of a convolutional layer is read from the stream in the
    axis order (out, in, h, w) of the file, and what the builder hands on is
    its transpose [np.transpose(_, [2, 3, 1, 0])], of shape (h, w, in, out):
    element (h,w,i,o) of the kernel handed on is element (o,i,h,w) of the
    array read, and transposing it back with [3, 2, 0, 1] gives the array
    read. The two transposes do the same on an array of any four dimensions
    (h and w need not be equal). *)
Theorem kernel_transpose_roundtrip :
  (forall (filters size : Z) (batch_normalize : bool) (st : state) (t : tensor),
     prev_layer st = Some t ->
     let in_channels := t_last_dim t in
     0 <= filters -> 0 <= size -> 0 <= in_channels ->
     4 * filters + (if batch_normalize then 12 * filters else 0)
       + 4 * (size * size * in_channels * filters) < 2 ^ 63 ->
     - 2 ^ 63 <= value (count st) ->
     value (count st) + filters + (if batch_normalize then 3 * filters else 0)
       + size * size * in_channels * filters < 2 ^ 63 ->
     let ws := weights_file st in
     let nb := Z.to_nat (4 * filters) in
     let nn := if batch_normalize then Z.to_nat (12 * filters) else 0%nat in
     let nk := Z.to_nat (4 * (size * size * in_channels * filters)) in
     (nb + nn + nk <= length ws)%nat ->
     exists bias bnw kernel st' source,
       convolutional_weights filters size batch_normalize st = (st', inr (bias, bnw, kernel)) /\
       Np.of_buffer [filters; in_channels; size; size] (take nk (drop (nb + nn) ws))
       = inr source /\
       Np.shape source = Z.to_nat <$> [filters; in_channels; size; size] /\
       Np.shape kernel = Z.to_nat <$> [size; size; in_channels; filters] /\
       (forall o i y x : nat, Np.item kernel [y; x; i; o] = Np.item source [o; i; y; x]) /\
       Np.transpose kernel [3; 2; 0; 1]%nat = Some source) /\
  (forall (n_out n_in h w : nat) (buf : list byte) (a : Np.ndarray),
     Np.of_buffer [Z.of_nat n_out; Z.of_nat n_in; Z.of_nat h; Z.of_nat w] buf = inr a ->
     exists t : Np.ndarray,
       Np.transpose a [2; 3; 1; 0]%nat = Some t /\
       Np.shape a = [n_out; n_in; h; w] /\
       Np.shape t = [h; w; n_in; n_out] /\
       (forall o i y x : nat, (o < n_out)%nat -> (i < n_in)%nat -> (y < h)%nat -> (x < w)%nat ->
          Np.item a [o; i; y; x]
          = Np.chunk4 (n_out * n_in * h * w) buf !! (((o * n_in + i) * h + y) * w + x)%nat) /\
       (forall o i y x : nat, Np.item t [y; x; i; o] = Np.item a [o; i; y; x]) /\
       Np.transpose t [3; 2; 0; 1]%nat = Some a).
Proof.
  split; [|exact transpose_roundtrip].
  intros filters size bn st t Hprev in_channels Hf Hs Hi Hbig Hc0 Hc1 ws nb nn nk Hlen.
  destruct (convolutional_weights_run filters size bn st t Hprev Hf Hs Hi Hbig Hc0 Hc1 Hlen)
    as (bias & bnw & k0 & kernel & st' & Hrun & _ & _ & Hk & Ht & _).
  fold in_channels ws nb nn nk in Hk.
  exists bias, bnw, kernel, st', k0.
  split; [exact Hrun|]. split; [exact Hk|].
  rewrite <- (Z2Nat.id filters), <- (Z2Nat.id in_channels), <- (Z2Nat.id size) in Hk by lia.
  destruct (transpose_roundtrip _ _ _ _ _ _ Hk) as (k & Hk' & Hsa & Hst & _ & Hitem & Hback).
  rewrite Ht in Hk'. injection Hk' as <-.
  cbn [fmap list_fmap]. auto.
Qed.

(** C1, as the code has it. A convolutional section with parameters
    [filters] and [size], met when the current tail has [in_channels]
    channels and the stream holds the bytes of the layer, reads [4*filters]
    bytes as the bias, then, exactly when the section has a key
    [batch_normalize] (line 162 tests that the key is there, not what its
    value is), [12*filters] bytes as the (3, filters) scale/mean/variance
    array, then [4*size*size*in_channels*filters] bytes as the kernel; when
    the section has been processed the stream has advanced by the sum and
    [count] by [filters + (3*filters) + size*size*in_channels*filters], the
    middle term only with the key. *)
Theorem convolutional_stream_bytes (v2 : bool) (weight_decay section : string)
    (items : gmap string string) (st : state) (t : tensor)
    (filters size stride pad : Z) (activation : string) :
  items !! "filters" ≫= Py.int = Some filters ->
  items !! "size" ≫= Py.int = Some size ->
  items !! "stride" ≫= Py.int = Some stride ->
  items !! "pad" ≫= Py.int = Some pad ->
  items !! "activation" = Some activation ->
  prev_layer st = Some t ->
  let in_channels := t_last_dim t in
  let batch_normalize := bool_decide (is_Some (items !! "batch_normalize")) in
  0 <= filters -> 0 <= size -> 0 <= in_channels ->
  4 * filters + (if batch_normalize then 12 * filters else 0)
    + 4 * (size * size * in_channels * filters) < 2 ^ 63 ->
  - 2 ^ 63 <= value (count st) ->
  value (count st) + filters + (if batch_normalize then 3 * filters else 0)
    + size * size * in_channels * filters < 2 ^ 63 ->
  let ws := weights_file st in
  let nb := Z.to_nat (4 * filters) in
  let nn := if batch_normalize then Z.to_nat (12 * filters) else 0%nat in
  let nk := Z.to_nat (4 * (size * size * in_channels * filters)) in
  (nb + nn + nk <= length ws)%nat ->
  (exists bias bnw k0 kernel st1,
     convolutional_weights filters size batch_normalize st = (st1, inr (bias, bnw, kernel)) /\
     Np.of_buffer [filters] (take nb ws) = inr bias /\
     (if batch_normalize
      then exists b, bnw = Some b /\
                     Np.of_buffer [3; filters] (take nn (drop nb ws)) = inr b
      else bnw = None) /\
     Np.of_buffer [filters; in_channels; size; size] (take nk (drop (nb + nn) ws)) = inr k0 /\
     Np.transpose k0 [2; 3; 1; 0]%nat = Some kernel) /\
  let st' := fst (convolutional v2 weight_decay section items st) in
  weights_file st' = drop (nb + nn + nk) ws /\
  value (count st') = value (count st) + filters
                      + (if batch_normalize then 3 * filters else 0)
                      + size * size * in_channels * filters.
Proof.
  intros Hfil Hsize Hstride Hpad Hact Hprev in_channels batch_normalize
         Hf Hs Hi Hbig Hc0 Hc1 ws nb nn nk Hlen.
  destruct (convolutional_weights_run filters size batch_normalize st t
              Hprev Hf Hs Hi Hbig Hc0 Hc1 Hlen)
    as (bias & bnw & k0 & kernel & st1 & Hrun & Hb & Hn & Hk & Ht & Hws & Hcnt).
  split.
  { exists bias, bnw, k0, kernel, st1. auto. }
  intros st'. subst st'. unfold convolutional.
  erewrite bind_inr by (apply get_int_run; exact Hfil).
  erewrite bind_inr by (apply get_int_run; exact Hsize).
  erewrite bind_inr by (apply get_int_run; exact Hstride).
  erewrite bind_inr by (apply get_int_run; exact Hpad).
  erewrite bind_inr by (apply getitem_run; exact Hact).
  erewrite bind_inr by exact Hrun.
  cbv beta iota zeta.
  match goal with |- context [fst (?m st1)] =>
    pose proof (convolutional_layers_stream section activation weight_decay filters size stride
                  (if v2 then if pad =? 1 then same else valid
                   else if (pad =? 1) && (stride =? 1) then same else valid)
                  bias bnw kernel st1) as Hfr
  end.
  cbv beta in Hfr. injection Hfr as Hfw Hfc.
  rewrite Hfw, Hfc. split; assumption.
Qed.

End Convolutional.


(** ** Unsupported activations *)

Section Activation.
Import Conv.
Local Open Scope Z_scope.

Lemma convolutional_layers_unknown section activation wd filters size stride pad cb bn cw st :
  activation <> "leaky" -> activation <> "linear" ->
  convolutional_layers section activation wd filters size stride pad cb bn cw st
  = (st, inl (unknown_activation activation section)).
Proof.
  intros Hl Hn. unfold convolutional_layers.
  rewrite decide_False by exact Hl. rewrite decide_True by exact Hn. reflexivity.
Qed.

(** C6, as the code has it. The activation is tested after the weights of
    the section have been read. For a convolutional section whose activation
    is neither "linear" nor "leaky", met with a tensor as current tail and a
    stream that holds the bytes of the layer: the bias, the scale/mean/variance
    block (if any) and the kernel are read, then the unsupported-activation
    error naming the section is raised; the state in which it is raised is
    the one the last weight read left, so nothing is read after the test, and
    no node and no list entry has been added. *)
Theorem unknown_activation_after_weights (v2 : bool) (weight_decay section : string)
    (items : gmap string string) (st : state) (t : tensor)
    (filters size stride pad : Z) (activation : string) :
  items !! "filters" ≫= Py.int = Some filters ->
  items !! "size" ≫= Py.int = Some size ->
  items !! "stride" ≫= Py.int = Some stride ->
  items !! "pad" ≫= Py.int = Some pad ->
  items !! "activation" = Some activation ->
  activation <> "leaky" -> activation <> "linear" ->
  prev_layer st = Some t ->
  let in_channels := t_last_dim t in
  let batch_normalize := bool_decide (is_Some (items !! "batch_normalize")) in
  0 <= filters -> 0 <= size -> 0 <= in_channels ->
  4 * filters + (if batch_normalize then 12 * filters else 0)
    + 4 * (size * size * in_channels * filters) < 2 ^ 63 ->
  - 2 ^ 63 <= value (count st) ->
  value (count st) + filters + (if batch_normalize then 3 * filters else 0)
    + size * size * in_channels * filters < 2 ^ 63 ->
  let n := (Z.to_nat (4 * filters)
            + (if batch_normalize then Z.to_nat (12 * filters) else 0)
            + Z.to_nat (4 * (size * size * in_channels * filters)))%nat in
  (n <= length (weights_file st))%nat ->
  exists st1 w,
    convolutional_weights filters size batch_normalize st = (st1, inr w) /\
    convolutional v2 weight_decay section items st
    = (st1, inl (unknown_activation activation section)) /\
    weights_file st1 = drop n (weights_file st) /\
    graph st1 = graph st /\ all_layers st1 = all_layers st /\
    prev_layer st1 = prev_layer st.
Proof.
  intros Hfil Hsize Hstride Hpad Hact Hl Hn Hprev in_channels batch_normalize
         Hf Hs Hi Hbig Hc0 Hc1 n Hlen.
  destruct (convolutional_weights_run filters size batch_normalize st t
              Hprev Hf Hs Hi Hbig Hc0 Hc1 Hlen)
    as (bias & bnw & k0 & kernel & st1 & Hrun & _ & _ & _ & _ & Hws & _).
  exists st1, (bias, bnw, kernel).
  split; [exact Hrun|]. split.
  - unfold convolutional.
    erewrite bind_inr by (apply get_int_run; exact Hfil).
    erewrite bind_inr by (apply get_int_run; exact Hsize).
    erewrite bind_inr by (apply get_int_run; exact Hstride).
    erewrite bind_inr by (apply get_int_run; exact Hpad).
    erewrite bind_inr by (apply getitem_run; exact Hact).
    erewrite bind_inr by exact Hrun.
    cbv beta iota zeta.
    apply convolutional_layers_unknown; assumption.
  - split; [exact Hws|].
    pose proof (convolutional_weights_rest filters size batch_normalize st) as Hfr.
    cbv beta in Hfr. rewrite Hrun in Hfr. cbn [fst] in Hfr.
    injection Hfr as Hg _ Hp Ha _ _ _ _. auto.
Qed.

End Activation.

(** ** Route sections *)

Section Route.
Import Conv.
Local Open Scope Z_scope.

Lemma for_each_of_option_run {A B} (f : A -> option B) (e : A -> exn) l ys st :
  Forall2 (fun x y => f x = Some y) l ys ->
  for_each (fun x => of_option (f x) (e x)) l st = (st, inr ys).
Proof.
  induction 1 as [|x y l ys Hxy _ IH]; cbn [for_each]; [reflexivity|].
  erewrite bind_inr by (rewrite Hxy; reflexivity).
  erewrite bind_inr by exact IH. reflexivity.
Qed.

Lemma for_each_layer_at_run ids xs st :
  Forall2 (fun i x => Py.index (all_layers st) i = Some x) ids xs ->
  for_each layer_at ids st = (st, inr xs).
Proof.
  induction 1 as [|i x ids xs Hix _ IH]; cbn [for_each]; [reflexivity|].
  erewrite bind_inr; [|unfold layer_at; erewrite bind_inr by reflexivity;
                       cbv beta; rewrite Hix; reflexivity].
  erewrite bind_inr by exact IH. reflexivity.
Qed.

Lemma mapM_id_Some {A} (ts : list A) : mapM id (Some <$> ts) = Some ts.
Proof.
  induction ts as [|t ts IH]; [reflexivity|].
  cbn. rewrite IH. reflexivity.
Qed.

Lemma index_negative {A} (ls : list A) (k : Z) :
  1 <= k <= Z.of_nat (length ls) ->
  Py.index ls (- k) = ls !! Z.to_nat (Z.of_nat (length ls) - k).
Proof.
  intros Hk. unfold Py.index.
  destruct (Z.leb_spec 0 (- k)); [lia|].
  destruct (Z.leb_spec (- Z.of_nat (length ls)) (- k)); [|lia].
  reflexivity.
Qed.

(** C5. With [L] materialised layers, a route index [-k] is the entry at
    position [L-k]. A route that lists one index appends the referenced entry
    to the list and makes it the current tail, and creates no node. A route
    that lists several indices creates one concatenation node whose inputs
    are the referenced layers in the order in which the section lists them,
    appends its output and makes it the current tail. *)
Theorem route_resolution (items : gmap string string) (st : state)
    (v : string) (ids : list Z) :
  items !! "layers" = Some v ->
  Forall2 (fun s i => Py.int s = Some i) (Py.split "," v) ids ->
  let ls := all_layers st in
  (forall k, 1 <= k <= Z.of_nat (length ls) ->
     Py.index ls (- k) = ls !! Z.to_nat (Z.of_nat (length ls) - k)) /\
  (forall i x, ids = [i] -> Py.index ls i = Some x ->
     route items st = (set_prev_layer x (set_all_layers (ls ++ [x]) st), inr tt) /\
     graph (fst (route items st)) = graph st) /\
  (forall ts, (1 < length ids)%nat ->
     Forall2 (fun i t => Py.index ls i = Some (Some t)) ids ts ->
     let c := mk_tensor (length (graph st)) (sum_last_dims (Some <$> ts)) in
     route items st
     = (set_prev_layer (Some c)
          (set_all_layers (ls ++ [Some c])
             (set_graph (graph st ++ [mk_node Concatenate ts]) st)), inr tt)).
Proof.
  intros Hv Hids ls. split; [|split].
  - intros k Hk. apply index_negative. exact Hk.
  - intros i x -> Hx.
    assert (route items st = (set_prev_layer x (set_all_layers (ls ++ [x]) st), inr tt)) as Hr.
    { unfold route.
      erewrite bind_inr by (apply getitem_run; exact Hv).
      erewrite bind_inr by (apply for_each_of_option_run; exact Hids).
      erewrite bind_inr
        by (apply (for_each_layer_at_run [i] [x]); repeat constructor; exact Hx).
      reflexivity. }
    rewrite Hr. split; reflexivity.
  - intros ts Hlen Hts c.
    assert (Forall2 (fun i x => Py.index (all_layers st) i = Some x) ids (Some <$> ts)) as Hxs.
    { clear -Hts. induction Hts; constructor; auto. }
    unfold route.
    erewrite bind_inr by (apply getitem_run; exact Hv).
    erewrite bind_inr by (apply for_each_of_option_run; exact Hids).
    erewrite bind_inr by (apply for_each_layer_at_run; exact Hxs).
    rewrite length_fmap, <- (Forall2_length _ _ _ Hts).
    destruct (Nat.ltb_spec 1 (length ids)); [|lia].
    unfold call. rewrite mapM_id_Some. reflexivity.
Qed.

End Route.

(** ** Yolo and region sections *)

Section Yolo.
Import Conv.
Local Open Scope Z_scope.

Lemma startswith_cons s c p :
  Py.startswith s (String c p) = true ->
  exists s', s = String c s' /\ Py.startswith s' p = true.
Proof.
  unfold Py.startswith. destruct s as [|b s']; cbn [String.prefix]; [discriminate|].
  destruct (ascii_dec c b) as [->|]; [|discriminate]. eauto.
Qed.

Lemma index_last {A} (l : list A) (x : A) : Py.index (l ++ [x]) (-1) = Some x.
Proof.
  unfold Py.index. rewrite length_app. cbn [length].
  destruct (Z.leb_spec 0 (-1)); [lia|].
  destruct (Z.leb_spec (- Z.of_nat (length l + 1)) (-1)); [|lia].
  replace (Z.to_nat (Z.of_nat (length l + 1) + -1)) with (length l) by lia.
  apply list_lookup_middle. reflexivity.
Qed.

Lemma write_anchors_run (items : gmap string string) a st :
  items !! "anchors" = Some a ->
  write_anchors items st = (set_anchors_txt (Some (a +:+ "
")) st, inr tt).
Proof.
  intros Ha. unfold write_anchors.
  erewrite bind_inr by reflexivity.
  erewrite bind_inr by (apply getitem_run; exact Ha).
  reflexivity.
Qed.

Lemma yolo_run (items : gmap string string) a oi st :
  items !! "anchors" = Some a -> out_index st = Some oi ->
  yolo items st
  = (set_prev_layer None
       (set_all_layers (all_layers st ++ [None])
          (set_out_index (Some (oi ++ [Z.of_nat (length (all_layers st)) - 1]))
             (set_anchors_txt (Some (a +:+ "
")) st))), inr tt).
Proof.
  intros Ha Ho. unfold yolo.
  erewrite bind_inr by (apply write_anchors_run; exact Ha).
  erewrite bind_inr by reflexivity.
  cbn [out_index set_anchors_txt]. rewrite Ho.
  erewrite bind_inr by reflexivity.
  erewrite bind_inr by reflexivity.
  erewrite bind_inr by reflexivity.
  erewrite bind_inr by reflexivity.
  unfold prev_from_last, layer_at.
  erewrite bind_inr; [|erewrite bind_inr by reflexivity; cbv beta;
                       cbn [all_layers set_all_layers set_out_index set_anchors_txt];
                       rewrite index_last; reflexivity].
  reflexivity.
Qed.

Lemma process_yolo v2 wd section items :
  Py.startswith section "yolo" = true ->
  process_section v2 wd (section, items) = yolo items.
Proof.
  intros H. apply startswith_cons in H as (s' & -> & H).
  unfold process_section, Py.startswith in *. cbn. rewrite H. reflexivity.
Qed.

Lemma process_region v2 wd section items :
  Py.startswith section "region" = true ->
  process_section v2 wd (section, items) = region items.
Proof.
  intros H. apply startswith_cons in H as (s' & -> & H).
  apply startswith_cons in H as (s'' & -> & H).
  apply startswith_cons in H as (s3 & -> & H).
  unfold process_section, Py.startswith in *. cbn. cbn in H. rewrite H. reflexivity.
Qed.

Lemma yolo_inr_inv (items : gmap string string) st0 st :
  yolo items st0 = (st, inr tt) ->
  exists a oi, items !! "anchors" = Some a /\ out_index st0 = Some oi.
Proof.
  intros H. destruct (items !! "anchors") as [a|] eqn:Ha.
  - destruct (out_index st0) as [oi|] eqn:Ho; [eauto|].
    exfalso. unfold yolo in H.
    erewrite bind_inr in H by (apply write_anchors_run; exact Ha).
    erewrite bind_inr in H by reflexivity.
    cbn [out_index set_anchors_txt] in H. rewrite Ho in H. discriminate H.
  - exfalso. unfold yolo, write_anchors, getitem in H.
    rewrite Ha in H. discriminate H.
Qed.

(** C7, as the code has it. A yolo section (in the multi-output variant,
    where [out_index] exists) writes its anchors to the anchors file, records
    [len(all_layers) - 1] as a network output, appends the placeholder [None]
    to the list of layers and makes it the current tail. A region section
    writes its anchors to the anchors file and changes nothing else: no
    output is recorded, no placeholder is appended. Neither reads from the
    weight stream. *)
Theorem yolo_region_effects (v2 : bool) (weight_decay section : string)
    (items : gmap string string) (st : state) (a : string) :
  items !! "anchors" = Some a ->
  let r := process_section v2 weight_decay (section, items) st in
  (Py.startswith section "yolo" = true ->
   forall oi, out_index st = Some oi ->
     snd r = inr tt /\
     anchors_txt (fst r) = Some (a +:+ "
") /\
     out_index (fst r) = Some (oi ++ [Z.of_nat (length (all_layers st)) - 1]) /\
     all_layers (fst r) = all_layers st ++ [None] /\
     prev_layer (fst r) = None /\
     weights_file (fst r) = weights_file st /\
     graph (fst r) = graph st) /\
  (Py.startswith section "region" = true ->
     snd r = inr tt /\
     anchors_txt (fst r) = Some (a +:+ "
") /\
     out_index (fst r) = out_index st /\
     all_layers (fst r) = all_layers st /\
     prev_layer (fst r) = prev_layer st /\
     weights_file (fst r) = weights_file st /\
     graph (fst r) = graph st).
Proof.
  intros Ha r. subst r. split.
  - intros Hy oi Ho. rewrite (process_yolo _ _ _ _ Hy), (yolo_run _ _ _ _ Ha Ho).
    repeat split; reflexivity.
  - intros Hr. rewrite (process_region _ _ _ _ Hr). unfold region.
    rewrite (write_anchors_run _ _ _ Ha). repeat split; reflexivity.
Qed.

End Yolo.

(** ** The tail after a yolo section *)

Section Tail.
Import Conv.
Local Open Scope Z_scope.

Lemma raises_bind_frame {A B} (m : M A) (k : A -> M B) :
  frame prev_layer m ->
  (forall a st, prev_layer st = None -> raises (k a) st) ->
  forall st, prev_layer st = None -> raises (m ≫= k) st.
Proof.
  intros Hm Hk st Hst. unfold raises, mbind, M_bind.
  specialize (Hm st). destruct (m st) as [st1 [e|a]]; cbn [fst] in Hm.
  - exists e. reflexivity.
  - apply Hk. congruence.
Qed.

Lemma raises_gets_prev {B} (k : option tensor -> M B) :
  (forall st, prev_layer st = None -> raises (k None) st) ->
  forall st, prev_layer st = None -> raises (gets prev_layer ≫= k) st.
Proof.
  intros Hk st Hst. unfold raises, mbind, M_bind, gets. rewrite Hst.
  apply Hk. exact Hst.
Qed.

Lemma raises_call_bind {B} l (inputs : list (option tensor)) d (k : tensor -> M B) st :
  mapM id inputs = None -> raises (call l inputs d ≫= k) st.
Proof.
  intros H. unfold raises, mbind, M_bind, call. rewrite H. eexists. reflexivity.
Qed.

Ltac no_tail :=
  repeat first
    [ apply raises_gets_prev
    | intros ? ?; apply raises_call_bind;
      solve [ reflexivity
            | match goal with |- mapM id [?x; None] = None => destruct x; reflexivity end ]
    | apply raises_bind_frame; [solve [frame_solve] | intros ?] ].

Lemma raises_bind_l {A B} (m : M A) (k : A -> M B) st :
  raises m st -> raises (m ≫= k) st.
Proof.
  intros [e He]. unfold raises, mbind, M_bind.
  destruct (m st) as [st1 [e'|a]]; [|discriminate He]. eauto.
Qed.

Lemma convolutional_no_tail v2 wd section items st :
  prev_layer st = None -> raises (convolutional v2 wd section items) st.
Proof.
  revert st. unfold convolutional, get_int, getitem. no_tail.
  intros st Hst. apply raises_bind_l. revert st Hst. unfold convolutional_weights.
  apply raises_gets_prev. intros st _.
  eexists. reflexivity.
Qed.

Lemma maxpool_no_tail items st : prev_layer st = None -> raises (maxpool items) st.
Proof. revert st. unfold maxpool, get_int, getitem. no_tail. Qed.

Lemma avgpool_no_tail section items st :
  prev_layer st = None -> raises (avgpool section items) st.
Proof. revert st. unfold avgpool. no_tail. Qed.

Lemma reorg_no_tail items st : prev_layer st = None -> raises (reorg items) st.
Proof. revert st. unfold reorg, get_int, getitem, py_assert. no_tail. Qed.

Lemma shortcut_no_tail items st : prev_layer st = None -> raises (shortcut items) st.
Proof.
  revert st. unfold shortcut, get_int, getitem, py_assert, layer_at. no_tail.
Qed.

Lemma upsample_no_tail items st : prev_layer st = None -> raises (upsample items) st.
Proof. revert st. unfold upsample, get_int, getitem, py_assert. no_tail. Qed.

Lemma raises_not_inr {A} (m : M A) st st' a : raises m st -> m st = (st', inr a) -> False.
Proof. intros [e He] H. rewrite H in He. discriminate He. Qed.

Lemma prefix_empty s : String.prefix "" s = true.
Proof. destruct s; reflexivity. Qed.

Ltac dispatch H :=
  repeat (apply startswith_cons in H as (? & -> & H));
  unfold process_section, Py.startswith; cbn; rewrite ?prefix_empty; reflexivity.

Lemma process_maxpool v2 wd section items :
  Py.startswith section "maxpool" = true ->
  process_section v2 wd (section, items) = maxpool items.
Proof. intros H. dispatch H. Qed.

Lemma process_avgpool v2 wd section items :
  Py.startswith section "avgpool" = true ->
  process_section v2 wd (section, items) = avgpool section items.
Proof. intros H. dispatch H. Qed.

Lemma process_reorg v2 wd section items :
  Py.startswith section "reorg" = true ->
  process_section v2 wd (section, items) = reorg items.
Proof. intros H. dispatch H. Qed.

Lemma process_shortcut v2 wd section items :
  Py.startswith section "shortcut" = true ->
  process_section v2 wd (section, items) = shortcut items.
Proof. intros H. dispatch H. Qed.

Lemma process_upsample v2 wd section items :
  Py.startswith section "upsample" = true ->
  process_section v2 wd (section, items) = upsample items.
Proof. intros H. dispatch H. Qed.

Lemma process_convolutional v2 wd section items :
  Py.startswith section "convolutional" = true ->
  process_section v2 wd (section, items) = convolutional v2 wd section items.
Proof. intros H. unfold process_section. rewrite H. reflexivity. Qed.

(** C9. When a yolo section has been processed the current tail is the
    placeholder [None]. In that state every convolutional, maxpool, avgpool,
    reorg, shortcut or upsample section raises; and a section after which the
    tail is a tensor again can only be a route section. *)
Theorem tail_after_yolo (v2 : bool) (weight_decay : string)
    (yolo_section : string) (yolo_items : gmap string string) (st0 st : state) :
  Py.startswith yolo_section "yolo" = true ->
  process_section v2 weight_decay (yolo_section, yolo_items) st0 = (st, inr tt) ->
  prev_layer st = None /\
  (forall section items,
     Py.startswith section "convolutional" = true \/
     Py.startswith section "maxpool" = true \/
     Py.startswith section "avgpool" = true \/
     Py.startswith section "reorg" = true \/
     Py.startswith section "shortcut" = true \/
     Py.startswith section "upsample" = true ->
     raises (process_section v2 weight_decay (section, items)) st) /\
  (forall section items st',
     process_section v2 weight_decay (section, items) st = (st', inr tt) ->
     prev_layer st' <> None ->
     Py.startswith section "route" = true).
Proof.
  intros Hy Hrun.
  assert (forall (items : gmap string string) s s',
            yolo items s = (s', inr tt) -> prev_layer s' = None) as Hyolo.
  { intros items s s' H.
    destruct (yolo_inr_inv _ _ _ H) as (a & oi & Ha & Ho).
    rewrite (yolo_run _ _ _ _ Ha Ho) in H. injection H as <-. reflexivity. }
  assert (prev_layer st = None) as Hst.
  { rewrite (process_yolo _ _ _ _ Hy) in Hrun. eapply Hyolo. exact Hrun. }
  split; [exact Hst|]. split.
  - intros section items [H|[H|[H|[H|[H|H]]]]].
    + rewrite (process_convolutional _ _ _ _ H). apply convolutional_no_tail, Hst.
    + rewrite (process_maxpool _ _ _ _ H). apply maxpool_no_tail, Hst.
    + rewrite (process_avgpool _ _ _ _ H). apply avgpool_no_tail, Hst.
    + rewrite (process_reorg _ _ _ _ H). apply reorg_no_tail, Hst.
    + rewrite (process_shortcut _ _ _ _ H). apply shortcut_no_tail, Hst.
    + rewrite (process_upsample _ _ _ _ H). apply upsample_no_tail, Hst.
  - intros section items st' H Hne. unfold process_section in H.
    destruct (Py.startswith section "convolutional");
      [exfalso; eapply raises_not_inr; [apply convolutional_no_tail, Hst | exact H]|].
    destruct (Py.startswith section "maxpool");
      [exfalso; eapply raises_not_inr; [apply maxpool_no_tail, Hst | exact H]|].
    destruct (Py.startswith section "avgpool");
      [exfalso; eapply raises_not_inr; [apply avgpool_no_tail, Hst | exact H]|].
    destruct (Py.startswith section "route"); [reflexivity|].
    destruct (Py.startswith section "reorg");
      [exfalso; eapply raises_not_inr; [apply reorg_no_tail, Hst | exact H]|].
    destruct (Py.startswith section "shortcut");
      [exfalso; eapply raises_not_inr; [apply shortcut_no_tail, Hst | exact H]|].
    destruct (Py.startswith section "upsample");
      [exfalso; eapply raises_not_inr; [apply upsample_no_tail, Hst | exact H]|].
    destruct (Py.startswith section "yolo");
      [exfalso; apply Hne; eapply Hyolo; exact H|].
    destruct (Py.startswith section "region").
    { exfalso. apply Hne.
      assert (frame prev_layer (region items)) as Hfr
        by (unfold region, write_anchors, getitem; frame_solve).
      specialize (Hfr st). rewrite H in Hfr. cbn [fst] in Hfr. congruence. }
    destruct (Py.startswith section "net" || Py.startswith section "cost"
              || Py.startswith section "softmax").
    + exfalso. apply Hne. injection H as <-. exact Hst.
    + discriminate H.
Qed.

End Tail.

(** ** The anchors file *)

Section Anchors.
Import Conv.
Local Open Scope Z_scope.

Lemma process_section_anchors v2 wd sec :
  Py.startswith (fst sec) "yolo" = false ->
  Py.startswith (fst sec) "region" = false ->
  frame anchors_txt (process_section v2 wd sec).
Proof.
  destruct sec as [section items]. cbn [fst]. intros Hy Hr.
  unfold process_section. rewrite Hy, Hr.
  unfold convolutional, convolutional_weights, convolutional_layers, maxpool, avgpool,
    route, reorg, shortcut, upsample, get_int, getitem, py_assert, append_layer,
    prev_from_last, layer_at, float32_array, int_shape_last.
  frame_solve.
Qed.

Lemma process_sections_anchors v2 wd secs :
  Forall (fun sec => Py.startswith (fst sec) "yolo" = false /\
                     Py.startswith (fst sec) "region" = false) secs ->
  frame anchors_txt (process_sections v2 wd secs).
Proof.
  induction 1 as [|sec secs [Hy Hr] _ IH]; cbn [process_sections].
  - apply frame_ret.
  - apply frame_bind; [apply process_section_anchors; assumption|]. intros _. exact IH.
Qed.

Lemma bind_inr_inv {A B} (m : M A) (k : A -> M B) st st' b :
  (m ≫= k) st = (st', inr b) ->
  exists st1 a, m st = (st1, inr a) /\ k a st1 = (st', inr b).
Proof.
  unfold mbind, M_bind. destruct (m st) as [st1 [e|a]]; [discriminate|]. eauto.
Qed.

Lemma process_sections_app_inv v2 wd l1 l2 st st' :
  process_sections v2 wd (l1 ++ l2) st = (st', inr tt) ->
  exists st1, process_sections v2 wd l1 st = (st1, inr tt) /\
              process_sections v2 wd l2 st1 = (st', inr tt).
Proof.
  revert st. induction l1 as [|sec l1 IH]; intros st H; cbn [app process_sections] in *.
  - exists st. split; [reflexivity | exact H].
  - apply bind_inr_inv in H as (st1 & [] & Hsec & Hrest).
    destruct (IH _ Hrest) as (st2 & H1 & H2).
    exists st2. split; [|exact H2].
    erewrite bind_inr by exact Hsec. exact H1.
Qed.

(** C10. Writing the anchors of a section replaces whatever the anchors
    file held by that section's anchors and a newline. Hence, when a config
    has been processed, the anchors file holds the anchors of the last yolo
    or region section of the config, however many came before. *)
Theorem anchors_of_last_section (v2 : bool) (weight_decay : string)
    (before after : list (string * gmap string string))
    (section : string) (items : gmap string string) (a : string) (st st' : state) :
  Py.startswith section "yolo" = true \/ Py.startswith section "region" = true ->
  items !! "anchors" = Some a ->
  Forall (fun sec => Py.startswith (fst sec) "yolo" = false /\
                     Py.startswith (fst sec) "region" = false) after ->
  process_sections v2 weight_decay (before ++ (section, items) :: after) st = (st', inr tt) ->
  (forall s, anchors_txt (fst (write_anchors items s)) = Some (a +:+ "
")) /\
  anchors_txt st' = Some (a +:+ "
").
Proof.
  intros Hkind Ha Hafter Hrun.
  assert (forall s, write_anchors items s = (set_anchors_txt (Some (a +:+ "
")) s, inr tt)) as Hw by (intros s; apply write_anchors_run; exact Ha).
  split; [intros s; rewrite Hw; reflexivity|].
  apply process_sections_app_inv in Hrun as (st1 & _ & Hrun).
  cbn [process_sections] in Hrun.
  apply bind_inr_inv in Hrun as (st2 & [] & Hsec & Hrest).
  pose proof (process_sections_anchors v2 weight_decay after Hafter st2) as Hfr.
  rewrite Hrest in Hfr. cbn [fst] in Hfr. rewrite Hfr.
  destruct Hkind as [Hy|Hr].
  - rewrite (process_yolo _ _ _ _ Hy) in Hsec.
    destruct (yolo_inr_inv _ _ _ Hsec) as (a' & oi & Ha' & Ho).
    rewrite (yolo_run _ _ _ _ Ha' Ho) in Hsec. injection Hsec as <-.
    cbn. congruence.
  - rewrite (process_region _ _ _ _ Hr) in Hsec. unfold region in Hsec.
    rewrite Hw in Hsec. injection Hsec as <-. reflexivity.
Qed.

End Anchors.

(** ** After the last section *)

Section Finish.
Import Conv.
Local Open Scope Z_scope.

Lemma blind_ret {A} (a : A) : stream_blind (mret a).
Proof. intros st ws. reflexivity. Qed.

Lemma blind_raise {A} e : stream_blind (@raise A e).
Proof. intros st ws. reflexivity. Qed.

Lemma blind_of_option {A} (o : option A) e : stream_blind (of_option o e).
Proof. destruct o; intros st ws; reflexivity. Qed.

Lemma blind_bind {A B} (m : M A) (k : A -> M B) :
  stream_blind m -> (forall a, stream_blind (k a)) -> stream_blind (m ≫= k).
Proof.
  intros Hm Hk st ws. unfold mbind, M_bind. rewrite Hm.
  destruct (m st) as [st1 [e|a]]; cbn [fst snd]; [reflexivity|]. apply Hk.
Qed.

Lemma blind_layer_at i : stream_blind (layer_at i).
Proof.
  unfold layer_at. apply blind_bind; [intros st ws; reflexivity|].
  intros ls. apply blind_of_option.
Qed.

Lemma blind_for_each {A B} (f : A -> M B) l :
  (forall x, stream_blind (f x)) -> stream_blind (for_each f l).
Proof.
  intros Hf. induction l as [|x l IH]; cbn [for_each]; [apply blind_ret|].
  apply blind_bind; [apply Hf|]. intros y.
  apply blind_bind; [exact IH|]. intros ys. apply blind_ret.
Qed.

Lemma blind_keras_Model ins outs : stream_blind (keras_Model ins outs).
Proof.
  unfold keras_Model. destruct (mapM id ins); [destruct (mapM id outs)|];
    try apply blind_raise.
  apply blind_bind; [intros st ws; reflexivity|]. intros g. apply blind_ret.
Qed.

Lemma blind_build_model v2 : stream_blind (build_model v2).
Proof.
  unfold build_model. destruct v2.
  - apply blind_bind; [apply blind_layer_at|]. intros i.
    apply blind_bind; [apply blind_layer_at|]. intros o. apply blind_keras_Model.
  - apply blind_bind; [intros st ws; reflexivity|]. intros oi.
    apply blind_bind; [apply blind_of_option|]. intros oi'.
    apply blind_bind; [intros st ws; reflexivity|]. intros ls.
    apply blind_bind; [intros st ws; reflexivity|]. intros _.
    apply blind_bind; [apply blind_for_each; intros; apply blind_layer_at|]. intros outs.
    apply blind_bind; [intros st ws; reflexivity|]. intros i.
    apply blind_keras_Model.
Qed.

Lemma build_model_frame v2 :
  frame (fun st => (weights_file st, count st, stdout st, model_h5 st)) (build_model v2).
Proof.
  unfold build_model, keras_Model, layer_at. destruct v2; frame_solve.
Qed.

Lemma save_and_report_run m st :
  let n := Z.of_nat (length (weights_file st)) in
  let c := value (count st) in
  save_and_report m st
  = (set_stdout (stdout st ++ [Read_of c (inject_Z c + (n # 4))%Q]
                   ++ (if bool_decide (0 < n) then [Warning_unused_weights (n # 4)%Q] else []))
       (set_weights_file [] (set_model_h5 (Some m) st)), inr tt).
Proof.
  intros n c. unfold save_and_report.
  erewrite bind_inr by reflexivity.
  erewrite bind_inr by reflexivity.
  cbn [weights_file set_model_h5].
  change (-1 <? 0) with true. cbv iota. rewrite take_ge, drop_ge by lia.
  erewrite bind_inr by reflexivity.
  erewrite bind_inr by reflexivity.
  fold n. destruct (bool_decide (0 < n)).
  - unfold modify. cbn. rewrite <- app_assoc. reflexivity.
  - unfold mret, M_ret. cbn. reflexivity.
Qed.

(** C8. Once the model has been built from the layers, the converter saves
    it and only then looks at the stream: it reads what is left, prints the
    count of scalars read and the total, and, exactly when bytes were left,
    the warning with the number of unused weights (bytes over four). It then
    returns normally, with the model file written. Building the model does
    not depend on what is left in the stream, so no amount of trailing bytes
    turns a conversion into a failure. *)
Theorem trailing_bytes_are_a_warning (v2 : bool) (st st1 : state) (m : model) :
  build_model v2 st = (st1, inr m) ->
  forall rest : list byte,
    let r := finish v2 (set_weights_file rest st) in
    let n := Z.of_nat (length rest) in
    let c := value (count st) in
    snd r = inr tt /\
    model_h5 (fst r) = Some m /\
    weights_file (fst r) = [] /\
    stdout (fst r)
    = stdout st ++ [Read_of c (inject_Z c + (n # 4))%Q]
        ++ (if bool_decide (0 < n) then [Warning_unused_weights (n # 4)%Q] else []).
Proof.
  intros Hb rest r n c. subst r. unfold finish.
  pose proof (blind_build_model v2 st rest) as Hblind. rewrite Hb in Hblind.
  cbn [fst snd] in Hblind.
  erewrite bind_inr by exact Hblind.
  pose proof (build_model_frame v2 st) as Hfr. rewrite Hb in Hfr. cbn [fst] in Hfr.
  injection Hfr as _ Hcount Hstdout _.
  rewrite save_and_report_run.
  cbn [fst snd weights_file count stdout model_h5 set_stdout set_weights_file set_model_h5].
  rewrite Hcount, Hstdout. fold n c. auto.
Qed.

End Finish.

(** ** Strings *)

Section Strings.

Lemma append_cons c s t : String c s +:+ t = String c (s +:+ t).
Proof. reflexivity. Qed.

Lemma append_assoc s t u : (s +:+ t) +:+ u = s +:+ t +:+ u.
Proof.
  induction s as [|c s IH]; [reflexivity|].
  rewrite !append_cons, IH. reflexivity.
Qed.

Lemma append_nil_r s : s +:+ "" = s.
Proof.
  induction s as [|c s IH]; [reflexivity|]. rewrite append_cons, IH. reflexivity.
Qed.

Lemma rstrip_by_all p t : Uniq.all_chars p t = true -> Py.rstrip_by p t = "".
Proof.
  induction t as [|c t IH]; cbn [Py.rstrip_by Uniq.all_chars]; [reflexivity|].
  intros [Hc Ht]%andb_true_iff. rewrite (IH Ht), Hc. reflexivity.
Qed.

Lemma rstrip_by_app p s t :
  match Uniq.last_char s with Some c => negb (p c) | None => false end = true ->
  Uniq.all_chars p t = true ->
  Py.rstrip_by p (s +:+ t) = s.
Proof.
  intros Hs Ht. induction s as [|c s IH]; [discriminate Hs|].
  rewrite append_cons. cbn [Py.rstrip_by].
  destruct s as [|d s].
  - cbn [Uniq.last_char] in Hs. change ("" +:+ t) with t.
    rewrite (rstrip_by_all p t Ht).
    destruct (p c); [discriminate Hs | reflexivity].
  - rewrite IH by exact Hs. reflexivity.
Qed.

Lemma last_char_snoc s c : Uniq.last_char (s +:+ String c "") = Some c.
Proof.
  induction s as [|d s IH]; [reflexivity|].
  rewrite append_cons. cbn [Uniq.last_char].
  destruct (s +:+ String c "") eqn:E; [|exact IH].
  destruct s; discriminate E.
Qed.

Lemma prefix_app s rest : String.prefix s (s +:+ rest) = true.
Proof.
  induction s as [|c s IH]; [apply prefix_empty|].
  rewrite append_cons. cbn [String.prefix].
  destruct (ascii_dec c c); [exact IH | congruence].
Qed.

Lemma prefix_head_ne c s d t : c <> d -> String.prefix (String c s) (String d t) = false.
Proof.
  intros H. cbn [String.prefix]. destruct (ascii_dec c d); [contradiction | reflexivity].
Qed.

Lemma replace_go_skip old new u rest :
  Py.replace_go old new (u +:+ rest) (String.length u) = Py.replace_go old new rest 0.
Proof.
  induction u as [|c u IH]; [reflexivity|].
  rewrite append_cons. cbn [Py.replace_go String.length]. exact IH.
Qed.

Lemma replace_go_no_match c old new s :
  Uniq.all_chars (fun d => negb (bool_decide (c = d))) s = true ->
  Py.replace_go (String c old) new s 0 = s.
Proof.
  induction s as [|d s IH]; [reflexivity|].
  cbn [Uniq.all_chars]. intros [Hd Hs]%andb_true_iff.
  apply negb_true_iff, bool_decide_eq_false in Hd.
  cbn [Py.replace_go]. rewrite (prefix_head_ne c old d s Hd), (IH Hs). reflexivity.
Qed.

Lemma all_chars_impl (p q : ascii -> bool) s :
  (forall c, p c = true -> q c = true) ->
  Uniq.all_chars p s = true -> Uniq.all_chars q s = true.
Proof.
  intros Hpq. induction s as [|c s IH]; [reflexivity|].
  cbn [Uniq.all_chars]. intros [Hc Hs]%andb_true_iff.
  rewrite (Hpq c Hc), (IH Hs). reflexivity.
Qed.

Lemma bracket_false c : Uniq.bracket c = false -> c <> "["%char /\ c <> "]"%char.
Proof.
  unfold Uniq.bracket. cbn [Py.mem].
  destruct (decide (c = "["%char)); [discriminate|].
  destruct (decide (c = "]"%char)); [discriminate|]. auto.
Qed.

Lemma name_ok_inv name :
  Uniq.name_ok name = true ->
  exists c rest, name = String c rest /\
    c <> "["%char /\ c <> "]"%char /\ Py.isspace c = false /\
    match Uniq.last_char name with Some d => negb (Uniq.bracket d) | None => false end = true.
Proof.
  unfold Uniq.name_ok. intros [H1 H2]%andb_true_iff.
  destruct name as [|c rest]; [discriminate H1|].
  apply andb_true_iff in H1 as [Hb Hs].
  apply negb_true_iff in Hb, Hs. apply bracket_false in Hb as [? ?].
  exists c, rest. auto.
Qed.

Lemma strip_header name trail :
  Uniq.all_chars Py.isspace trail = true ->
  Py.strip ("[" +:+ name +:+ "]" +:+ trail) = "[" +:+ name +:+ "]".
Proof.
  intros Ht. unfold Py.strip.
  change ("[" +:+ name +:+ "]" +:+ trail) with (String "[" (name +:+ "]" +:+ trail)).
  cbn [Py.lstrip_by]. change (Py.isspace "[") with false. cbv iota.
  change (String "[" (name +:+ "]" +:+ trail)) with ("[" +:+ name +:+ "]" +:+ trail).
  replace ("[" +:+ name +:+ "]" +:+ trail) with (("[" +:+ name +:+ "]") +:+ trail)
    by (rewrite !append_assoc; reflexivity).
  apply rstrip_by_app; [|exact Ht].
  replace ("[" +:+ name +:+ "]") with (("[" +:+ name) +:+ "]")
    by (rewrite !append_assoc; reflexivity).
  rewrite last_char_snoc. reflexivity.
Qed.

Lemma strip_brackets name :
  Uniq.name_ok name = true ->
  Py.strip_chars "[]" ("[" +:+ name +:+ "]") = name.
Proof.
  intros Hn. destruct (name_ok_inv name Hn) as (c & rest & -> & Hl & Hr & _ & Hlast).
  unfold Py.strip_chars.
  change ("[" +:+ String c rest +:+ "]") with (String "[" (String c (rest +:+ "]"))).
  cbn [Py.lstrip_by Py.mem].
  rewrite (decide_True (P := "["%char = "["%char)) by reflexivity.
  rewrite (decide_False (P := c = "["%char)) by exact Hl.
  rewrite (decide_False (P := c = "]"%char)) by exact Hr.
  change (String c (rest +:+ "]")) with (String c rest +:+ "]").
  apply rstrip_by_app; [exact Hlast | reflexivity].
Qed.

Lemma replace_header name new trail :
  Uniq.name_ok name = true ->
  Uniq.all_chars Py.isspace trail = true ->
  Py.replace name new ("[" +:+ name +:+ "]" +:+ trail) = "[" +:+ new +:+ "]" +:+ trail.
Proof.
  intros Hn Ht. destruct (name_ok_inv name Hn) as (c & rest & -> & Hl & Hr & Hs & _).
  unfold Py.replace.
  change ("[" +:+ String c rest +:+ "]" +:+ trail)
    with (String "[" (String c rest +:+ "]" +:+ trail)).
  cbn [Py.replace_go].
  rewrite (prefix_head_ne c rest "[" _ Hl).
  change ("[" +:+ new +:+ "]" +:+ trail) with (String "[" (new +:+ "]" +:+ trail)).
  f_equal.
  pose proof (prefix_app (String c rest) ("]" +:+ trail)) as Hp.
  rewrite append_cons in Hp |- *. cbn [Py.replace_go]. rewrite Hp.
  f_equal.
  replace (String.length (String c rest) - 1) with (String.length rest)
    by (cbn [String.length]; lia).
  rewrite replace_go_skip.
  apply replace_go_no_match.
  change ("]" +:+ trail) with (String "]" trail). cbn [Uniq.all_chars].
  rewrite bool_decide_eq_false_2 by exact Hr. cbn [negb andb].
  revert Ht. apply all_chars_impl. intros d Hd.
  apply negb_true_iff, bool_decide_eq_false. intros ->. congruence.
Qed.

End Strings.

(** ** Section names made unique *)

Section Uniquify.
Import Uniq.

Lemma rename_header (counters : gmap string nat) name trail :
  name_ok name = true -> all_chars Py.isspace trail = true ->
  rename_line counters (render (Header name trail))
  = (<[name := S (default 0 (counters !! name))]> counters,
     render (Header (name +:+ "_" +:+ Py.str (default 0 (counters !! name))) trail)).
Proof.
  intros Hn Ht. unfold rename_line, render.
  assert (Py.startswith ("[" +:+ name +:+ "]" +:+ trail) "[" = true) as ->.
  { unfold Py.startswith.
    change ("[" +:+ name +:+ "]" +:+ trail) with (String "[" (name +:+ "]" +:+ trail)).
    cbn [String.prefix]. destruct (ascii_dec "[" "["); [apply prefix_empty | congruence]. }
  rewrite (strip_header name trail Ht), (strip_brackets name Hn).
  cbv zeta. rewrite (replace_header name _ trail Hn Ht). reflexivity.
Qed.

Lemma rename_body (counters : gmap string nat) text :
  Py.startswith text "[" = false ->
  rename_line counters (render (Body text)) = (counters, render (Body text)).
Proof. intros H. unfold rename_line, render. rewrite H. reflexivity. Qed.

Lemma uniquify_lines_spec (counters : gmap string nat) (seen : list string) ls :
  (forall name, default 0 (counters !! name) = count_occ string_dec seen name) ->
  Forall (fun l => line_ok l = true) ls ->
  uniquify_lines counters (render <$> ls) = render <$> spec_number seen ls.
Proof.
  intros Hinv Hok. revert counters seen Hinv.
  induction Hok as [|l ls Hl _ IH]; intros counters seen Hinv; [reflexivity|].
  destruct l as [name trail|text]; cbn [line_ok] in Hl.
  - apply andb_true_iff in Hl as [Hn Ht].
    cbn [fmap list_fmap uniquify_lines spec_number].
    rewrite (rename_header counters name trail Hn Ht), Hinv.
    f_equal. apply IH. intros name'.
    destruct (decide (name = name')) as [<-|Hne].
    + rewrite lookup_insert_eq, count_occ_cons_eq by reflexivity. reflexivity.
    + rewrite lookup_insert_ne, count_occ_cons_neq by exact Hne. apply Hinv.
  - apply negb_true_iff in Hl.
    cbn [fmap list_fmap uniquify_lines spec_number].
    rewrite (rename_body counters text Hl).
    f_equal. apply IH. exact Hinv.
Qed.

Lemma rev_app_append s acc : String.rev_app s acc = String.rev_app s "" +:+ acc.
Proof.
  revert acc. induction s as [|c s IH]; intros acc; [reflexivity|].
  cbn [String.rev_app]. rewrite (IH (String c acc)), (IH (String c "")).
  rewrite append_assoc. reflexivity.
Qed.

Lemma readlines_go_line cur s rest :
  newline_terminated s = true ->
  readlines_go cur (s +:+ rest) = (String.rev cur +:+ s) :: readlines_go "" rest.
Proof.
  revert cur. induction s as [|c s IH]; intros cur Hs; [discriminate Hs|].
  rewrite append_cons. cbn [readlines_go newline_terminated] in *.
  destruct s as [|d s].
  - apply bool_decide_eq_true in Hs as ->.
    rewrite decide_True by reflexivity.
    unfold String.rev. cbn [String.rev_app]. rewrite rev_app_append. reflexivity.
  - apply andb_true_iff in Hs as [Hc Hs].
    apply negb_true_iff, bool_decide_eq_false in Hc.
    rewrite decide_False by exact Hc.
    rewrite (IH _ Hs). unfold String.rev. cbn [String.rev_app].
    rewrite (rev_app_append cur), append_assoc. reflexivity.
Qed.

Lemma readlines_concat (lines : list string) :
  Forall (fun s => newline_terminated s = true) lines ->
  readlines (concat_lines lines) = lines.
Proof.
  unfold readlines. induction 1 as [|s lines Hs _ IH]; [reflexivity|].
  cbn [concat_lines]. rewrite (readlines_go_line "" s _ Hs), IH. reflexivity.
Qed.

Lemma content_number seen ls : content (spec_number seen ls) = content ls.
Proof.
  revert seen. induction ls as [|[name trail|text] ls IH]; intros seen; try reflexivity.
  cbn [spec_number content]. rewrite IH. reflexivity.
Qed.

Lemma sections_number seen ls :
  snd <$> sections (spec_number seen ls) = snd <$> sections ls.
Proof.
  revert seen. induction ls as [|[name trail|text] ls IH]; intros seen; [reflexivity| |].
  - cbn [spec_number sections fmap list_fmap snd].
    rewrite content_number. f_equal. apply IH.
  - cbn [spec_number sections]. apply IH.
Qed.

Lemma names_number name seen ls :
  snd <$> filter (fun p => fst p = name)
                 (zip (header_names ls) (header_names (spec_number seen ls)))
  = (fun k => name +:+ "_" +:+ Py.str k)
      <$> seq (count_occ string_dec seen name) (count_occ string_dec (header_names ls) name).
Proof.
  revert seen. induction ls as [|[name' trail|text] ls IH]; intros seen; [reflexivity| |].
  - cbn [spec_number header_names zip zip_with].
    destruct (decide (name' = name)) as [->|Hne].
    + rewrite filter_cons_True by reflexivity.
      rewrite count_occ_cons_eq by reflexivity.
      cbn [fmap list_fmap snd seq]. f_equal.
      rewrite IH, count_occ_cons_eq by reflexivity. reflexivity.
    + rewrite filter_cons_False by exact Hne.
      rewrite (count_occ_cons_neq string_dec _ Hne).
      rewrite IH, count_occ_cons_neq by exact Hne. reflexivity.
  - cbn [spec_number header_names]. apply IH.
Qed.

(** C4. For a config whose section headers are [[name]] lines with
    well-formed names, the pass writes the same lines with every header
    renamed: the headers that share a name [X] become [X_0], [X_1], ... in
    file order, counted from zero for each name; the lines between headers
    are written as they were, so every section keeps its content; and for a
    file of newline-terminated lines the returned text is the rendering of
    the renamed config. *)
Theorem sections_are_numbered (ls : list cfg_line) :
  Forall (fun l => line_ok l = true) ls ->
  let out := spec_number [] ls in
  uniquify_lines ∅ (render <$> ls) = render <$> out /\
  (Forall (fun l => newline_terminated (render l) = true) ls ->
   unique_config_sections (concat_lines (render <$> ls)) = concat_lines (render <$> out)) /\
  (forall name,
     snd <$> filter (fun p => fst p = name) (zip (header_names ls) (header_names out))
     = (fun k => name +:+ "_" +:+ Py.str k)
         <$> seq 0 (count_occ string_dec (header_names ls) name)) /\
  snd <$> sections out = snd <$> sections ls.
Proof.
  intros Hok out.
  assert (uniquify_lines ∅ (render <$> ls) = render <$> out) as Hlines
    by (apply uniquify_lines_spec; [intros name; rewrite lookup_empty; reflexivity | exact Hok]).
  split; [exact Hlines|]. split; [|split].
  - intros Hnl. unfold unique_config_sections.
    rewrite readlines_concat, Hlines; [reflexivity|].
    apply Forall_fmap. exact Hnl.
  - intros name. apply (names_number name []).
  - apply sections_number.
Qed.

End Uniquify.

(** ** The theorems at sample inputs *)

Section Instances.
Import Conv.
Local Open Scope Z_scope.

(** C2 at a version 0.2 header: 12 + 8 bytes are taken, one byte is left. *)
Lemma header_seen_width_witness :
  let st := initial Sample.header_0_2 None None in
  (12 + 8 <= length (weights_file st))%nat /\
  read_header false st = (set_weights_file [x2a] st, inr tt).
Proof.
  intros st. split; [vm_compute; lia|].
  destruct header_seen_width as (_ & _ & H).
  destruct (H st) as [_ H']. apply H'. vm_compute. lia.
Defined.

(** C3 at the kernel of a layer of two filters of size 3 on three channels,
    and at an array of shape (2, 1, 1, 2). *)
Lemma kernel_transpose_roundtrip_witness :
  (exists bias bnw kernel st' source,
     convolutional_weights 2 3 false Sample.before_layers = (st', inr (bias, bnw, kernel)) /\
     Np.shape source = [2; 3; 3; 3]%nat /\ Np.shape kernel = [3; 3; 3; 2]%nat /\
     Np.item kernel [2; 1; 0; 1]%nat = Np.item source [1; 0; 2; 1]%nat /\
     Np.transpose kernel [3; 2; 0; 1]%nat = Some source) /\
  Np.of_buffer [2; 1; 1; 2] Sample.four_floats = inr Sample.kernel_2112 /\
  exists t, Np.transpose Sample.kernel_2112 [2; 3; 1; 0]%nat = Some t /\
            Np.shape t = [1; 2; 1; 2]%nat /\
            Np.item t [0; 1; 0; 1]%nat = Np.item Sample.kernel_2112 [1; 0; 0; 1]%nat /\
            Np.transpose t [3; 2; 0; 1]%nat = Some Sample.kernel_2112.
Proof.
  destruct kernel_transpose_roundtrip as [Hbuilder Hany].
  split; [|split; [reflexivity|]].
  - destruct (Hbuilder 2 3 false Sample.before_layers Sample.t0 eq_refl)
      as (bias & bnw & kernel & st' & source & Hrun & _ & Hs & Hk & Hitem & Hback);
      try (vm_compute; lia); try (vm_compute; discriminate); try (vm_compute; reflexivity).
    exists bias, bnw, kernel, st', source. auto.
  - destruct (Hany 2 1 1 2 Sample.four_floats Sample.kernel_2112 eq_refl)%nat
      as (t & H1 & _ & H3 & _ & H5 & H6).
    exists t. auto.
Defined.

(** C2 as stated fails in the single-output variant: the header read takes
    16 bytes, a "seen" field of 4 bytes, also when major is 2 and minor is 0. *)
Lemma v2_header_counterexample :
  let st := initial Sample.header_2_0 None None in
  Np.int32_of_bytes Sample.header_2_0 = 2 /\
  Np.int32_of_bytes (drop 4 Sample.header_2_0) = 0 /\
  seen_width 2 0 = 8 /\
  read_header true st = (set_weights_file (drop (12 + 4) Sample.header_2_0) st, inr tt) /\
  read_header true st <> (set_weights_file (drop (12 + 8) Sample.header_2_0) st, inr tt).
Proof.
  intros st. repeat split; try reflexivity. vm_compute. discriminate.
Qed.

(** C1 (amended) at the section of the end-to-end scenario, 8 + 216 bytes
    and 56 scalars, and at a section with batch normalisation, 8 + 24 + 216
    bytes and 62 scalars. *)
Lemma convolutional_stream_bytes_witness :
  let st := Sample.at_tail (repeat x01 224 ++ [x07]) Sample.g0 (Some Sample.t0) [] [] in
  let st' := fst (convolutional false "5e-4" "convolutional_0" (Sample.conv_items "linear") st) in
  let sn := Sample.at_tail (repeat x01 248 ++ [x07]) Sample.g0 (Some Sample.t0) [] [] in
  let sn' := fst (convolutional false "5e-4" "convolutional_0" Sample.conv_bn_items sn) in
  (weights_file st' = [x07] /\ value (count st') = 56) /\
  (weights_file sn' = [x07] /\ value (count sn') = 62).
Proof.
  intros st st' sn sn'. split.
  - destruct (convolutional_stream_bytes false "5e-4" "convolutional_0"
                (Sample.conv_items "linear") st Sample.t0 2 3 1 1 "linear")
      as [_ H]; try reflexivity; try (vm_compute; lia); try (vm_compute; discriminate).
    exact H.
  - destruct (convolutional_stream_bytes false "5e-4" "convolutional_0"
                Sample.conv_bn_items sn Sample.t0 2 3 1 1 "leaky")
      as [_ H]; try reflexivity; try (vm_compute; lia); try (vm_compute; discriminate).
    exact H.
Defined.

(** C1 as stated fails: a section with [batch_normalize=0], where the flag
    is not set, is read like one with the flag set; the (3, filters) array is
    taken from the stream, 8 + 24 + 216 bytes in all and 62 scalars, not
    8 + 216 bytes and 56 scalars. *)
Lemma batch_normalize_zero_counterexample :
  let st := Sample.at_tail (repeat x01 248 ++ [x07]) Sample.g0 (Some Sample.t0) [] [] in
  let r := convolutional false "5e-4" "convolutional_0" Sample.conv_unset_items st in
  Sample.conv_unset_items !! "batch_normalize" ≫= Py.int = Some 0 /\
  snd r = inr tt /\
  weights_file (fst r) = [x07] /\
  weights_file (fst r) <> drop (8 + 216) (weights_file st) /\
  value (count (fst r)) = 62 /\
  value (count (fst r)) <> 2 + 3 * 3 * 3 * 2.
Proof.
  intros st r. repeat split; try reflexivity; vm_compute; discriminate.
Qed.

(** C6 (amended) at a sigmoid section: the 8 + 216 bytes are gone when the
    error is raised. *)
Lemma unknown_activation_after_weights_witness :
  let st := Sample.at_tail (repeat x01 224 ++ [x07]) Sample.g0 (Some Sample.t0) [] [] in
  exists st1,
    convolutional false "5e-4" "convolutional_0" (Sample.conv_items "sigmoid") st
    = (st1, inl (unknown_activation "sigmoid" "convolutional_0")) /\
    weights_file st1 = [x07] /\ graph st1 = graph st.
Proof.
  intros st.
  destruct (unknown_activation_after_weights false "5e-4" "convolutional_0"
              (Sample.conv_items "sigmoid") st Sample.t0 2 3 1 1 "sigmoid")
    as (st1 & w & _ & H & Hws & Hg & _);
    try reflexivity; try discriminate; try (vm_compute; lia); try (vm_compute; discriminate).
  exists st1. auto.
Defined.

(** C6 as stated fails: with a stream that is too short the sigmoid section
    ends in the error of the weight read, not in the unsupported-activation
    error. *)
Lemma unknown_activation_counterexample :
  let st := Sample.at_tail [x01; x02; x03] Sample.g0 (Some Sample.t0) [] [] in
  let r := process_section false "5e-4" ("convolutional_0", Sample.conv_items "sigmoid") st in
  snd r = inl (TypeError "buffer is too small for requested array") /\
  snd r <> inl (unknown_activation "sigmoid" "convolutional_0") /\
  weights_file (fst r) = [].
Proof.
  vm_compute. split; [reflexivity|]. split; [discriminate | reflexivity].
Qed.

(** C4 at a config with one [net] and two [convolutional] sections. *)
Lemma sections_are_numbered_witness :
  Forall (fun l => Uniq.line_ok l = true) Sample.cfg_lines /\
  Uniq.unique_config_sections
    "[net]
height=416
[convolutional]
filters=2
[convolutional]
filters=4
" = "[net_0]
height=416
[convolutional_0]
filters=2
[convolutional_1]
filters=4
".
Proof.
  assert (Forall (fun l => Uniq.line_ok l = true) Sample.cfg_lines) as Hok
    by (repeat constructor).
  split; [exact Hok|].
  destruct (sections_are_numbered Sample.cfg_lines Hok) as (_ & H & _ & _).
  apply H. repeat constructor.
Defined.

(** C5 at a route that lists [-1, 0]: the inputs of the concatenation are
    the last layer, then the first. *)
Lemma route_resolution_witness :
  let st := Sample.at_tail [] Sample.g1 (Some Sample.t1) [Some Sample.t0; Some Sample.t1] [] in
  graph (fst (route {[ "layers" := "-1, 0" ]} st))
  = Sample.g1 ++ [mk_node Concatenate [Sample.t1; Sample.t0]].
Proof.
  intros st.
  destruct (route_resolution {[ "layers" := "-1, 0" ]} st "-1, 0" [-1; 0])
    as (_ & _ & H); [reflexivity | repeat constructor |].
  rewrite (H [Sample.t1; Sample.t0]); [reflexivity | vm_compute; lia | repeat constructor].
Defined.

(** C7 (amended) at a yolo section that follows one layer. *)
Lemma yolo_region_effects_witness :
  let r := process_section false "5e-4" ("yolo_0", Sample.anchors_items "10,13,  16,30")
                           Sample.before_yolo in
  out_index (fst r) = Some [0] /\ all_layers (fst r) = [Some Sample.t1; None] /\
  weights_file (fst r) = [x07].
Proof.
  intros r.
  destruct (yolo_region_effects false "5e-4" "yolo_0" (Sample.anchors_items "10,13,  16,30")
              Sample.before_yolo "10,13,  16,30" eq_refl) as [H _].
  destruct (H eq_refl [] eq_refl) as (_ & _ & Ho & Hl & _ & Hw & _).
  auto.
Defined.

(** C7 as stated fails for region sections: in the single-output variant a
    region section leaves the list of layers as it was, with no placeholder,
    and records no output ([out_index] does not even exist). *)
Lemma region_counterexample :
  let st := mk_state [x07] (PyInt 0) Sample.g1 None (Some Sample.t1)
                     [Some Sample.t0; Some Sample.t1] None None None [] in
  let r := process_section true "5e-4" ("region_0", Sample.anchors_items "0.57,0.67") st in
  snd r = inr tt /\
  all_layers (fst r) = [Some Sample.t0; Some Sample.t1] /\
  all_layers (fst r) <> all_layers st ++ [None] /\
  out_index (fst r) = None.
Proof.
  vm_compute. split; [reflexivity|]. split; [reflexivity|]. split; [discriminate | reflexivity].
Qed.

(** C8 at a finished graph with two bytes left in the stream. *)
Lemma trailing_bytes_are_a_warning_witness :
  build_model false Sample.finished = (Sample.finished_built, inr Sample.finished_model) /\
  let r := finish false (set_weights_file [x00; x00] Sample.finished) in
  snd r = inr tt /\ model_h5 (fst r) = Some Sample.finished_model /\
  stdout (fst r) = [Read_of 0 (inject_Z 0 + (2 # 4))%Q; Warning_unused_weights (2 # 4)%Q].
Proof.
  assert (build_model false Sample.finished
          = (Sample.finished_built, inr Sample.finished_model)) as Hb by reflexivity.
  split; [exact Hb|].
  destruct (trailing_bytes_are_a_warning false Sample.finished Sample.finished_built
              Sample.finished_model Hb [x00; x00]) as (H1 & H2 & _ & H4).
  auto.
Defined.

(** C9 at the state a yolo section leaves: a maxpool section raises. *)
Lemma tail_after_yolo_witness :
  process_section false "5e-4" ("yolo_0", Sample.anchors_items "10,13,  16,30")
                  Sample.before_yolo = (Sample.after_yolo, inr tt) /\
  prev_layer Sample.after_yolo = None /\
  raises (process_section false "5e-4" ("maxpool_0", {[ "size" := "2"; "stride" := "2" ]}))
         Sample.after_yolo.
Proof.
  assert (process_section false "5e-4" ("yolo_0", Sample.anchors_items "10,13,  16,30")
            Sample.before_yolo = (Sample.after_yolo, inr tt)) as Hrun by reflexivity.
  split; [exact Hrun|].
  destruct (tail_after_yolo false "5e-4" "yolo_0" (Sample.anchors_items "10,13,  16,30")
              Sample.before_yolo Sample.after_yolo eq_refl Hrun) as (H1 & H2 & _).
  split; [exact H1|]. apply H2. right. left. reflexivity.
Defined.

(** C10 at a config with two yolo sections: the file holds the second list. *)
Lemma anchors_of_last_section_witness :
  process_sections false "5e-4"
    ([("yolo_0", Sample.anchors_items "10,13,  16,30")]
     ++ ("yolo_1", Sample.anchors_items "30,61,  62,45") :: [("net_1", ∅)])
    Sample.before_yolo = (Sample.after_two_yolo, inr tt) /\
  anchors_txt Sample.after_two_yolo = Some "30,61,  62,45
".
Proof.
  assert (process_sections false "5e-4"
            ([("yolo_0", Sample.anchors_items "10,13,  16,30")]
             ++ ("yolo_1", Sample.anchors_items "30,61,  62,45") :: [("net_1", ∅)])
            Sample.before_yolo = (Sample.after_two_yolo, inr tt)) as Hrun by reflexivity.
  split; [exact Hrun|].
  destruct (anchors_of_last_section false "5e-4"
              [("yolo_0", Sample.anchors_items "10,13,  16,30")] [("net_1", ∅)]
              "yolo_1" (Sample.anchors_items "30,61,  62,45") "30,61,  62,45"
              Sample.before_yolo Sample.after_two_yolo) as [_ H].
  - left. reflexivity.
  - reflexivity.
  - repeat constructor.
  - exact Hrun.
  - exact H.
Defined.

End Instances.

(** * Further properties of the converter *)

Ltac dispatch H :=
  repeat (apply startswith_cons in H as (? & -> & H));
  unfold Conv.process_section, Py.startswith; cbn; rewrite ?prefix_empty; reflexivity.

(** ** Errors and sections that build nothing *)

Section Errors.
Import Conv.
Local Open Scope Z_scope.

Lemma read_all_short n st :
  (length (weights_file st) <= Z.to_nat n)%nat -> 0 <= n ->
  read n st = (set_weights_file [] st, inr (weights_file st)).
Proof.
  intros Hlen Hn. rewrite read_run by exact Hn.
  rewrite take_ge, drop_ge by exact Hlen. reflexivity.
Qed.

Lemma int32_array_short n buf st :
  (length buf < 4 * n)%nat ->
  int32_array n buf st = (st, inl (TypeError "buffer is too small for requested array")).
Proof.
  intros H. unfold int32_array.
  destruct (Nat.ltb_spec (length buf) (4 * n)); [reflexivity | lia].
Qed.

Lemma int32_array_run n buf st :
  (4 * n <= length buf)%nat ->
  int32_array n buf st
  = (st, inr ((fun k => Np.int32_of_bytes (drop (4 * k)%nat buf)) <$> seq 0 n)).
Proof.
  intros H. unfold int32_array.
  destruct (Nat.ltb_spec (length buf) (4 * n)); [lia | reflexivity].
Qed.

(** X1. The single-output (v2) header is 16 bytes whatever they hold. A
    stream that ends inside the header makes the header read raise the
    buffer error of [np.ndarray], in both variants, and by then the stream
    has been read to its end. *)
Theorem header_reads (st : state) :
  let ws := weights_file st in
  let too_small := TypeError "buffer is too small for requested array" in
  ((16 <= length ws)%nat ->
     read_header true st = (set_weights_file (drop 16 ws) st, inr tt)) /\
  ((length ws < 16)%nat ->
     read_header true st = (set_weights_file [] st, inl too_small)) /\
  ((length ws < 12)%nat ->
     read_header false st = (set_weights_file [] st, inl too_small)) /\
  ((12 <= length ws)%nat ->
   (Z.of_nat (length ws)
    < 12 + seen_width (Np.int32_of_bytes ws) (Np.int32_of_bytes (drop 4 ws))) ->
     read_header false st = (set_weights_file [] st, inl too_small)).
Proof.
  intros ws too_small. repeat split.
  - intros H. unfold read_header.
    erewrite bind_inr by (apply read_run; lia).
    change (Z.to_nat 16) with 16%nat. fold ws.
    erewrite bind_inr by (apply int32_array_run; rewrite length_take; lia).
    reflexivity.
  - intros H. unfold read_header.
    erewrite bind_inr by (apply read_all_short; [change (Z.to_nat 16) with 16%nat; fold ws|]; lia).
    erewrite bind_inl by (apply int32_array_short; fold ws; lia). reflexivity.
  - intros H. unfold read_header.
    erewrite bind_inr by (apply read_all_short; [change (Z.to_nat 12) with 12%nat; fold ws|]; lia).
    erewrite bind_inl by (apply int32_array_short; fold ws; lia). reflexivity.
  - intros H12 Hlt. unfold read_header.
    erewrite bind_inr by (apply read_run; lia).
    change (Z.to_nat 12) with 12%nat. fold ws.
    erewrite bind_inr by (apply int32_array_run; rewrite length_take; lia).
    change (seq 0 3) with [0%nat; 1%nat; 2%nat].
    cbn [fmap list_fmap lookup list_lookup default from_option id Nat.mul Nat.add].
    rewrite (int32_of_bytes_drop_take 0 12 ws), (int32_of_bytes_drop_take 4 12 ws) by lia.
    change (drop 0 ws) with ws.
    unfold seen_width in Hlt.
    destruct (seen_is_int64 (Np.int32_of_bytes ws) (Np.int32_of_bytes (drop 4 ws))).
    + erewrite bind_inr
        by (apply read_all_short;
            [cbn [weights_file set_weights_file]; rewrite length_drop; lia | lia]).
      unfold int64_array1. cbn [weights_file set_weights_file].
      destruct (Nat.ltb_spec (length (drop 12 ws)) 8);
        [reflexivity | rewrite length_drop in *; lia].
    + erewrite bind_inr
        by (apply read_all_short;
            [cbn [weights_file set_weights_file]; rewrite length_drop; lia | lia]).
      cbn [weights_file set_weights_file].
      erewrite bind_inl by (apply int32_array_short; rewrite length_drop; lia).
      reflexivity.
Qed.

(** X2. Only convolutional sections touch the weight stream: every other
    section leaves the unread stream and [count] as they were, whether it
    succeeds or raises. *)
Theorem other_sections_read_nothing (v2 : bool) (weight_decay section : string)
    (items : gmap string string) :
  Py.startswith section "convolutional" = false ->
  frame (fun st => (weights_file st, count st))
        (process_section v2 weight_decay (section, items)).
Proof.
  intros Hc. unfold process_section. rewrite Hc.
  unfold maxpool, avgpool, route, reorg, shortcut, upsample, yolo, region, write_anchors,
    get_int, getitem, py_assert, append_layer, prev_from_last, layer_at.
  frame_solve.
Qed.

Lemma process_net v2 wd section items st :
  Py.startswith section "net" = true ->
  process_section v2 wd (section, items) st = (st, inr tt).
Proof. intros H. dispatch H. Qed.

Lemma process_cost v2 wd section items st :
  Py.startswith section "cost" = true ->
  process_section v2 wd (section, items) st = (st, inr tt).
Proof. intros H. dispatch H. Qed.

Lemma process_softmax v2 wd section items st :
  Py.startswith section "softmax" = true ->
  process_section v2 wd (section, items) st = (st, inr tt).
Proof. intros H. dispatch H. Qed.

(** X3. A net, cost or softmax section changes nothing. A section whose
    name starts with none of the twelve known kinds raises the
    unsupported-section error, which carries the name, and changes nothing. *)
Theorem ignored_and_unknown_sections (v2 : bool) (weight_decay section : string)
    (items : gmap string string) (st : state) :
  (Py.startswith section "net" = true \/ Py.startswith section "cost" = true \/
   Py.startswith section "softmax" = true ->
   process_section v2 weight_decay (section, items) st = (st, inr tt)) /\
  (Forall (fun kind => Py.startswith section kind = false)
          ["convolutional"; "maxpool"; "avgpool"; "route"; "reorg"; "shortcut";
           "upsample"; "yolo"; "region"; "net"; "cost"; "softmax"] ->
   process_section v2 weight_decay (section, items) st
   = (st, inl (ValueError ("Unsupported section header type: " +:+ section)))).
Proof.
  split.
  - intros [H|[H|H]];
      [apply process_net | apply process_cost | apply process_softmax]; exact H.
  - intros H. unfold process_section.
    repeat match goal with
           | H : Forall _ (_ :: _) |- _ =>
               apply Forall_cons in H as [-> H]
           end.
    reflexivity.
Qed.

(** X4. The format checks of the sections without weights come before any
    effect: reorg and upsample with a stride other than 2, shortcut with an
    activation other than "linear" and avgpool with any parameter raise their
    error and leave the state as it was. *)
Theorem format_errors_change_nothing (section : string) (items : gmap string string)
    (st : state) :
  (forall stride, items !! "stride" ≫= Py.int = Some stride -> stride <> 2 ->
     reorg items st = (st, inl (AssertionError "Only reorg with stride 2 supported.")) /\
     upsample items st = (st, inl (AssertionError "Only stride=2 supported."))) /\
  (forall index activation,
     items !! "from" ≫= Py.int = Some index ->
     items !! "activation" = Some activation -> activation <> "linear" ->
     shortcut items st = (st, inl (AssertionError "Only linear activation supported."))) /\
  (items <> ∅ ->
     avgpool section items st = (st, inl (ValueError (section +:+ " with params unsupported.")))).
Proof.
  split; [|split].
  - intros stride Hs Hne.
    assert ((stride =? 2) = false) as Hb by (apply Z.eqb_neq; exact Hne).
    split.
    + unfold reorg. erewrite bind_inr by (apply get_int_run; exact Hs).
      unfold py_assert. rewrite Hb. reflexivity.
    + unfold upsample. erewrite bind_inr by (apply get_int_run; exact Hs).
      unfold py_assert. rewrite Hb. reflexivity.
  - intros index activation Hi Ha Hne. unfold shortcut.
    erewrite bind_inr by (apply get_int_run; exact Hi).
    erewrite bind_inr by (apply getitem_run; exact Ha).
    unfold py_assert. rewrite bool_decide_eq_false_2 by exact Hne. reflexivity.
  - intros Hne. unfold avgpool. rewrite decide_False by exact Hne. reflexivity.
Qed.

Lemma get_int_cases (items : gmap string string) key st :
  (exists z, get_int items key st = (st, inr z)) \/
  (exists e, get_int items key st = (st, inl e)).
Proof.
  unfold get_int, getitem, mbind, M_bind.
  destruct (items !! key) as [v|]; cbn; [|right; eauto].
  destruct (Py.int v); cbn; [left | right]; eauto.
Qed.

Lemma get_int_missing (items : gmap string string) key st :
  items !! key = None -> get_int items key st = (st, inl (KeyError key)).
Proof. intros H. unfold get_int, getitem, mbind, M_bind. rewrite H. reflexivity. Qed.

(** X5. A convolutional section reads its five keys (filters, size, stride,
    pad, activation) before it reads any weight: if one of them is missing
    the section raises and the state, the stream included, is as it was; a
    missing "filters" is reported as [KeyError("filters")]. *)
Theorem convolutional_checks_keys_first (v2 : bool) (weight_decay section : string)
    (items : gmap string string) (st : state) :
  (items !! "filters" = None ->
   convolutional v2 weight_decay section items st = (st, inl (KeyError "filters"))) /\
  (forall key, key ∈ ["filters"; "size"; "stride"; "pad"; "activation"] ->
   items !! key = None ->
   exists e, convolutional v2 weight_decay section items st = (st, inl e)).
Proof.
  split.
  - intros H. unfold convolutional.
    erewrite bind_inl by (apply get_int_missing; exact H). reflexivity.
  - intros key Hk Hnone. unfold convolutional.
    destruct (get_int_cases items "filters" st) as [[z1 E1]|[e E1]];
      [erewrite bind_inr by exact E1 | erewrite bind_inl by exact E1; eauto].
    destruct (get_int_cases items "size" st) as [[z2 E2]|[e E2]];
      [erewrite bind_inr by exact E2 | erewrite bind_inl by exact E2; eauto].
    destruct (get_int_cases items "stride" st) as [[z3 E3]|[e E3]];
      [erewrite bind_inr by exact E3 | erewrite bind_inl by exact E3; eauto].
    destruct (get_int_cases items "pad" st) as [[z4 E4]|[e E4]];
      [erewrite bind_inr by exact E4 | erewrite bind_inl by exact E4; eauto].
    destruct (items !! "activation") as [a|] eqn:Ea;
      [|erewrite bind_inl by (unfold getitem; rewrite Ea; reflexivity); eauto].
    exfalso.
    repeat (apply elem_of_cons in Hk as [->|Hk]);
      try (rewrite get_int_missing in * by exact Hnone; discriminate);
      try congruence.
    inversion Hk.
Qed.

(** X6. A yolo or region section opens the anchors file for writing before
    it looks up its anchors: without the key "anchors" the section raises
    [KeyError("anchors")] and the file is left empty, whatever it held. *)
Theorem missing_anchors_empty_the_file (v2 : bool) (weight_decay section : string)
    (items : gmap string string) (st : state) :
  Py.startswith section "yolo" = true \/ Py.startswith section "region" = true ->
  items !! "anchors" = None ->
  process_section v2 weight_decay (section, items) st
  = (set_anchors_txt (Some "") st, inl (KeyError "anchors")).
Proof.
  intros Hk Ha.
  assert (write_anchors items st = (set_anchors_txt (Some "") st, inl (KeyError "anchors")))
    as Hw.
  { unfold write_anchors. erewrite bind_inr by reflexivity.
    erewrite bind_inl by (unfold getitem; rewrite Ha; reflexivity). reflexivity. }
  destruct Hk as [H|H].
  - rewrite (process_yolo _ _ _ _ H). unfold yolo.
    erewrite bind_inl by exact Hw. reflexivity.
  - rewrite (process_region _ _ _ _ H). exact Hw.
Qed.

(** X7. In the single-output (v2) variant the list [out_index] is never
    created: a yolo section writes its anchors and then raises
    [NameError]; no placeholder is appended and the tail stays. *)
Theorem yolo_needs_out_index (v2 : bool) (weight_decay section : string)
    (items : gmap string string) (st : state) (a : string) :
  Py.startswith section "yolo" = true ->
  items !! "anchors" = Some a ->
  out_index st = None ->
  process_section v2 weight_decay (section, items) st
  = (set_anchors_txt (Some (a +:+ "
")) st, inl (NameError "out_index")).
Proof.
  intros Hy Ha Ho. rewrite (process_yolo _ _ _ _ Hy). unfold yolo.
  erewrite bind_inr by (apply write_anchors_run; exact Ha).
  erewrite bind_inr by reflexivity.
  cbn [out_index set_anchors_txt]. rewrite Ho. reflexivity.
Qed.

End Errors.

(** ** What each section adds to the graph *)

Section Layers.
Import Conv.
Local Open Scope Z_scope.

Lemma call_append_tail l ins ts d st :
  mapM id ins = Some ts ->
  (call l ins d ≫= fun t => append_layer (Some t) ≫= fun _ => prev_from_last) st
  = (set_prev_layer (Some (mk_tensor (length (graph st)) d))
       (set_all_layers (all_layers st ++ [Some (mk_tensor (length (graph st)) d)])
          (set_graph (graph st ++ [mk_node l ts]) st)), inr tt).
Proof.
  intros Hin. unfold call. rewrite Hin.
  erewrite bind_inr by reflexivity.
  erewrite bind_inr by reflexivity.
  unfold prev_from_last, layer_at.
  erewrite bind_inr;
    [|erewrite bind_inr by reflexivity; cbv beta;
      cbn [all_layers set_all_layers set_graph]; rewrite index_last; reflexivity].
  reflexivity.
Qed.

(** X8. With a tensor [t] as tail, each section without weights adds one
    node fed by the tail, appends the node's output to the layers and makes
    it the tail: maxpool and upsample keep the channel count of [t],
    the global average pool too, reorg multiplies it by four, and a linear
    shortcut adds the layer at index [from] to the tail, in that order, with
    the channel count of that layer. *)
Theorem sections_without_weights (items : gmap string string) (st : state) (t : tensor) :
  prev_layer st = Some t ->
  let result l ts d :=
    (set_prev_layer (Some (mk_tensor (length (graph st)) d))
       (set_all_layers (all_layers st ++ [Some (mk_tensor (length (graph st)) d)])
          (set_graph (graph st ++ [mk_node l ts]) st)), inr tt) in
  (forall size stride,
     items !! "size" ≫= Py.int = Some size -> items !! "stride" ≫= Py.int = Some stride ->
     maxpool items st = result (MaxPooling2D size stride) [t] (t_last_dim t)) /\
  (forall section, items = ∅ ->
     avgpool section items st = result GlobalAveragePooling2D [t] (t_last_dim t)) /\
  (items !! "stride" ≫= Py.int = Some 2 ->
     reorg items st = result Lambda_space_to_depth_x2 [t] (4 * t_last_dim t) /\
     upsample items st = result (UpSampling2D 2) [t] (t_last_dim t)) /\
  (forall index x,
     items !! "from" ≫= Py.int = Some index -> items !! "activation" = Some "linear" ->
     Py.index (all_layers st) index = Some (Some x) ->
     shortcut items st = result Add [x; t] (t_last_dim x)).
Proof.
  intros Hprev result. subst result. cbv beta. split; [|split; [|split]].
  - intros size stride Hs Ht. unfold maxpool.
    erewrite bind_inr by (apply get_int_run; exact Hs).
    erewrite bind_inr by (apply get_int_run; exact Ht).
    erewrite bind_inr by reflexivity. rewrite Hprev.
    apply call_append_tail. reflexivity.
  - intros section ->. unfold avgpool.
    rewrite decide_True by reflexivity.
    erewrite bind_inr by reflexivity.
    erewrite bind_inr by reflexivity. rewrite Hprev.
    apply call_append_tail. reflexivity.
  - intros Hs. split.
    + unfold reorg. erewrite bind_inr by (apply get_int_run; exact Hs).
      erewrite bind_inr by reflexivity.
      erewrite bind_inr by reflexivity. rewrite Hprev.
      apply call_append_tail. reflexivity.
    + unfold upsample. erewrite bind_inr by (apply get_int_run; exact Hs).
      erewrite bind_inr by reflexivity.
      erewrite bind_inr by reflexivity. rewrite Hprev.
      apply call_append_tail. reflexivity.
  - intros index x Hi Ha Hx. unfold shortcut.
    erewrite bind_inr by (apply get_int_run; exact Hi).
    erewrite bind_inr by (apply getitem_run; exact Ha).
    erewrite bind_inr by reflexivity.
    erewrite bind_inr
      by (unfold layer_at; erewrite bind_inr by reflexivity; cbv beta; rewrite Hx; reflexivity).
    erewrite bind_inr by reflexivity. rewrite Hprev.
    apply call_append_tail. reflexivity.
Qed.

Lemma convolutional_layers_run section activation wd filters size stride pad
    (cb : Np.ndarray) (bnw : option Np.ndarray) (cw : Np.ndarray) st t :
  prev_layer st = Some t ->
  activation = "linear" \/ activation = "leaky" ->
  let n := length (graph st) in
  let pad_nodes := if 1 <? stride then [mk_node ZeroPadding2D [t]] else [] in
  let t_in := if 1 <? stride then mk_tensor n (t_last_dim t) else t in
  let conv_node :=
    mk_node (Conv2D filters size stride wd (negb (bool_decide (is_Some bnw))) cw
                    (match bnw with Some _ => None | None => Some (Np.data cb) end) pad)
            [t_in] in
  let t_conv := mk_tensor (n + length pad_nodes) filters in
  let bn_nodes :=
    match bnw with
    | Some w => [mk_node (BatchNormalization (Np.row w 0) (Np.data cb) (Np.row w 1) (Np.row w 2))
                         [t_conv]]
    | None => []
    end in
  let t_bn := mk_tensor (n + length pad_nodes + length bn_nodes) filters in
  let act_nodes := if decide (activation = "leaky") then [mk_node LeakyReLU [t_bn]] else [] in
  let out := mk_tensor (n + length pad_nodes + length bn_nodes + length act_nodes) filters in
  exists st',
    convolutional_layers section activation wd filters size stride pad cb bnw cw st
    = (st', inr tt) /\
    graph st' = graph st ++ pad_nodes ++ [conv_node] ++ bn_nodes ++ act_nodes /\
    all_layers st' = all_layers st ++ [Some out] /\
    prev_layer st' = Some out.
Proof.
  intros Hprev Hact. destruct st as [ws c g il pl ls oi an h5 so].
  cbn [prev_layer graph all_layers] in *. subst pl.
  unfold convolutional_layers.
  destruct Hact as [-> | ->]; repeat case_decide; try congruence; try discriminate;
    unfold call, mbind, M_bind, mret, M_ret, gets, modify, append_layer;
    destruct (1 <? stride), bnw as [w|];
    cbn; eexists; (split; [reflexivity|]); cbn;
    rewrite ?length_app, <- ?app_assoc; cbn [length app];
    rewrite ?Nat.add_0_r; repeat split; reflexivity.
Qed.

(** X9. A convolutional section with activation "linear" or "leaky", met
    with a tensor tail and the bytes of its layer in the stream, adds in this
    order: a zero-padding node if [stride > 1], the convolution (fed by the
    padded tail if there is one, carrying the transposed kernel, and the bias
    only without batch normalisation), a batch-normalisation node if the key
    is present (scale, then the bias as shift, then mean and variance), and a
    leaky-ReLU node for "leaky". The output of the last node, with [filters]
    channels, is the one entry appended to the layers and the new tail. *)
Theorem convolutional_builds (v2 : bool) (weight_decay section : string)
    (items : gmap string string) (st : state) (t : tensor)
    (filters size stride pad : Z) (activation : string) :
  items !! "filters" ≫= Py.int = Some filters ->
  items !! "size" ≫= Py.int = Some size ->
  items !! "stride" ≫= Py.int = Some stride ->
  items !! "pad" ≫= Py.int = Some pad ->
  items !! "activation" = Some activation ->
  activation = "linear" \/ activation = "leaky" ->
  prev_layer st = Some t ->
  let batch_normalize := bool_decide (is_Some (items !! "batch_normalize")) in
  0 <= filters -> 0 <= size -> 0 <= t_last_dim t ->
  4 * filters + (if batch_normalize then 12 * filters else 0)
    + 4 * (size * size * t_last_dim t * filters) < 2 ^ 63 ->
  - 2 ^ 63 <= value (count st) ->
  value (count st) + filters + (if batch_normalize then 3 * filters else 0)
    + size * size * t_last_dim t * filters < 2 ^ 63 ->
  (Z.to_nat (4 * filters) + (if batch_normalize then Z.to_nat (12 * filters) else 0)
   + Z.to_nat (4 * (size * size * t_last_dim t * filters)) <= length (weights_file st))%nat ->
  exists bias bnw kernel st1 st',
    convolutional_weights filters size batch_normalize st = (st1, inr (bias, bnw, kernel)) /\
    convolutional v2 weight_decay section items st = (st', inr tt) /\
    let n := length (graph st) in
    let padding :=
      if v2 then (if pad =? 1 then same else valid)
      else (if (pad =? 1) && (stride =? 1) then same else valid) in
    let pad_nodes := if 1 <? stride then [mk_node ZeroPadding2D [t]] else [] in
    let t_in := if 1 <? stride then mk_tensor n (t_last_dim t) else t in
    let conv_node :=
      mk_node (Conv2D filters size stride weight_decay (negb batch_normalize) kernel
                      (if batch_normalize then None else Some (Np.data bias)) padding)
              [t_in] in
    let t_conv := mk_tensor (n + length pad_nodes) filters in
    let bn_nodes :=
      match bnw with
      | Some w =>
          [mk_node (BatchNormalization (Np.row w 0) (Np.data bias) (Np.row w 1) (Np.row w 2))
                   [t_conv]]
      | None => []
      end in
    let t_bn := mk_tensor (n + length pad_nodes + length bn_nodes) filters in
    let act_nodes := if decide (activation = "leaky") then [mk_node LeakyReLU [t_bn]] else [] in
    let out := mk_tensor (n + length pad_nodes + length bn_nodes + length act_nodes) filters in
    bool_decide (is_Some bnw) = batch_normalize /\
    graph st' = graph st ++ pad_nodes ++ [conv_node] ++ bn_nodes ++ act_nodes /\
    all_layers st' = all_layers st ++ [Some out] /\
    prev_layer st' = Some out.
Proof.
  intros Hfil Hsize Hstride Hpad Hact Hkind Hprev batch_normalize
         Hf Hs Hi Hbig Hc0 Hc1 Hlen.
  destruct (convolutional_weights_run filters size batch_normalize st t
              Hprev Hf Hs Hi Hbig Hc0 Hc1 Hlen)
    as (bias & bnw & k0 & kernel & st1 & Hrun & _ & Hn & _ & _ & _ & _).
  pose proof (convolutional_weights_rest filters size batch_normalize st) as Hfr.
  cbv beta in Hfr. rewrite Hrun in Hfr. cbn [fst] in Hfr.
  injection Hfr as Hg _ Hp Ha _ _ _ _.
  rewrite Hprev in Hp.
  destruct (convolutional_layers_run section activation weight_decay filters size stride
              (if v2 then if pad =? 1 then same else valid
               else if (pad =? 1) && (stride =? 1) then same else valid)
              bias bnw kernel st1 t Hp Hkind) as (st' & Hl & Hg' & Ha' & Hp').
  exists bias, bnw, kernel, st1, st'. split; [exact Hrun|]. split.
  { unfold convolutional.
    erewrite bind_inr by (apply get_int_run; exact Hfil).
    erewrite bind_inr by (apply get_int_run; exact Hsize).
    erewrite bind_inr by (apply get_int_run; exact Hstride).
    erewrite bind_inr by (apply get_int_run; exact Hpad).
    erewrite bind_inr by (apply getitem_run; exact Hact).
    erewrite bind_inr by exact Hrun. exact Hl. }
  cbv zeta. rewrite Hg in Hg', Hp'. rewrite Hg in Ha'. rewrite Ha in Ha'.
  assert (bool_decide (is_Some bnw) = batch_normalize) as Hbn.
  { destruct batch_normalize.
    - destruct Hn as (b & -> & _). reflexivity.
    - rewrite Hn. reflexivity. }
  split; [exact Hbn|].
  clearbody batch_normalize. subst batch_normalize.
  destruct bnw; (split; [exact Hg' | split; assumption]).
Qed.

End Layers.

(** ** Successful runs, step by step *)

Section Inversion.
Import Conv.
Local Open Scope Z_scope.

Lemma ret_inv {A} (a b : A) st st' :
  (mret a : M A) st = (st', inr b) -> st' = st /\ b = a.
Proof. intros [= <- <-]. auto. Qed.

Lemma gets_inv {A} (f : state -> A) st st' a :
  gets f st = (st', inr a) -> st' = st /\ a = f st.
Proof. intros [= <- <-]. auto. Qed.

Lemma modify_inv f st st' u : modify f st = (st', inr u) -> st' = f st.
Proof. intros [= <-]. reflexivity. Qed.

Lemma of_option_inv {A} (o : option A) e st st' a :
  of_option o e st = (st', inr a) -> st' = st /\ o = Some a.
Proof. destruct o; intros [= <- <-]. auto. Qed.

Lemma getitem_inv (items : gmap string string) key st st' v :
  getitem items key st = (st', inr v) -> st' = st /\ items !! key = Some v.
Proof. apply of_option_inv. Qed.

Lemma get_int_inv (items : gmap string string) key st st' z :
  get_int items key st = (st', inr z) -> st' = st /\ items !! key ≫= Py.int = Some z.
Proof.
  unfold get_int. intros H. apply bind_inr_inv in H as (st1 & v & H1 & H2).
  apply getitem_inv in H1 as [-> Hv]. apply of_option_inv in H2 as [-> Hz].
  rewrite Hv. auto.
Qed.

Lemma py_assert_inv b msg st st' u :
  py_assert b msg st = (st', inr u) -> st' = st /\ b = true.
Proof. destruct b; intros [= <-]. auto. Qed.

Lemma layer_at_inv i st st' x :
  layer_at i st = (st', inr x) -> st' = st /\ Py.index (all_layers st) i = Some x.
Proof.
  unfold layer_at. intros H. apply bind_inr_inv in H as (st1 & ls & H1 & H2).
  apply gets_inv in H1 as [-> ->]. apply of_option_inv in H2. exact H2.
Qed.

Lemma call_inv l ins d st st' t :
  call l ins d st = (st', inr t) ->
  exists ts, mapM id ins = Some ts /\
             st' = set_graph (graph st ++ [mk_node l ts]) st /\
             t = mk_tensor (length (graph st)) d.
Proof.
  unfold call. destruct (mapM id ins) as [ts|]; [|discriminate].
  intros [= <- <-]. eauto.
Qed.

Lemma call_append_tail_inv l ins d st st' :
  (call l ins d ≫= fun t => append_layer (Some t) ≫= fun _ => prev_from_last) st
  = (st', inr tt) ->
  exists ts, mapM id ins = Some ts /\
    st' = set_prev_layer (Some (mk_tensor (length (graph st)) d))
            (set_all_layers (all_layers st ++ [Some (mk_tensor (length (graph st)) d)])
               (set_graph (graph st ++ [mk_node l ts]) st)).
Proof.
  intros H. destruct (mapM id ins) as [ts|] eqn:E.
  - rewrite (call_append_tail l ins ts d st E) in H. injection H as <-. eauto.
  - unfold mbind, M_bind, call in H. rewrite E in H. discriminate H.
Qed.

Lemma for_each_layer_at_inv ids st st' xs :
  for_each layer_at ids st = (st', inr xs) ->
  st' = st /\ Forall2 (fun i x => Py.index (all_layers st) i = Some x) ids xs.
Proof.
  revert st' xs. induction ids as [|i ids IH]; intros st' xs H; cbn [for_each] in H.
  - apply ret_inv in H as [-> ->]. split; [reflexivity | constructor].
  - apply bind_inr_inv in H as (st1 & x & H1 & H).
    apply layer_at_inv in H1 as [-> Hx].
    apply bind_inr_inv in H as (st2 & ys & H2 & H).
    apply IH in H2 as [-> Hys]. apply ret_inv in H as [-> ->].
    split; [reflexivity | constructor; assumption].
Qed.

Lemma for_each_of_option_inv {A B} (f : A -> option B) (e : A -> exn) l st st' ys :
  for_each (fun x => of_option (f x) (e x)) l st = (st', inr ys) ->
  st' = st /\ Forall2 (fun x y => f x = Some y) l ys.
Proof.
  revert st' ys. induction l as [|x l IH]; intros st' ys H; cbn [for_each] in H.
  - apply ret_inv in H as [-> ->]. split; [reflexivity | constructor].
  - apply bind_inr_inv in H as (st1 & y & H1 & H).
    apply of_option_inv in H1 as [-> Hy].
    apply bind_inr_inv in H as (st2 & zs & H2 & H).
    apply IH in H2 as [-> Hzs]. apply ret_inv in H as [-> ->].
    split; [reflexivity | constructor; assumption].
Qed.

End Inversion.

(** [inv_run]: split the hypotheses that say a computation returned into
    what each of its steps returned. *)
Ltac inv_step :=
  match goal with
  | H : (Conv.call _ _ _ ≫= _) _ = (_, inr _) |- _ =>
      apply call_append_tail_inv in H as (? & ? & ?)
  | H : (_ ≫= _) _ = (_, inr _) |- _ =>
      let st := fresh "st" in let a := fresh "a" in let H1 := fresh "H" in
      apply bind_inr_inv in H as (st & a & H1 & H)
  | H : @mret Conv.M _ _ _ _ = (_, inr _) |- _ => apply ret_inv in H as [? ?]
  | H : Conv.gets _ _ = (_, inr _) |- _ => apply gets_inv in H as [? ?]
  | H : Conv.modify _ _ = (_, inr _) |- _ => apply modify_inv in H
  | H : Conv.getitem _ _ _ = (_, inr _) |- _ => apply getitem_inv in H as [? ?]
  | H : Conv.get_int _ _ _ = (_, inr _) |- _ => apply get_int_inv in H as [? ?]
  | H : Conv.py_assert _ _ _ = (_, inr _) |- _ => apply py_assert_inv in H as [? ?]
  | H : Conv.layer_at _ _ = (_, inr _) |- _ => apply layer_at_inv in H as [? ?]
  | H : Conv.of_option _ _ _ = (_, inr _) |- _ => apply of_option_inv in H as [? ?]
  | H : Conv.call _ _ _ _ = (_, inr _) |- _ => apply call_inv in H as (? & ? & ? & ?)
  | H : Conv.for_each Conv.layer_at _ _ = (_, inr _) |- _ =>
      apply for_each_layer_at_inv in H as [? ?]
  | H : Conv.for_each (fun i => Conv.of_option _ _) _ _ = (_, inr _) |- _ =>
      apply for_each_of_option_inv in H as [? ?]
  | H : Conv.append_layer _ _ = (_, inr _) |- _ =>
      unfold Conv.append_layer in H; apply modify_inv in H
  | H : Conv.raise _ _ = (_, inr _) |- _ => discriminate H
  | H : (if ?b then _ else _) _ = (_, inr _) |- _ => destruct b eqn:?
  end.

Ltac inv_run := repeat (inv_step; subst).

(** ** The effect of a section on the graph *)

Section Effects.
Import Conv.
Local Open Scope Z_scope.

Lemma mapM_id_held (ins : list (option tensor)) ts (P : tensor -> Prop) :
  mapM id ins = Some ts -> (forall t, Some t ∈ ins -> P t) -> Forall P ts.
Proof.
  revert ts. induction ins as [|x ins IH]; intros ts H HP.
  - injection H as <-. constructor.
  - cbn in H. destruct x as [t|]; [|discriminate]. cbn in H.
    destruct (mapM id ins) as [ts'|] eqn:E; [|discriminate]. injection H as <-.
    constructor.
    + apply HP. left.
    + apply IH; [reflexivity|]. intros t' Ht'. apply HP. right. exact Ht'.
Qed.

Lemma one_node_effect l ts d st :
  Forall (held st) ts ->
  effect st (set_prev_layer (Some (mk_tensor (length (graph st)) d))
               (set_all_layers (all_layers st ++ [Some (mk_tensor (length (graph st)) d)])
                  (set_graph (graph st ++ [mk_node l ts]) st))).
Proof.
  intros Hts.
  apply (effect_nodes st _ [mk_node l ts] (mk_tensor (length (graph st)) d));
    try reflexivity; [discriminate | | cbn; lia].
  intros [|j] nd Hj; [|discriminate]. injection Hj as <-. cbn [n_inputs].
  eapply Forall_impl; [exact Hts|]. intros t Ht. left. exact Ht.
Qed.

Lemma held_prev st t : prev_layer st = Some t -> held st t.
Proof. intros H. left. exact H. Qed.

Lemma index_elem {A} (l : list A) i x : Py.index l i = Some x -> x ∈ l.
Proof.
  unfold Py.index. destruct (0 <=? i); [|destruct (- Z.of_nat (length l) <=? i)];
    try discriminate; apply list_elem_of_lookup_2.
Qed.

Lemma simple_sections_effect items st st' :
  (maxpool items st = (st', inr tt) \/ (exists section, avgpool section items st = (st', inr tt)) \/
   reorg items st = (st', inr tt) \/ upsample items st = (st', inr tt) \/
   shortcut items st = (st', inr tt)) ->
  effect st st' /\ input_layer st' = input_layer st /\
  weights_file st' = weights_file st /\ count st' = count st.
Proof.
  intros [H|[[section H]|[H|[H|H]]]];
    [unfold maxpool in H | unfold avgpool in H; case_decide
     | unfold reorg in H | unfold upsample in H | unfold shortcut in H];
    inv_run;
    (split; [|auto]); apply one_node_effect;
    (eapply mapM_id_held; [eassumption|]); intros t Ht.
  1-4: apply list_elem_of_singleton in Ht; left; congruence.
  apply elem_of_cons in Ht as [Ht|Ht].
  - right. rewrite Ht. eapply index_elem. eassumption.
  - apply list_elem_of_singleton in Ht. left. congruence.
Qed.

Lemma Forall2_index_elem (ls xs : list (option tensor)) ids :
  Forall2 (fun i x => Py.index ls i = Some x) ids xs -> forall x, x ∈ xs -> x ∈ ls.
Proof.
  induction 1 as [|i x ids xs Hix _ IH]; intros y Hy; [inversion Hy|].
  apply elem_of_cons in Hy as [->|Hy]; [eapply index_elem; exact Hix | auto].
Qed.

Lemma route_effect items st st' :
  route items st = (st', inr tt) ->
  effect st st' /\ input_layer st' = input_layer st /\
  weights_file st' = weights_file st /\ count st' = count st.
Proof.
  intros H. unfold route in H. inv_run.
  - split; [|auto].
    match goal with
    | Hm : mapM id ?ins = Some ?ts |- _ =>
        apply (one_node_effect Concatenate ts (sum_last_dims ins) st)
    end.
    eapply mapM_id_held; [eassumption|]. intros t Ht. right.
    eapply Forall2_index_elem; eassumption.
  - split; [|auto].
    match goal with
    | Hx : Py.index ?layers 0 = Some ?x |- _ =>
        apply (effect_alias st _ x); try reflexivity;
        eapply Forall2_index_elem; [eassumption | eapply index_elem; exact Hx]
    end.
Qed.

Lemma yolo_effect items st st' :
  yolo items st = (st', inr tt) ->
  effect st st' /\ input_layer st' = input_layer st /\
  weights_file st' = weights_file st /\ count st' = count st.
Proof.
  intros H. destruct (yolo_inr_inv _ _ _ H) as (a & oi & Ha & Ho).
  rewrite (yolo_run _ _ _ _ Ha Ho) in H. injection H as <-.
  split; [|auto]. apply effect_placeholder; reflexivity.
Qed.

Lemma region_effect items st st' :
  region items st = (st', inr tt) ->
  effect st st' /\ input_layer st' = input_layer st /\
  weights_file st' = weights_file st /\ count st' = count st.
Proof.
  intros H. unfold region, write_anchors in H. inv_run.
  split; [|auto]. apply effect_none; reflexivity.
Qed.

Lemma convolutional_weights_tail filters size bn st st1 w :
  convolutional_weights filters size bn st = (st1, inr w) ->
  exists t, prev_layer st = Some t.
Proof.
  intros H. destruct (prev_layer st) as [t|] eqn:E; [eauto|]. exfalso.
  unfold convolutional_weights in H.
  erewrite bind_inr in H by reflexivity. rewrite E in H. discriminate H.
Qed.

Lemma convolutional_effect v2 wd section items st st' :
  convolutional v2 wd section items st = (st', inr tt) ->
  effect st st' /\ input_layer st' = input_layer st.
Proof.
  intros H. unfold convolutional in H.
  apply bind_inr_inv in H as (s1 & filters & H1 & H). apply get_int_inv in H1 as [-> _].
  apply bind_inr_inv in H as (s1 & size & H1 & H). apply get_int_inv in H1 as [-> _].
  apply bind_inr_inv in H as (s1 & stride & H1 & H). apply get_int_inv in H1 as [-> _].
  apply bind_inr_inv in H as (s1 & pad & H1 & H). apply get_int_inv in H1 as [-> _].
  apply bind_inr_inv in H as (s1 & activation & H1 & H). apply getitem_inv in H1 as [-> _].
  apply bind_inr_inv in H as (st1 & [[bias bnw] kernel] & Hw & H).
  cbv beta iota zeta in H.
  destruct (convolutional_weights_tail _ _ _ _ _ _ Hw) as [t Hprev].
  pose proof (convolutional_weights_rest filters size
                (bool_decide (is_Some (items !! "batch_normalize"))) st) as Hfr.
  cbv beta in Hfr. rewrite Hw in Hfr. cbn [fst] in Hfr.
  injection Hfr as Hg Hil Hp Ha _ _ _ _.
  assert (activation = "linear" \/ activation = "leaky") as Hkind.
  { destruct (decide (activation = "leaky")) as [|Hl]; [auto|].
    destruct (decide (activation = "linear")) as [|Hn]; [auto|].
    rewrite (convolutional_layers_unknown _ _ _ _ _ _ _ _ _ _ _ Hl Hn) in H.
    discriminate H. }
  rewrite Hprev in Hp.
  match type of H with
  | convolutional_layers _ _ _ _ _ _ ?padding _ _ _ _ = _ =>
      destruct (convolutional_layers_run section activation wd filters size stride padding
                  bias bnw kernel st1 t Hp Hkind) as (st2 & Hl & Hg' & Ha' & Hp')
  end.
  rewrite Hl in H. injection H as <-.
  assert (input_layer st2 = input_layer st1) as Hil'.
  { assert (forall a b c d e f g h i j,
              frame input_layer (convolutional_layers a b c d e f g h i j)) as Hfi
      by (intros; unfold convolutional_layers, append_layer; frame_solve).
    specialize (Hfi section activation wd filters size stride
                    (if v2 then if pad =? 1 then same else valid
                     else if (pad =? 1) && (stride =? 1) then same else valid)
                    bias bnw kernel st1).
    rewrite Hl in Hfi. exact Hfi. }
  split; [|congruence].
  rewrite Hg in Hg', Hp'. rewrite Hg in Ha'. rewrite Ha in Ha'.
  eapply effect_nodes; [| exact Hg' | | | exact Ha' | exact Hp'].
  - destruct (1 <? stride); discriminate.
  - intros j nd Hj.
    destruct (1 <? stride), bnw as [w|], (decide (activation = "leaky"));
      cbn [app length] in Hj;
      repeat (destruct j as [|j]; cbn in Hj;
              [injection Hj as <-; cbn [n_inputs]; constructor; [|constructor];
               first [ left; left; exact Hprev | right; cbn [t_node]; lia ] |]);
      discriminate Hj.
  - destruct (1 <? stride), bnw as [w|], (decide (activation = "leaky"));
      cbn [t_node app length]; lia.
Qed.

Lemma process_section_effect v2 wd sec st st' :
  process_section v2 wd sec st = (st', inr tt) ->
  effect st st' /\ input_layer st' = input_layer st.
Proof.
  destruct sec as [section items]. unfold process_section. intros H.
  destruct (Py.startswith section "convolutional");
    [eapply convolutional_effect; exact H|].
  destruct (Py.startswith section "maxpool");
    [destruct (simple_sections_effect items st st') as (? & ? & _); [eauto 6 | auto]|].
  destruct (Py.startswith section "avgpool");
    [destruct (simple_sections_effect items st st') as (? & ? & _); [eauto 6 | auto]|].
  destruct (Py.startswith section "route");
    [destruct (route_effect items st st' H) as (? & ? & _); auto|].
  destruct (Py.startswith section "reorg");
    [destruct (simple_sections_effect items st st') as (? & ? & _); [eauto 6 | auto]|].
  destruct (Py.startswith section "shortcut");
    [destruct (simple_sections_effect items st st') as (? & ? & _); [eauto 6 | auto]|].
  destruct (Py.startswith section "upsample");
    [destruct (simple_sections_effect items st st') as (? & ? & _); [eauto 6 | auto]|].
  destruct (Py.startswith section "yolo");
    [destruct (yolo_effect items st st' H) as (? & ? & _); auto|].
  destruct (Py.startswith section "region");
    [destruct (region_effect items st st' H) as (? & ? & _); auto|].
  destruct (Py.startswith section "net" || Py.startswith section "cost"
            || Py.startswith section "softmax"); [|discriminate H].
  apply ret_inv in H as [-> _]. split; [apply effect_none|]; reflexivity.
Qed.

End Effects.

(** ** Invariants of the loop over the sections *)

Section Invariants.
Import Conv.
Local Open Scope Z_scope.

Lemma effect_tail st st' : effect st st' -> tail_is_last st -> tail_is_last st'.
Proof.
  unfold tail_is_last.
  intros [Hg Ha Hp | x _ Hg Ha Hp | Hg Ha Hp | nodes out _ Hg _ _ Ha Hp] H.
  - rewrite Ha, Hp. exact H.
  - right. rewrite Ha, Hp, last_snoc. reflexivity.
  - right. rewrite Ha, Hp, last_snoc. reflexivity.
  - right. rewrite Ha, Hp, last_snoc. reflexivity.
Qed.

Lemma known_app g nodes x : known g x -> known (g ++ nodes) x.
Proof. intros H t Ht. rewrite length_app. specialize (H t Ht). lia. Qed.

Lemma held_known st t : graph_ok st -> held st t -> (t_node t < length (graph st))%nat.
Proof.
  intros (_ & Hp & _ & Hl) [H|H].
  - apply Hp. exact H.
  - rewrite Forall_forall in Hl. apply (Hl _ H). reflexivity.
Qed.

Lemma effect_graph_ok st st' :
  effect st st' -> input_layer st' = input_layer st -> graph_ok st -> graph_ok st'.
Proof.
  intros He Hi Hok. pose proof Hok as (Hn & Hp & Hil & Hl).
  unfold graph_ok. rewrite Hi.
  destruct He as [Hg Ha Hpv | x Hx Hg Ha Hpv | Hg Ha Hpv | nodes out Hne Hg Hfed Hout Ha Hpv];
    rewrite Hg, Ha, Hpv.
  - auto.
  - rewrite Forall_forall in Hl. repeat split; auto.
    apply Forall_app. split; [apply Forall_forall; exact Hl | repeat constructor; auto].
  - repeat split; auto; [intros t; discriminate|].
    apply Forall_app. split; [exact Hl | repeat constructor; intros t; discriminate].
  - assert (known (graph st ++ nodes) (Some out)) as Hko.
    { intros t [= <-]. rewrite length_app, Hout.
      destruct nodes; [contradiction | cbn [length]; lia]. }
    repeat split.
    + intros i nd Hlk. destruct (decide (i < length (graph st))%nat) as [Hlt|Hge].
      * rewrite lookup_app_l in Hlk by exact Hlt. eapply Hn. exact Hlk.
      * rewrite lookup_app_r in Hlk by lia.
        eapply Forall_impl; [apply (Hfed _ _ Hlk)|]. cbv beta.
        intros t [Ht|Ht]; [pose proof (held_known st t Hok Ht) |]; lia.
    + exact Hko.
    + apply known_app. exact Hil.
    + apply Forall_app. split; [|repeat constructor; exact Hko].
      eapply Forall_impl; [exact Hl|]. intros x. apply known_app.
Qed.

Lemma effect_grows st st' :
  effect st st' ->
  graph st `prefix_of` graph st' /\ all_layers st `prefix_of` all_layers st' /\
  (length (all_layers st') <= length (all_layers st) + 1)%nat.
Proof.
  intros [Hg Ha _ | x _ Hg Ha _ | Hg Ha _ | nodes out _ Hg _ _ Ha _];
    rewrite Hg, Ha, ?length_app; cbn [length];
    repeat split; try reflexivity; try apply prefix_app_r; try reflexivity; lia.
Qed.

(** X10. While the sections of a config are processed, nodes and layers are
    only ever added at the end: the graph and the list of layers of the
    state before are prefixes of those after, each section adds at most one
    layer, and the input tensor is never replaced. *)
Theorem layers_only_grow (v2 : bool) (weight_decay : string)
    (secs : list (string * gmap string string)) (st st' : state) :
  process_sections v2 weight_decay secs st = (st', inr tt) ->
  graph st `prefix_of` graph st' /\
  all_layers st `prefix_of` all_layers st' /\
  (length (all_layers st') <= length (all_layers st) + length secs)%nat /\
  input_layer st' = input_layer st.
Proof.
  revert st. induction secs as [|sec secs IH]; intros st H; cbn [process_sections] in H.
  - apply ret_inv in H as [-> _]. cbn [length]. repeat split; try reflexivity. lia.
  - apply bind_inr_inv in H as (st1 & [] & Hsec & Hrest).
    apply process_section_effect in Hsec as [He Hi].
    apply effect_grows in He as (Hg & Ha & Hlen).
    destruct (IH _ Hrest) as (Hg' & Ha' & Hlen' & Hi').
    cbn [length]. repeat split.
    + etrans; eassumption.
    + etrans; eassumption.
    + lia.
    + congruence.
Qed.

Lemma process_sections_invariant (I : state -> Prop) v2 wd secs st st' :
  (forall s s', effect s s' -> input_layer s' = input_layer s -> I s -> I s') ->
  process_sections v2 wd secs st = (st', inr tt) -> I st -> I st'.
Proof.
  intros HI. revert st. induction secs as [|sec secs IH]; intros st H Hst;
    cbn [process_sections] in H.
  - apply ret_inv in H as [-> _]. exact Hst.
  - apply bind_inr_inv in H as (st1 & [] & Hsec & Hrest).
    apply process_section_effect in Hsec as [He Hi]. eauto.
Qed.

Lemma setup_shape v2 fc cfg st st1 wd :
  setup v2 fc cfg st = (st1, inr wd) ->
  exists h w,
    let t := mk_tensor (length (graph st)) 3 in
    graph st1 = graph st ++ [mk_node (Input h w) []] /\
    prev_layer st1 = Some t /\
    (if v2 then all_layers st1 = [Some t] /\ input_layer st1 = input_layer st /\
                out_index st1 = out_index st
     else all_layers st1 = [] /\ input_layer st1 = Some t /\ out_index st1 = Some []) /\
    weights_file st1 = weights_file st /\ count st1 = count st /\
    anchors_txt st1 = anchors_txt st.
Proof.
  intros H. unfold setup, section_items, py_assert_float in H.
  destruct v2, fc; inv_run.
  all: try (match goal with H : mapM id [] = Some _ |- _ => injection H as <- end).
  all: do 2 eexists; cbn; repeat split; reflexivity.
Qed.

(** X11. From the set-up on, after every section that returns, the current
    tail is the last entry of the list of layers (or the list is still
    empty): the index [len(all_layers) - 1] that a yolo section records and
    the output [all_layers[-1]] of the single-output variant are the tail. *)
Theorem tail_is_last_layer (v2 fully_convolutional : bool)
    (cfg secs : list (string * gmap string string)) (st st' : state) :
  (setup v2 fully_convolutional cfg ≫= fun weight_decay =>
     process_sections v2 weight_decay secs) st = (st', inr tt) ->
  tail_is_last st'.
Proof.
  intros H. apply bind_inr_inv in H as (st1 & wd & Hsetup & Hloop).
  apply setup_shape in Hsetup as (h & w & Hs). cbv zeta in Hs.
  destruct Hs as (_ & Hp & Hv & _).
  eapply (process_sections_invariant tail_is_last); [|exact Hloop|].
  - intros s s' He _. apply effect_tail. exact He.
  - unfold tail_is_last. destruct v2.
    + destruct Hv as (-> & _). right. rewrite Hp. reflexivity.
    + destruct Hv as (-> & _). left. reflexivity.
Qed.

Lemma keras_Model_inv ins outs st st' m :
  keras_Model ins outs st = (st', inr m) ->
  exists xs ys, mapM id ins = Some xs /\ mapM id outs = Some ys /\
                st' = st /\ m = mk_model xs ys (graph st).
Proof.
  unfold keras_Model. destruct (mapM id ins) as [xs|]; [|discriminate].
  destruct (mapM id outs) as [ys|]; [|discriminate].
  intros H. inv_run. eauto 6.
Qed.

Lemma build_model_ok v2 st st1 m :
  graph_ok st -> build_model v2 st = (st1, inr m) ->
  m_graph m = graph st /\ graph st1 = graph st /\
  Forall (fun t => (t_node t < length (graph st))%nat) (m_inputs m ++ m_outputs m).
Proof.
  intros (_ & _ & Hil & Hl) H. rewrite Forall_forall in Hl.
  unfold build_model in H. destruct v2.
  - apply bind_inr_inv in H as (s1 & i & Hi & H). apply layer_at_inv in Hi as [-> Hi].
    apply bind_inr_inv in H as (s1 & o & Ho & H). apply layer_at_inv in Ho as [-> Ho].
    apply keras_Model_inv in H as (xs & ys & His & Hos & -> & ->).
    cbn [m_graph m_inputs m_outputs]. repeat split. apply Forall_app. split.
    + eapply mapM_id_held; [exact His|]. intros t Ht.
      apply list_elem_of_singleton in Ht.
      eapply (Hl _ (index_elem _ _ _ Hi)). symmetry. exact Ht.
    + eapply mapM_id_held; [exact Hos|]. intros t Ht.
      apply list_elem_of_singleton in Ht.
      eapply (Hl _ (index_elem _ _ _ Ho)). symmetry. exact Ht.
  - inv_run.
    apply keras_Model_inv in H as (xs & ys & His & Hos & -> & ->).
    cbn [m_graph m_inputs m_outputs graph set_out_index all_layers input_layer] in *.
    repeat split. apply Forall_app. split.
    + eapply mapM_id_held; [exact His|]. intros t Ht.
      apply list_elem_of_singleton in Ht. apply Hil. symmetry. exact Ht.
    + eapply mapM_id_held; [exact Hos|]. intros t Ht.
      eapply Hl; [|reflexivity]. eapply Forall2_index_elem; eassumption.
Qed.

(** X12. The model that a conversion saves is a well-formed feed-forward
    graph: every node is fed only by outputs of nodes created before it, and
    the inputs and outputs of the model are outputs of nodes of the graph. *)
Theorem saved_model_is_feed_forward (v2 fully_convolutional : bool)
    (cfg : list (string * gmap string string))
    (weights : list byte) (anchors : option string) (h5 : option model) (st' : state) :
  main v2 fully_convolutional cfg (initial weights anchors h5) = (st', inr tt) ->
  exists m,
    model_h5 st' = Some m /\
    (forall i nd, m_graph m !! i = Some nd ->
                  Forall (fun t => (t_node t < i)%nat) (n_inputs nd)) /\
    Forall (fun t => (t_node t < length (m_graph m))%nat) (m_inputs m ++ m_outputs m).
Proof.
  intros H. unfold main in H.
  apply bind_inr_inv in H as (s0 & [] & Hhead & H).
  apply bind_inr_inv in H as (s1 & wd & Hsetup & H).
  apply bind_inr_inv in H as (s2 & [] & Hloop & H).
  unfold finish in H. apply bind_inr_inv in H as (s3 & m & Hbuild & H).
  rewrite save_and_report_run in H. injection H as <-.
  assert (graph s0 = [] /\ input_layer s0 = None /\ prev_layer s0 = None /\ all_layers s0 = [])
    as (Hg0 & Hi0 & Hp0 & Ha0).
  { assert (frame (fun st => (graph st, input_layer st, prev_layer st, all_layers st))
                  (read_header v2)) as Hfr
      by (unfold read_header, int32_array, int64_array1; frame_solve).
    specialize (Hfr (initial weights anchors h5)). rewrite Hhead in Hfr.
    cbn in Hfr. injection Hfr as -> -> -> ->. auto. }
  assert (graph_ok s1) as Hok1.
  { apply setup_shape in Hsetup as (h & w & Hs). cbv zeta in Hs.
    destruct Hs as (Hg & Hp & Hv & _). rewrite Hg0 in Hg, Hp, Hv. cbn in Hg, Hp, Hv.
    unfold graph_ok. rewrite Hg, Hp. repeat split.
    - intros [|i] nd Hlk; [injection Hlk as <-; constructor | discriminate Hlk].
    - intros t' [= <-]. cbn. lia.
    - destruct v2; destruct Hv as (_ & -> & _).
      + rewrite Hi0. intros t'; discriminate.
      + intros t' [= <-]. cbn. lia.
    - destruct v2; destruct Hv as (-> & _); [|constructor].
      constructor; [|constructor]. intros t' [= <-]. cbn. lia. }
  assert (graph_ok s2) as Hok2
    by (eapply (process_sections_invariant graph_ok);
        [apply effect_graph_ok | exact Hloop | exact Hok1]).
  destruct (build_model_ok _ _ _ _ Hok2 Hbuild) as (Hmg & Hg3 & Hio).
  exists m. split; [reflexivity|]. rewrite Hmg. split; [apply Hok2 | exact Hio].
Qed.

End Invariants.

(** ** Bytes read and scalars counted *)

Section Balance.
Import Conv.
Local Open Scope Z_scope.

Lemma read_inv n st st' b :
  read n st = (st', inr b) ->
  exists k, b = take k (weights_file st) /\
            st' = set_weights_file (drop k (weights_file st)) st /\
            (0 <= n -> k = Z.to_nat n).
Proof.
  unfold read. intros [= <- <-].
  eexists. split; [reflexivity|]. split; [reflexivity|].
  intros Hn. destruct (Z.ltb_spec n 0); [lia | reflexivity].
Qed.

Lemma float32_array_inv shp buf st st' a :
  float32_array shp buf st = (st', inr a) ->
  st' = st /\ Forall (fun d => 0 <= d) shp /\
  4 * fold_right Z.mul 1 shp <= Z.of_nat (length buf) /\
  4 * fold_right Z.mul 1 shp < 2 ^ 63.
Proof.
  unfold float32_array, Np.of_buffer.
  destruct (existsb (fun d => d <? 0) shp) eqn:Hneg; [discriminate|].
  destruct (Z.leb_spec (2 ^ 63) (4 * fold_right Z.mul 1 shp)); [discriminate|].
  destruct (Z.ltb_spec (Z.of_nat (length buf)) (4 * fold_right Z.mul 1 shp)); [discriminate|].
  intros [= <- _]. repeat split; try lia.
  apply Forall_forall. intros d Hd.
  destruct (Z.ltb_spec d 0) as [Hlt|]; [|assumption].
  exfalso. assert (existsb (fun d => d <? 0) shp = true); [|congruence].
  apply existsb_exists. exists d. split; [apply list_elem_of_In; exact Hd|].
  apply Z.ltb_lt. exact Hlt.
Qed.

(** The two quantities whose sum the loop keeps: four times the scalars
    counted, and the bytes still unread. *)
Lemma read_array_balance shp n st st1 st2 b a :
  read n st = (st1, inr b) ->
  float32_array shp b st1 = (st2, inr a) ->
  (0 <= fold_right Z.mul 1 shp -> 4 * fold_right Z.mul 1 shp < 2 ^ 63 ->
   n = 4 * fold_right Z.mul 1 shp) ->
  st2 = st1 /\ count st1 = count st /\
  0 <= fold_right Z.mul 1 shp /\
  Z.of_nat (length (weights_file st1))
  = Z.of_nat (length (weights_file st)) - 4 * fold_right Z.mul 1 shp.
Proof.
  intros Hr Ha Hn.
  apply read_inv in Hr as (k & -> & -> & Hk).
  apply float32_array_inv in Ha as (-> & Hpos & Hlen & Hbig).
  assert (0 <= fold_right Z.mul 1 shp) as Hp.
  { clear -Hpos. induction Hpos as [|d l Hd _ IH]; cbn [fold_right]; [lia|].
    apply Z.mul_nonneg_nonneg; assumption. }
  specialize (Hn Hp Hbig). subst n.
  specialize (Hk ltac:(lia)). subst k.
  rewrite length_take in Hlen.
  cbn [weights_file set_weights_file count]. rewrite length_drop.
  repeat split; try assumption. lia.
Qed.

Lemma add_count_inv k st st' u :
  add_count k st = (st', inr u) ->
  - 2 ^ 63 <= value (count st) + k < 2 ^ 63 ->
  weights_file st' = weights_file st /\ value (count st') = value (count st) + k.
Proof.
  intros H Hr. destruct (add_count_run k st Hr) as (c & Hc & Hv).
  rewrite Hc in H. injection H as <-. auto.
Qed.

Lemma add_count64_inv k st st' u :
  add_count64 k st = (st', inr u) ->
  - 2 ^ 63 <= value (count st) + k < 2 ^ 63 ->
  weights_file st' = weights_file st /\ value (count st') = value (count st) + k.
Proof.
  intros H Hr. destruct (add_count64_run k st Hr) as (c & Hc & Hv).
  rewrite Hc in H. injection H as <-. auto.
Qed.

Lemma convolutional_weights_balance filters size bn st st1 w :
  convolutional_weights filters size bn st = (st1, inr w) ->
  0 <= value (count st) ->
  4 * value (count st) + Z.of_nat (length (weights_file st)) < 2 ^ 63 ->
  0 <= value (count st1) /\
  4 * value (count st1) + Z.of_nat (length (weights_file st1))
  = 4 * value (count st) + Z.of_nat (length (weights_file st)).
Proof.
  intros H Hc Hk. unfold convolutional_weights in H.
  apply bind_inr_inv in H as (s & prev & Hg & H). apply gets_inv in Hg as [-> ->].
  apply bind_inr_inv in H as (s & in_dim & Hd & H).
  assert (s = st) as -> by (destruct (prev_layer st); [injection Hd as <- _; reflexivity
                                                     | discriminate Hd]).
  clear Hd.
  apply bind_inr_inv in H as (sa & b1 & Hr1 & H).
  apply bind_inr_inv in H as (sb & bias & Ha1 & H).
  destruct (read_array_balance [filters] (filters * 4) st sa sb b1 bias Hr1 Ha1)
    as (-> & Hca & Hp1 & Hl1); [cbn [fold_right]; lia|].
  cbn [fold_right] in Hp1, Hl1.
  apply bind_inr_inv in H as (sc & [] & Hac & H).
  apply add_count_inv in Hac as [Hwc Hvc]; [|rewrite Hca; lia].
  rewrite Hca in Hvc.
  apply bind_inr_inv in H as (sd & bnw & Hbn & H).
  assert (0 <= value (count sd) /\
          4 * value (count sd) + Z.of_nat (length (weights_file sd))
          = 4 * value (count st) + Z.of_nat (length (weights_file st))) as [Hcd Hbal].
  { destruct bn.
    - apply bind_inr_inv in Hbn as (se & b2 & Hr2 & Hbn).
      apply bind_inr_inv in Hbn as (sf & a2 & Ha2 & Hbn).
      destruct (read_array_balance [3; filters] (filters * 12) sc se sf b2 a2 Hr2 Ha2)
        as (-> & Hce & Hp2 & Hl2); [cbn [fold_right]; lia|].
      cbn [fold_right] in Hp2, Hl2.
      apply bind_inr_inv in Hbn as (sg & [] & Hac2 & Hbn).
      apply add_count_inv in Hac2 as [Hwg Hvg]; [|rewrite Hce, Hvc; lia].
      apply ret_inv in Hbn as [-> ->].
      rewrite Hwg, Hvg, Hce, Hl2, Hwc, Hvc, Hl1. lia.
    - apply ret_inv in Hbn as [-> ->].
      rewrite Hwc, Hvc, Hl1. lia. }
  clear Hbn.
  apply bind_inr_inv in H as (se & b3 & Hr3 & H).
  apply bind_inr_inv in H as (sf & kernel & Ha3 & H).
  assert (fold_right Z.mul 1 [filters; in_dim; size; size] = size * size * in_dim * filters)
    as HP by (cbn [fold_right]; ring).
  destruct (read_array_balance [filters; in_dim; size; size] _ sd se sf b3 kernel Hr3 Ha3)
    as (-> & Hce & Hp3 & Hl3).
  { rewrite HP. intros Hp Hb. unfold Np.mul64.
    rewrite product_4, (wrap64_small (size * size * in_dim * filters)) by lia.
    rewrite wrap64_small by lia. ring. }
  rewrite HP in Hp3, Hl3.
  apply bind_inr_inv in H as (sg & [] & Hac3 & H).
  assert (Np.product [size; size; in_dim; filters] = size * size * in_dim * filters) as Hprod.
  { apply float32_array_inv in Ha3 as (_ & _ & _ & Hb). rewrite HP in Hb.
    rewrite product_4. apply wrap64_small. lia. }
  rewrite Hprod in Hac3.
  apply add_count64_inv in Hac3 as [Hwg Hvg]; [|rewrite Hce; lia].
  apply bind_inr_inv in H as (sh & k' & Ht & H).
  apply of_option_inv in Ht as [-> _]. apply ret_inv in H as [-> _].
  rewrite Hwg, Hvg, Hce, Hl3. split; lia.
Qed.

Lemma process_section_balance v2 wd sec st st' :
  process_section v2 wd sec st = (st', inr tt) ->
  0 <= value (count st) ->
  4 * value (count st) + Z.of_nat (length (weights_file st)) < 2 ^ 63 ->
  0 <= value (count st') /\
  4 * value (count st') + Z.of_nat (length (weights_file st'))
  = 4 * value (count st) + Z.of_nat (length (weights_file st)).
Proof.
  destruct sec as [section items]. intros H Hc Hk.
  destruct (Py.startswith section "convolutional") eqn:Hconv.
  - rewrite (process_convolutional _ _ _ _ Hconv) in H. unfold convolutional in H.
    apply bind_inr_inv in H as (s1 & filters & H1 & H). apply get_int_inv in H1 as [-> _].
    apply bind_inr_inv in H as (s1 & size & H1 & H). apply get_int_inv in H1 as [-> _].
    apply bind_inr_inv in H as (s1 & stride & H1 & H). apply get_int_inv in H1 as [-> _].
    apply bind_inr_inv in H as (s1 & pad & H1 & H). apply get_int_inv in H1 as [-> _].
    apply bind_inr_inv in H as (s1 & activation & H1 & H). apply getitem_inv in H1 as [-> _].
    apply bind_inr_inv in H as (st1 & [[bias bnw] kernel] & Hw & H).
    cbv beta iota zeta in H.
    destruct (convolutional_weights_balance _ _ _ _ _ _ Hw Hc Hk) as [Hc1 Hb1].
    match type of H with
    | ?m st1 = _ =>
        match m with
        | convolutional_layers ?a ?b ?c ?d ?e ?f ?g ?h ?i ?j =>
            pose proof (convolutional_layers_stream a b c d e f g h i j st1) as Hfr
        end
    end.
    cbv beta in Hfr. rewrite H in Hfr. cbn [fst] in Hfr. injection Hfr as -> ->.
    auto.
  - assert (frame (fun st => (weights_file st, count st))
                  (process_section v2 wd (section, items))) as Hfr.
    { unfold process_section. rewrite Hconv.
      unfold maxpool, avgpool, route, reorg, shortcut, upsample, yolo, region, write_anchors,
        get_int, getitem, py_assert, append_layer, prev_from_last, layer_at.
      frame_solve. }
    specialize (Hfr st). rewrite H in Hfr. cbn [fst] in Hfr. injection Hfr as -> ->.
    auto.
Qed.

(** X13. The scalar count keeps step with the stream: along the sections
    of a config that are processed without error, four times [count] plus
    the number of unread bytes stays what it was. Every byte taken from the
    stream is counted, once, as a quarter of a scalar; the size
    computations in 64 bits cannot wrap on a stream that is really there. *)
Theorem count_tracks_the_stream (v2 : bool) (weight_decay : string)
    (secs : list (string * gmap string string)) (st st' : state) :
  0 <= value (count st) ->
  4 * value (count st) + Z.of_nat (length (weights_file st)) < 2 ^ 63 ->
  process_sections v2 weight_decay secs st = (st', inr tt) ->
  4 * value (count st') + Z.of_nat (length (weights_file st'))
  = 4 * value (count st) + Z.of_nat (length (weights_file st)).
Proof.
  revert st. induction secs as [|sec secs IH]; intros st Hc Hk H;
    cbn [process_sections] in H.
  - apply ret_inv in H as [-> _]. reflexivity.
  - apply bind_inr_inv in H as (st1 & [] & Hsec & Hrest).
    destruct (process_section_balance _ _ _ _ _ Hsec Hc Hk) as [Hc1 Hb1].
    rewrite <- Hb1. apply IH; [exact Hc1 | lia | exact Hrest].
Qed.

End Balance.

(** ** The outputs of the model *)

Section Outputs.
Import Conv.
Local Open Scope Z_scope.

Lemma keras_Model_run ins outs xs ys st :
  mapM id ins = Some xs -> mapM id outs = Some ys ->
  keras_Model ins outs st = (st, inr (mk_model xs ys (graph st))).
Proof. intros Hx Hy. unfold keras_Model. rewrite Hx, Hy. reflexivity. Qed.

(** X14. The model of the single-output variant goes from the first layer
    to the last one. The model of the multi-output variant goes from the
    input tensor to the layers whose indices the yolo sections recorded, in
    the order recorded; when none was recorded the index of the last layer is
    recorded first, so the model has that one output. *)
Theorem model_outputs (st : state) :
  (forall i o,
     Py.index (all_layers st) 0 = Some (Some i) ->
     Py.index (all_layers st) (-1) = Some (Some o) ->
     build_model true st = (st, inr (mk_model [i] [o] (graph st)))) /\
  (forall oi i ts,
     out_index st = Some oi -> input_layer st = Some i ->
     let recorded :=
       match oi with [] => [Z.of_nat (length (all_layers st)) - 1] | _ => oi end in
     Forall2 (fun k t => Py.index (all_layers st) k = Some (Some t)) recorded ts ->
     build_model false st
     = (set_out_index (Some recorded) st, inr (mk_model [i] ts (graph st)))).
Proof.
  split.
  - intros i o Hi Ho. unfold build_model.
    erewrite bind_inr
      by (unfold layer_at; erewrite bind_inr by reflexivity; cbv beta; rewrite Hi; reflexivity).
    erewrite bind_inr
      by (unfold layer_at; erewrite bind_inr by reflexivity; cbv beta; rewrite Ho; reflexivity).
    apply keras_Model_run; reflexivity.
  - intros oi i ts Ho Hi recorded Hts. unfold build_model.
    erewrite bind_inr by reflexivity. rewrite Ho.
    erewrite bind_inr by reflexivity.
    erewrite bind_inr by reflexivity.
    assert ((if (length oi =? 0)%nat
             then oi ++ [Z.of_nat (length (all_layers st)) - 1] else oi) = recorded) as ->
      by (subst recorded; destruct oi; reflexivity).
    erewrite bind_inr by reflexivity.
    assert (Forall2 (fun k x => Py.index (all_layers (set_out_index (Some recorded) st)) k
                                = Some x) recorded (Some <$> ts)) as Hxs.
    { cbn [all_layers set_out_index]. clear -Hts. induction Hts; constructor; auto. }
    erewrite bind_inr by (apply for_each_layer_at_run; exact Hxs).
    erewrite bind_inr by reflexivity.
    cbn [input_layer set_out_index]. rewrite Hi.
    rewrite (keras_Model_run [Some i] (Some <$> ts) [i] ts); [reflexivity | reflexivity |].
    apply mapM_id_Some.
Qed.

Lemma mapM_id_None (outs : list (option tensor)) : None ∈ outs -> mapM id outs = None.
Proof.
  induction outs as [|x outs IH]; intros H; [inversion H|].
  apply elem_of_cons in H as [<-|H]; [reflexivity|].
  cbn. destruct x; [|reflexivity]. cbn. rewrite (IH H). reflexivity.
Qed.

Lemma Forall2_elem_l {A B} (R : A -> B -> Prop) l1 l2 x :
  Forall2 R l1 l2 -> x ∈ l1 -> exists y, y ∈ l2 /\ R x y.
Proof.
  induction 1 as [|a b l1 l2 Hab _ IH]; intros Hx; [inversion Hx|].
  apply elem_of_cons in Hx as [->|Hx].
  - exists b. split; [left | exact Hab].
  - destruct (IH Hx) as (y & Hy & HR). exists y. split; [right; exact Hy | exact HR].
Qed.

Lemma build_model_placeholder st oi k :
  out_index st = Some oi -> k ∈ oi -> Py.index (all_layers st) k = Some None ->
  raises (build_model false) st.
Proof.
  intros Ho Hk Hnone. unfold raises, build_model.
  erewrite bind_inr by reflexivity. rewrite Ho.
  erewrite bind_inr by reflexivity.
  erewrite bind_inr by reflexivity.
  assert ((if (length oi =? 0)%nat
           then oi ++ [Z.of_nat (length (all_layers st)) - 1] else oi) = oi) as ->
    by (destruct oi; [inversion Hk | reflexivity]).
  erewrite bind_inr by reflexivity.
  destruct (for_each layer_at oi (set_out_index (Some oi) st)) as [s [e|outs]] eqn:E.
  - erewrite bind_inl by exact E. eauto.
  - erewrite bind_inr by exact E.
    apply for_each_layer_at_inv in E as [-> Hf].
    destruct (Forall2_elem_l _ _ _ _ Hf Hk) as (x & Hx & Hix).
    cbn [all_layers set_out_index] in Hix. rewrite Hnone in Hix. injection Hix as <-.
    erewrite bind_inr by reflexivity.
    unfold keras_Model. rewrite (mapM_id_None outs Hx).
    destruct (mapM id [input_layer (set_out_index (Some oi) st)]); eauto.
Qed.

Lemma process_section_out_index v2 wd sec st st' oi :
  process_section v2 wd sec st = (st', inr tt) -> out_index st = Some oi ->
  exists more, out_index st' = Some (oi ++ more).
Proof.
  destruct sec as [section items]. intros H Ho.
  destruct (Py.startswith section "yolo") eqn:Hy.
  - rewrite (process_yolo _ _ _ _ Hy) in H.
    destruct (yolo_inr_inv _ _ _ H) as (a & oi' & Ha & Ho').
    rewrite (yolo_run _ _ _ _ Ha Ho') in H. injection H as <-.
    cbn [out_index set_prev_layer set_all_layers set_out_index].
    rewrite Ho in Ho'. injection Ho' as <-. eauto.
  - assert (frame out_index (process_section v2 wd (section, items))) as Hfr.
    { unfold process_section. rewrite Hy.
      unfold convolutional, convolutional_weights, convolutional_layers, maxpool, avgpool,
        route, reorg, shortcut, upsample, region, write_anchors, get_int, getitem, py_assert,
        append_layer, prev_from_last, layer_at, float32_array, int_shape_last.
      frame_solve. }
    specialize (Hfr st). rewrite H in Hfr. cbn [fst] in Hfr.
    exists []. rewrite app_nil_r. congruence.
Qed.

(** X15. Two yolo sections in a row cannot be converted: the second one
    records the index of the placeholder that the first one appended, the
    placeholder stays at that index whatever sections follow, and building
    the model from the recorded layers raises. *)
Theorem adjacent_yolo_sections_fail (weight_decay : string)
    (first second : string) (items1 items2 : gmap string string)
    (rest : list (string * gmap string string)) (st st' : state) :
  Py.startswith first "yolo" = true -> Py.startswith second "yolo" = true ->
  process_sections false weight_decay ((first, items1) :: (second, items2) :: rest) st
  = (st', inr tt) ->
  raises (build_model false) st'.
Proof.
  intros Hy1 Hy2 H. cbn [process_sections] in H.
  apply bind_inr_inv in H as (s1 & [] & H1 & H).
  apply bind_inr_inv in H as (s2 & [] & H2 & H).
  rewrite (process_yolo _ _ _ _ Hy1) in H1. rewrite (process_yolo _ _ _ _ Hy2) in H2.
  destruct (yolo_inr_inv _ _ _ H1) as (a1 & oi & Ha1 & Ho1).
  rewrite (yolo_run _ _ _ _ Ha1 Ho1) in H1. injection H1 as <-.
  destruct (yolo_inr_inv _ _ _ H2) as (a2 & oi2 & Ha2 & Ho2).
  rewrite (yolo_run _ _ _ _ Ha2 Ho2) in H2. injection H2 as <-.
  cbn [out_index all_layers set_prev_layer set_all_layers set_out_index set_anchors_txt]
    in Ho2, H.
  injection Ho2 as <-.
  set (L := length (all_layers st)) in *.
  match type of H with process_sections _ _ _ ?s = _ => set (s2 := s) in * end.
  assert (out_index s2 = Some ((oi ++ [Z.of_nat L - 1]) ++ [Z.of_nat (L + 1) - 1])) as Ho.
  { subst s2 L. cbn. rewrite length_app. reflexivity. }
  assert (all_layers s2 = (all_layers st ++ [None]) ++ [None]) as Hl by reflexivity.
  assert (exists more, out_index st' = Some (((oi ++ [Z.of_nat L - 1])
                                               ++ [Z.of_nat (L + 1) - 1]) ++ more)
                       /\ all_layers s2 `prefix_of` all_layers st') as (more & Ho' & Hpre).
  { clear -H Ho. revert H Ho. generalize ((oi ++ [Z.of_nat L - 1]) ++ [Z.of_nat (L + 1) - 1]).
    generalize s2. induction rest as [|sec rest IH]; intros s l H Ho; cbn [process_sections] in H.
    - apply ret_inv in H as [-> _]. exists []. rewrite app_nil_r. split; [exact Ho | reflexivity].
    - apply bind_inr_inv in H as (s1 & [] & Hsec & H).
      destruct (process_section_out_index _ _ _ _ _ _ Hsec Ho) as (m1 & Ho1).
      apply process_section_effect in Hsec as [He _].
      apply effect_grows in He as (_ & Ha & _).
      destruct (IH _ _ H Ho1) as (m2 & Ho2 & Hp).
      exists (m1 ++ m2). rewrite app_assoc. split; [exact Ho2 | etrans; eassumption]. }
  apply (build_model_placeholder st' _ (Z.of_nat L) Ho').
  - apply elem_of_app. left. apply elem_of_app. right.
    replace (Z.of_nat (L + 1) - 1) with (Z.of_nat L) by lia. left.
  - destruct Hpre as [k Hk]. rewrite Hk, Hl. unfold Py.index.
    destruct (Z.leb_spec 0 (Z.of_nat L)); [|lia]. rewrite Nat2Z.id.
    rewrite lookup_app_l by (rewrite !length_app; cbn [length]; subst L; lia).
    rewrite lookup_app_l by (rewrite !length_app; cbn [length]; subst L; lia).
    apply list_lookup_middle. reflexivity.
Qed.

End Outputs.

(** ** The set-up before the loop *)

Section Setup.
Import Conv.
Local Open Scope Z_scope.

Lemma section_items_missing (cfg : list (string * gmap string string)) name st :
  name ∉ fst <$> cfg -> section_items cfg name st = (st, inl (KeyError name)).
Proof.
  intros Hn. unfold section_items.
  assert (list_find (fun sec : string * gmap string string => fst sec = name) cfg = None) as ->.
  { apply list_find_None, Forall_forall. intros sec Hsec Heq. apply Hn.
    apply list_elem_of_fmap. exists sec. split; [symmetry; exact Heq | exact Hsec]. }
  reflexivity.
Qed.

Lemma section_items_inv (cfg : list (string * gmap string string)) name st st' items :
  section_items cfg name st = (st', inr items) ->
  st' = st /\ exists i, cfg !! i = Some (name, items) /\
                        forall j sec, cfg !! j = Some sec -> (j < i)%nat -> fst sec <> name.
Proof.
  unfold section_items. intros H.
  destruct (list_find _ cfg) as [[i [n its]]|] eqn:E; cbn in H; [|discriminate].
  injection H as <- <-. split; [reflexivity|].
  apply list_find_Some in E as (Hi & Hn & Hbefore). cbn in Hn. subst n.
  exists i. split; [exact Hi | exact Hbefore].
Qed.

(** X16. The weight decay comes from the key "decay" of the first section
    named net_0 and is 5e-4 exactly when the config has no such section. In
    that case the set-up returns only for a fully convolutional model:
    otherwise the image size is looked up in net_0 first, which raises
    [KeyError("net_0")] before the input layer is made. *)
Theorem weight_decay_source (v2 : bool) (cfg : list (string * gmap string string))
    (st : state) :
  ("net_0" ∉ fst <$> cfg ->
     setup v2 false cfg st = (st, inl (KeyError "net_0")) /\
     exists st', setup v2 true cfg st = (st', inr "5e-4")) /\
  (forall fully_convolutional st' weight_decay,
     "net_0" ∈ fst <$> cfg ->
     setup v2 fully_convolutional cfg st = (st', inr weight_decay) ->
     exists i items,
       cfg !! i = Some ("net_0", items) /\
       (forall j sec, cfg !! j = Some sec -> (j < i)%nat -> fst sec <> "net_0") /\
       items !! "decay" = Some weight_decay).
Proof.
  split.
  - intros Hn. split.
    + unfold setup. erewrite bind_inl; [reflexivity|].
      erewrite bind_inl; [reflexivity|]. apply section_items_missing, Hn.
    + unfold setup. rewrite bool_decide_eq_false_2 by exact Hn.
      destruct v2; eexists; reflexivity.
  - intros fc st' wd Hin H. unfold setup in H.
    rewrite bool_decide_eq_true_2 in H by exact Hin.
    apply bind_inr_inv in H as (s1 & hw & _ & H).
    apply bind_inr_inv in H as (s2 & [] & _ & H).
    apply bind_inr_inv in H as (s3 & items & Hsec & H).
    apply section_items_inv in Hsec as (-> & i & Hi & Hbefore).
    apply bind_inr_inv in H as (s4 & decay & Hd & H).
    apply getitem_inv in Hd as (-> & Hd).
    unfold py_assert_float in H. destruct (Py.is_float decay); [|discriminate].
    apply ret_inv in H as [_ <-].
    exists i, items. auto.
Qed.

End Setup.

(** ** The renaming on any file *)

Section Renaming.
Import Uniq.

Lemma rename_other (counters : gmap string nat) line :
  Py.startswith line "[" = false -> rename_line counters line = (counters, line).
Proof. intros H. unfold rename_line. rewrite H. reflexivity. Qed.

Lemma uniquify_lines_length (counters : gmap string nat) lines :
  length (uniquify_lines counters lines) = length lines.
Proof.
  revert counters. induction lines as [|line rest IH]; intros counters; [reflexivity|].
  cbn [uniquify_lines]. destruct (rename_line counters line) as [c' l'].
  cbn [length]. rewrite IH. reflexivity.
Qed.

Lemma uniquify_lines_other (counters : gmap string nat) lines (i : nat) line :
  lines !! i = Some line -> Py.startswith line "[" = false ->
  uniquify_lines counters lines !! i = Some line.
Proof.
  revert counters i. induction lines as [|l rest IH]; intros counters i Hi Hs; [discriminate|].
  cbn [uniquify_lines]. destruct (rename_line counters l) as [c' l'] eqn:E.
  destruct i as [|i].
  - injection Hi as ->. rewrite (rename_other _ _ Hs) in E. injection E as _ <-. reflexivity.
  - cbn. apply IH; assumption.
Qed.

Lemma uniquify_lines_no_header (counters : gmap string nat) lines :
  Forall (fun line => Py.startswith line "[" = false) lines ->
  uniquify_lines counters lines = lines.
Proof.
  induction 1 as [|line rest Hs _ IH]; [reflexivity|].
  cbn [uniquify_lines]. rewrite (rename_other _ _ Hs). rewrite IH. reflexivity.
Qed.

Lemma rev_cons c s : String.rev (String c s) = String.rev s +:+ String c "".
Proof. unfold String.rev. cbn [String.rev_app]. apply rev_app_append. Qed.

Lemma concat_readlines_go cur s :
  concat_lines (readlines_go cur s) = String.rev cur +:+ s.
Proof.
  revert cur. induction s as [|c s IH]; intros cur; cbn [readlines_go].
  - destruct cur; [reflexivity|]. cbn [concat_lines]. reflexivity.
  - case_decide.
    + cbn [concat_lines]. rewrite IH, rev_cons, append_assoc. reflexivity.
    + rewrite IH, rev_cons, append_assoc. reflexivity.
Qed.

(** X17. Whatever the file holds, the renaming writes as many lines as it
    reads and writes every line that does not start with a bracket as it is,
    at its place; a file none of whose lines starts with a bracket is
    returned unchanged. *)
Theorem other_lines_are_copied (text : string) :
  length (uniquify_lines ∅ (readlines text)) = length (readlines text) /\
  (forall (i : nat) line,
     readlines text !! i = Some line -> Py.startswith line "[" = false ->
     uniquify_lines ∅ (readlines text) !! i = Some line) /\
  (Forall (fun line => Py.startswith line "[" = false) (readlines text) ->
   unique_config_sections text = text).
Proof.
  split; [apply uniquify_lines_length|]. split.
  - intros i line. apply uniquify_lines_other.
  - intros H. unfold unique_config_sections. rewrite (uniquify_lines_no_header _ _ H).
    unfold readlines. rewrite concat_readlines_go. reflexivity.
Qed.

End Renaming.

(** ** The new names are distinct *)

Section Distinct.
Import Uniq.

Local Abbreviation not_underscore := (fun c : ascii => negb (bool_decide (c = "_"%char))).
Local Abbreviation not_bracket := (fun c : ascii => negb (bracket c)).

Lemma pretty_N_go_chars (p : ascii -> bool) x s :
  (forall d, p (pretty_N_char d) = true) ->
  all_chars p s = true -> all_chars p (pretty_N_go x s) = true.
Proof.
  intros Hp. revert s. induction (N.lt_wf_0 x) as [x _ IH]; intros s Hs.
  assert (x = 0 \/ 0 < x)%N as [->|Hx] by lia; [exact Hs|].
  rewrite pretty_N_go_step by exact Hx. apply IH.
  - apply N.div_lt; lia.
  - cbn [all_chars]. rewrite Hp, Hs. reflexivity.
Qed.

Lemma pretty_N_go_nonempty x s : s <> "" -> pretty_N_go x s <> "".
Proof.
  revert s. induction (N.lt_wf_0 x) as [x _ IH]; intros s Hs.
  assert (x = 0 \/ 0 < x)%N as [->|Hx] by lia; [exact Hs|].
  rewrite pretty_N_go_step by exact Hx. apply IH; [apply N.div_lt; lia | discriminate].
Qed.

Lemma str_chars (p : ascii -> bool) (n : nat) :
  (forall d, p (pretty_N_char d) = true) -> all_chars p (Py.str n) = true.
Proof.
  intros Hp. unfold Py.str, pretty, pretty_nat, pretty, pretty_N. case_decide.
  - pose proof (Hp 0%N) as H0. cbn in H0. cbn [all_chars]. rewrite H0. reflexivity.
  - apply pretty_N_go_chars; [exact Hp | reflexivity].
Qed.

Lemma str_nonempty (n : nat) : Py.str n <> "".
Proof.
  unfold Py.str, pretty, pretty_nat, pretty, pretty_N. case_decide; [discriminate|].
  rewrite pretty_N_go_step by lia. apply pretty_N_go_nonempty. discriminate.
Qed.

Lemma str_no_underscore (n : nat) : all_chars not_underscore (Py.str n) = true.
Proof. apply str_chars. intros d. unfold pretty_N_char. repeat case_match; reflexivity. Qed.

Lemma str_no_bracket (n : nat) : all_chars not_bracket (Py.str n) = true.
Proof. apply str_chars. intros d. unfold pretty_N_char. repeat case_match; reflexivity. Qed.

Lemma underscore_inside x d : all_chars not_underscore (x +:+ "_" +:+ d) = false.
Proof.
  induction x as [|c x IH]; [reflexivity|].
  change (all_chars not_underscore (String c (x +:+ "_" +:+ d)) = false).
  cbn [all_chars]. rewrite IH. apply andb_false_r.
Qed.

(** A name that ends with an underscore and a number is split in one way. *)
Lemma suffix_split x x' d d' :
  all_chars not_underscore d = true -> all_chars not_underscore d' = true ->
  x +:+ "_" +:+ d = x' +:+ "_" +:+ d' -> x = x' /\ d = d'.
Proof.
  intros Hd Hd'. revert x'. induction x as [|c x IH]; intros [|c' x'] H.
  - change (String "_" d = String "_" d') in H. injection H as ->. split; reflexivity.
  - change (String "_" d = String c' (x' +:+ "_" +:+ d')) in H. injection H as <- ->.
    rewrite underscore_inside in Hd. discriminate.
  - change (String c (x +:+ "_" +:+ d) = String "_" d') in H. injection H as -> <-.
    rewrite underscore_inside in Hd'. discriminate.
  - change (String c (x +:+ "_" +:+ d) = String c' (x' +:+ "_" +:+ d')) in H.
    injection H as -> H.
    destruct (IH _ H) as [-> ->]. split; reflexivity.
Qed.

Lemma count_occ_cons_le (seen : list string) name n :
  count_occ string_dec seen n <= count_occ string_dec (name :: seen) n.
Proof. cbn [count_occ]. destruct (string_dec name n); lia. Qed.

Lemma names_form seen ls x :
  x ∈ header_names (spec_number seen ls) ->
  exists n k, x = n +:+ "_" +:+ Py.str k /\ count_occ string_dec seen n <= k.
Proof.
  revert seen. induction ls as [|[name trail|text] rest IH]; intros seen Hx; cbn in Hx.
  - inversion Hx.
  - apply elem_of_cons in Hx as [->|Hx]; [eauto|].
    destruct (IH _ Hx) as (n & k & -> & Hk). exists n, k. split; [reflexivity|].
    pose proof (count_occ_cons_le seen name n). lia.
  - exact (IH _ Hx).
Qed.

Lemma names_distinct seen ls : NoDup (header_names (spec_number seen ls)).
Proof.
  revert seen. induction ls as [|[name trail|text] rest IH]; intros seen;
    cbn [spec_number header_names]; [constructor| |apply IH].
  constructor; [|apply IH]. intros Hin.
  apply names_form in Hin as (n & k & Heq & Hk).
  apply suffix_split in Heq as [-> Heq]; try apply str_no_underscore.
  apply (inj pretty) in Heq. subst k.
  cbn [count_occ] in Hk. destruct (string_dec n n); [lia | congruence].
Qed.

Lemma last_char_app s t : t <> "" -> last_char (s +:+ t) = last_char t.
Proof.
  intros Ht. induction s as [|c s IH]; [reflexivity|].
  rewrite append_cons. cbn [last_char]. rewrite IH.
  destruct (s +:+ t) eqn:E; [|reflexivity].
  destruct s as [|a s]; [change (t = "") in E; congruence|].
  change (String a (s +:+ t) = "") in E. discriminate.
Qed.

Lemma last_char_all (p : ascii -> bool) t :
  all_chars p t = true -> t <> "" -> exists d, last_char t = Some d /\ p d = true.
Proof.
  induction t as [|c t IH]; intros Hall Hne; [congruence|].
  cbn [all_chars] in Hall. apply andb_prop in Hall as [Hc Ht].
  destruct t as [|c' t]; [exists c; auto|].
  destruct IH as (d & Hd & Hp); [exact Ht | discriminate|].
  exists d. split; [exact Hd | exact Hp].
Qed.

Lemma name_ok_numbered name (k : nat) :
  name_ok name = true -> name_ok (name +:+ "_" +:+ Py.str k) = true.
Proof.
  intros Hok. destruct (name_ok_inv _ Hok) as (c & rest & -> & _).
  unfold name_ok in *. apply andb_prop in Hok as [Hfirst _].
  rewrite append_cons. rewrite Hfirst. cbn [andb].
  rewrite <- append_cons, <- append_assoc.
  rewrite last_char_app by apply str_nonempty.
  destruct (last_char_all not_bracket (Py.str k)) as (d & -> & Hd);
    [apply str_no_bracket | apply str_nonempty | exact Hd].
Qed.

Lemma spec_number_ok seen ls :
  Forall (fun l => line_ok l = true) ls ->
  Forall (fun l => line_ok l = true) (spec_number seen ls).
Proof.
  intros H. revert seen. induction H as [|[name trail|text] rest Hl _ IH]; intros seen;
    cbn [spec_number]; constructor; try apply IH; try exact Hl.
  cbn [line_ok] in *. apply andb_prop in Hl as [Hn Ht].
  rewrite (name_ok_numbered _ _ Hn), Ht. reflexivity.
Qed.

Lemma section_names_render ls :
  Forall (fun l => line_ok l = true) ls -> section_names (render <$> ls) = header_names ls.
Proof.
  unfold section_names.
  induction 1 as [|[name trail|text] rest Hl _ IH]; [reflexivity| |]; cbn [fmap list_fmap].
  - cbn [line_ok] in Hl. apply andb_prop in Hl as [Hn Ht].
    rewrite filter_cons_True by apply (prefix_app "[").
    cbn [fmap list_fmap header_names]. cbn [fmap list_fmap] in IH. rewrite IH.
    cbn [render]. rewrite (strip_header _ _ Ht), (strip_brackets _ Hn). reflexivity.
  - cbn [line_ok] in Hl. apply negb_true_iff in Hl.
    rewrite filter_cons_False by (cbn [render]; congruence).
    exact IH.
Qed.

(** X18. No two sections of the renamed config have the same name, also when
    a section of the input is already named like a numbered one: the names
    read from the lines written are pairwise distinct. *)
Theorem renamed_sections_are_distinct (ls : list cfg_line) :
  Forall (fun l => line_ok l = true) ls ->
  NoDup (section_names (uniquify_lines ∅ (render <$> ls))).
Proof.
  intros Hok.
  rewrite (uniquify_lines_spec ∅ [] ls) by first [exact Hok | intros name; rewrite lookup_empty; reflexivity].
  rewrite section_names_render by (apply spec_number_ok; exact Hok).
  apply names_distinct.
Qed.

End Distinct.

(** ** Every byte of the file is accounted for *)

Section Accounting.
Import Conv.
Local Open Scope Z_scope.

Lemma process_sections_balance v2 wd secs st st' :
  process_sections v2 wd secs st = (st', inr tt) ->
  0 <= value (count st) ->
  4 * value (count st) + Z.of_nat (length (weights_file st)) < 2 ^ 63 ->
  0 <= value (count st') /\
  4 * value (count st') + Z.of_nat (length (weights_file st'))
  = 4 * value (count st) + Z.of_nat (length (weights_file st)).
Proof.
  revert st. induction secs as [|sec secs IH]; intros st H Hc Hk;
    cbn [process_sections] in H.
  - apply ret_inv in H as [-> _]. auto.
  - apply bind_inr_inv in H as (st1 & [] & Hsec & Hrest).
    destruct (process_section_balance _ _ _ _ _ Hsec Hc Hk) as [Hc1 Hb1].
    rewrite <- Hb1. apply IH; [exact Hrest | exact Hc1 | lia].
Qed.

Lemma int32_array_inv n buf st st' h :
  int32_array n buf st = (st', inr h) ->
  st' = st /\ (4 * n <= length buf)%nat /\
  h = (fun k => Np.int32_of_bytes (drop (4 * k)%nat buf)) <$> seq 0 n.
Proof.
  unfold int32_array. destruct (Nat.ltb_spec (length buf) (4 * n)); [discriminate|].
  intros [= <- <-]. auto.
Qed.

Lemma int64_array1_inv buf st st' :
  int64_array1 buf st = (st', inr tt) -> st' = st /\ (8 <= length buf)%nat.
Proof.
  unfold int64_array1. destruct (Nat.ltb_spec (length buf) 8); [discriminate|].
  intros [= <-]. auto.
Qed.

(** The header read returns only when the whole header is there. *)
Lemma read_header_inv v2 st st' :
  read_header v2 st = (st', inr tt) ->
  let ws := weights_file st in
  let header :=
    if v2 then 16
    else 12 + seen_width (Np.int32_of_bytes ws) (Np.int32_of_bytes (drop 4 ws)) in
  header <= Z.of_nat (length ws) /\ st' = set_weights_file (drop (Z.to_nat header) ws) st.
Proof.
  intros H ws header. unfold read_header in H. destruct v2.
  - apply bind_inr_inv in H as (s1 & b & Hr & H).
    apply read_inv in Hr as (k & -> & -> & Hk). rewrite Hk in * by lia.
    apply bind_inr_inv in H as (s2 & h & Ha & H).
    apply int32_array_inv in Ha as (-> & Hlen & _). apply ret_inv in H as [-> _].
    fold ws in Hlen |- *. rewrite length_take in Hlen.
    subst header. split; [lia | reflexivity].
  - apply bind_inr_inv in H as (s1 & b & Hr & H).
    apply read_inv in Hr as (k & -> & -> & Hk). rewrite Hk in * by lia.
    apply bind_inr_inv in H as (s2 & h & Ha & H).
    apply int32_array_inv in Ha as (-> & Hlen & ->).
    fold ws in Hlen, H. rewrite length_take in Hlen.
    change (Z.to_nat 12) with 12%nat in *.
    change (seq 0 3) with [0%nat; 1%nat; 2%nat] in H.
    cbn [fmap list_fmap lookup list_lookup default from_option id Nat.mul Nat.add] in H.
    rewrite (int32_of_bytes_drop_take 0 12 ws) in H by lia.
    rewrite (int32_of_bytes_drop_take 4 12 ws) in H by lia.
    change (drop 0 ws) with ws in H.
    subst header. unfold seen_width.
    destruct (seen_is_int64 (Np.int32_of_bytes ws) (Np.int32_of_bytes (drop 4 ws))).
    + apply bind_inr_inv in H as (s3 & b & Hr & H).
      apply read_inv in Hr as (k' & -> & -> & Hk'). rewrite Hk' in * by lia.
      apply int64_array1_inv in H as (-> & Hlen8).
      cbn [weights_file set_weights_file] in *.
      change (Z.to_nat 8) with 8%nat in *. rewrite length_take, length_drop in Hlen8.
      rewrite drop_drop. split; [lia|]. reflexivity.
    + apply bind_inr_inv in H as (s3 & b & Hr & H).
      apply read_inv in Hr as (k' & -> & -> & Hk'). rewrite Hk' in * by lia.
      apply bind_inr_inv in H as (s4 & h & Ha & H).
      apply int32_array_inv in Ha as (-> & Hlen4 & _). apply ret_inv in H as [-> _].
      cbn [weights_file set_weights_file] in *.
      change (Z.to_nat 4) with 4%nat in *. rewrite length_take, length_drop in Hlen4.
      rewrite drop_drop. split; [lia|]. reflexivity.
Qed.

Lemma process_section_stdout v2 wd sec : frame stdout (process_section v2 wd sec).
Proof.
  destruct sec as [section items]. unfold process_section.
  unfold convolutional, convolutional_weights, convolutional_layers, maxpool, avgpool,
    route, reorg, shortcut, upsample, yolo, region, write_anchors, get_int, getitem, py_assert,
    append_layer, prev_from_last, layer_at, float32_array, int_shape_last, read,
    add_count, add_count64.
  frame_solve.
Qed.

Lemma process_sections_stdout v2 wd secs : frame stdout (process_sections v2 wd secs).
Proof.
  induction secs as [|sec secs IH]; cbn [process_sections]; [apply frame_ret|].
  apply frame_bind; [apply process_section_stdout | intros _; exact IH].
Qed.

Lemma setup_stdout v2 fc cfg st st' wd :
  setup v2 fc cfg st = (st', inr wd) -> stdout st' = stdout st.
Proof.
  intros H.
  assert (frame stdout (setup v2 fc cfg)) as Hfr.
  { unfold setup, section_items, get_int, getitem, py_assert_float. frame_solve. }
  specialize (Hfr st). rewrite H in Hfr. exact Hfr.
Qed.

(** X19. A conversion that returns accounts for every byte of the weight
    file: the bytes after the header (16 in the single-output variant,
    otherwise 12 and the 4 or 8 of the counter) are four for each scalar
    counted, plus the bytes left over. The one or two lines printed at the
    end give the count, the count plus a quarter of the left-over bytes, and
    the warning exactly when bytes are left over; the file is read to its
    end. *)
Theorem every_byte_is_accounted_for (v2 fully_convolutional : bool)
    (cfg : list (string * gmap string string))
    (weights : list byte) (anchors : option string) (h5 : option model) (st' : state) :
  Z.of_nat (length weights) < 2 ^ 63 ->
  main v2 fully_convolutional cfg (initial weights anchors h5) = (st', inr tt) ->
  let header :=
    if v2 then 16
    else 12 + seen_width (Np.int32_of_bytes weights) (Np.int32_of_bytes (drop 4 weights)) in
  let c := value (count st') in
  exists n : Z,
    0 <= c /\ 0 <= n /\
    header + 4 * c + n = Z.of_nat (length weights) /\
    stdout st' = [Read_of c (inject_Z c + (n # 4))%Q]
                   ++ (if bool_decide (0 < n) then [Warning_unused_weights (n # 4)%Q] else []) /\
    weights_file st' = [].
Proof.
  intros Hsize H header c. unfold main in H.
  apply bind_inr_inv in H as (s1 & [] & Hh & H).
  apply read_header_inv in Hh. cbv zeta in Hh. cbn [weights_file initial] in Hh.
  fold header in Hh. destruct Hh as [Hhdr ->].
  assert (0 <= header) as Hpos.
  { subst header. destruct v2; [lia|]. unfold seen_width. destruct (seen_is_int64 _ _); lia. }
  apply bind_inr_inv in H as (s2 & wd & Hsetup & H).
  pose proof (setup_stdout v2 fully_convolutional cfg _ _ _ Hsetup) as Hout2.
  apply setup_shape in Hsetup as (ih & iw & Hs). cbv zeta in Hs.
  destruct Hs as (_ & _ & _ & Hw2 & Hc2 & _).
  cbn [weights_file count stdout set_weights_file initial] in Hw2, Hc2, Hout2.
  apply bind_inr_inv in H as (s3 & [] & Hsecs & H).
  pose proof (process_sections_stdout v2 wd cfg s2) as Hout3.
  rewrite Hsecs in Hout3. cbn [fst] in Hout3.
  apply process_sections_balance in Hsecs as [Hc3 Hb3];
    [|rewrite Hc2; cbn; lia | rewrite Hc2, Hw2; rewrite length_drop; cbn [value]; lia].
  rewrite Hc2, Hw2, length_drop in Hb3. cbn [value] in Hb3.
  unfold finish in H. apply bind_inr_inv in H as (s4 & m & Hb & H).
  pose proof (build_model_frame v2 s3) as Hfr. rewrite Hb in Hfr. cbn [fst] in Hfr.
  injection Hfr as Hw4 Hc4 Hout4 _.
  rewrite save_and_report_run in H. injection H as <-.
  subst c. cbn [count stdout weights_file set_stdout set_weights_file set_model_h5].
  rewrite Hout4, Hout3, Hout2, Hc4, Hw4.
  exists (Z.of_nat (length (weights_file s3))).
  split; [exact Hc3|]. split; [lia|]. split; [lia|]. split; reflexivity.
Qed.

End Accounting.

(** ** Instances of the further properties *)

Section MoreInstances.
Import Conv.
Local Open Scope Z_scope.

(** X1 at a file of 21 bytes and at a file of three bytes. *)
Lemma header_reads_witness :
  let st := initial Sample.header_0_2 None None in
  let short := initial [x00; x00; x00] None None in
  read_header true st = (set_weights_file [x00; x00; x00; x00; x2a] st, inr tt) /\
  read_header false short
  = (set_weights_file [] short, inl (TypeError "buffer is too small for requested array")).
Proof.
  intros st short. split.
  - pose proof (header_reads st) as H. cbv zeta in H. destruct H as (H & _).
    apply H. vm_compute. lia.
  - pose proof (header_reads short) as H. cbv zeta in H. destruct H as (_ & _ & H & _).
    apply H. vm_compute. lia.
Defined.

(** X2 at a pooling section. *)
Lemma other_sections_read_nothing_witness :
  frame (fun st => (weights_file st, count st))
        (process_section false "5e-4" ("maxpool_0", {[ "size" := "2"; "stride" := "2" ]})).
Proof. apply other_sections_read_nothing. reflexivity. Defined.

(** X3 at a net section and at a dropout section. *)
Lemma ignored_and_unknown_sections_witness :
  process_section false "5e-4" ("net_0", Sample.net_items) Sample.before_yolo
  = (Sample.before_yolo, inr tt) /\
  process_section false "5e-4" ("dropout_0", ∅) Sample.before_yolo
  = (Sample.before_yolo, inl (ValueError "Unsupported section header type: dropout_0")).
Proof.
  split.
  - destruct (ignored_and_unknown_sections false "5e-4" "net_0" Sample.net_items
                Sample.before_yolo) as [H _].
    apply H. left. reflexivity.
  - destruct (ignored_and_unknown_sections false "5e-4" "dropout_0" ∅ Sample.before_yolo)
      as [_ H].
    apply H. repeat constructor.
Defined.

(** X4 at a stride of 3. *)
Lemma format_errors_change_nothing_witness :
  let items : gmap string string := {[ "stride" := "3" ]} in
  reorg items Sample.before_yolo
  = (Sample.before_yolo, inl (AssertionError "Only reorg with stride 2 supported.")) /\
  avgpool "avgpool_0" items Sample.before_yolo
  = (Sample.before_yolo, inl (ValueError "avgpool_0 with params unsupported.")).
Proof.
  intros items.
  destruct (format_errors_change_nothing "avgpool_0" items Sample.before_yolo)
    as (Hs & _ & Ha).
  split.
  - destruct (Hs 3) as [H _]; [reflexivity | lia | exact H].
  - apply Ha. intros E. apply (f_equal (fun m : gmap string string => m !! "stride")) in E.
    vm_compute in E. discriminate.
Defined.

(** X5 at a section without the key "filters". *)
Lemma convolutional_checks_keys_first_witness :
  convolutional false "5e-4" "convolutional_0" {[ "size" := "3" ]} Sample.before_layers
  = (Sample.before_layers, inl (KeyError "filters")).
Proof.
  destruct (convolutional_checks_keys_first false "5e-4" "convolutional_0"
              {[ "size" := "3" ]} Sample.before_layers) as [H _].
  apply H. reflexivity.
Defined.

(** X6 at a yolo section with no key at all. *)
Lemma missing_anchors_empty_the_file_witness :
  process_section false "5e-4" ("yolo_0", ∅) Sample.after_yolo
  = (set_anchors_txt (Some "") Sample.after_yolo, inl (KeyError "anchors")).
Proof.
  apply missing_anchors_empty_the_file; [left; reflexivity | reflexivity].
Defined.

(** X7 at a state of the single-output variant. *)
Lemma yolo_needs_out_index_witness :
  process_section true "5e-4" ("yolo_0", Sample.anchors_items "10,13,  16,30")
                  Sample.single_output
  = (set_anchors_txt (Some "10,13,  16,30
") Sample.single_output, inl (NameError "out_index")).
Proof.
  apply (yolo_needs_out_index true "5e-4" "yolo_0" (Sample.anchors_items "10,13,  16,30")
           Sample.single_output "10,13,  16,30"); reflexivity.
Defined.

(** X8 at a pooling section that follows one layer. *)
Lemma sections_without_weights_witness :
  let r := maxpool {[ "size" := "2"; "stride" := "2" ]} Sample.before_yolo in
  graph (fst r) = Sample.g1 ++ [mk_node (MaxPooling2D 2 2) [Sample.t1]] /\
  prev_layer (fst r) = Some (mk_tensor 2 16).
Proof.
  intros r. subst r.
  pose proof (sections_without_weights {[ "size" := "2"; "stride" := "2" ]}
                Sample.before_yolo Sample.t1 eq_refl) as H.
  cbv zeta in H. destruct H as (H & _).
  rewrite (H 2 2 eq_refl eq_refl). split; reflexivity.
Defined.

(** X9 at a leaky convolution of two filters on the input tensor. *)
Lemma convolutional_builds_witness :
  exists st',
    convolutional false "5e-4" "convolutional_0" (Sample.conv_items "leaky")
                  Sample.before_layers = (st', inr tt) /\
    all_layers st' = [Some (mk_tensor 2 2)] /\ length (graph st') = 3%nat.
Proof.
  destruct (convolutional_builds false "5e-4" "convolutional_0" (Sample.conv_items "leaky")
              Sample.before_layers Sample.t0 2 3 1 1 "leaky")
    as (bias & bnw & kernel & st1 & st' & _ & Hrun & Hbn & Hg & Hl & _);
    try reflexivity; try (right; reflexivity); try (vm_compute; lia);
    try (vm_compute; discriminate).
  exists st'. split; [exact Hrun|].
  destruct bnw; [vm_compute in Hbn; discriminate|].
  split; [exact Hl|]. rewrite Hg. reflexivity.
Defined.

(** X10 at a convolutional and a pooling section. *)
Lemma layers_only_grow_witness :
  graph Sample.before_layers `prefix_of` graph Sample.after_layers /\
  (length (all_layers Sample.after_layers) <= 0 + 2)%nat.
Proof.
  destruct (layers_only_grow false "5e-4" Sample.layers Sample.before_layers
              Sample.after_layers eq_refl) as (H1 & _ & H3 & _).
  split; [exact H1 | exact H3].
Defined.

(** X11 at a config that ends with a yolo section. *)
Lemma tail_is_last_layer_witness : tail_is_last Sample.after_sections.
Proof.
  apply (tail_is_last_layer false false Sample.cfg Sample.cfg
           (initial (repeat x01 224) None None)).
  reflexivity.
Defined.

(** X12 at the conversion of a whole config. *)
Lemma saved_model_is_feed_forward_witness :
  exists m,
    model_h5 Sample.converted = Some m /\
    (forall i nd, m_graph m !! i = Some nd ->
                  Forall (fun t => (t_node t < i)%nat) (n_inputs nd)) /\
    Forall (fun t => (t_node t < length (m_graph m))%nat) (m_inputs m ++ m_outputs m).
Proof.
  apply (saved_model_is_feed_forward false false Sample.cfg Sample.weights None None).
  reflexivity.
Defined.

(** X13 at a stream of 225 bytes of which a layer takes 224: 56 scalars are
    counted and one byte is left. *)
Lemma count_tracks_the_stream_witness :
  4 * value (count Sample.after_layers)
    + Z.of_nat (length (weights_file Sample.after_layers)) = 225.
Proof.
  rewrite (count_tracks_the_stream false "5e-4" Sample.layers Sample.before_layers
             Sample.after_layers); [reflexivity | vm_compute; discriminate
                                   | vm_compute; reflexivity | reflexivity].
Defined.

(** X14 at a graph with no recorded output: the last layer is the output. *)
Lemma model_outputs_witness :
  build_model false Sample.finished
  = (set_out_index (Some [0]) Sample.finished, inr (mk_model [Sample.t0] [Sample.t1] Sample.g1)).
Proof.
  destruct (model_outputs Sample.finished) as [_ H].
  apply (H [] Sample.t0 [Sample.t1] eq_refl eq_refl).
  constructor; [reflexivity | constructor].
Defined.

(** X15 at a config with two yolo sections in a row. *)
Lemma adjacent_yolo_sections_fail_witness : raises (build_model false) Sample.after_two_yolo.
Proof.
  apply (adjacent_yolo_sections_fail "5e-4" "yolo_0" "yolo_1"
           (Sample.anchors_items "10,13,  16,30") (Sample.anchors_items "30,61,  62,45")
           [("net_1", ∅)] Sample.before_yolo); reflexivity.
Defined.

(** X16 at an empty config and at a config with a net section. *)
Lemma weight_decay_source_witness :
  setup false false [] (initial [] None None)
  = (initial [] None None, inl (KeyError "net_0")) /\
  exists i items, Sample.cfg !! i = Some ("net_0", items) /\ items !! "decay" = Some "0.0005".
Proof.
  split.
  - destruct (weight_decay_source false [] (initial [] None None)) as [H _].
    destruct H as [H _]; [apply not_elem_of_nil | exact H].
  - destruct (weight_decay_source false Sample.cfg (initial [] None None)) as [_ H].
    destruct (H false (fst (setup false false Sample.cfg (initial [] None None))) "0.0005")
      as (i & items & Hi & _ & Hd); [left | reflexivity |].
    exists i, items. split; [exact Hi | exact Hd].
Defined.

(** X17 at a file with one header and at a file with none. *)
Lemma other_lines_are_copied_witness :
  Uniq.uniquify_lines ∅ (Uniq.readlines "[net]
height=416
") !! 1%nat = Some "height=416
" /\
  Uniq.unique_config_sections "height=416
width=416
" = "height=416
width=416
".
Proof.
  split.
  - destruct (other_lines_are_copied "[net]
height=416
") as (_ & H & _).
    apply H; reflexivity.
  - destruct (other_lines_are_copied "height=416
width=416
") as (_ & _ & H).
    apply H. repeat constructor.
Defined.

(** X18 at a config with one net and two convolutional sections. *)
Lemma renamed_sections_are_distinct_witness :
  NoDup (Uniq.section_names (Uniq.uniquify_lines ∅ (Uniq.render <$> Sample.cfg_lines))).
Proof. apply renamed_sections_are_distinct. repeat constructor. Defined.

(** X19 at the conversion of a whole config: 20 bytes of header, 56 scalars
    and nothing left over in a file of 244 bytes. *)
Lemma every_byte_is_accounted_for_witness :
  exists n : Z, 20 + 4 * 56 + n = 244 /\ weights_file Sample.converted = [].
Proof.
  destruct (every_byte_is_accounted_for false false Sample.cfg Sample.weights None None
              Sample.converted) as (n & _ & _ & Hsum & _ & Hw);
    [vm_compute; reflexivity | reflexivity |].
  exists n. split; [exact Hsum | exact Hw].
Defined.

End MoreInstances.
